(** * EcoCompute: windowed carbon-intensity forecasts, window selection,
      footprint estimates and the threshold scheduler

    A shallow embedding of

    - [src/cats/forecast.py]        (the interpolating [WindowedForecast]),
    - [src/core/forecast.py]        (the simplified [WindowedForecast] and
                                     [get_best_start_time]),
    - [src/cats/carbonFootprint.py] ([get_footprint_reduction_estimate]),
    - [src/core/job_queue.py] and [src/core/carbon_scheduler.py]
                                    (the job store, [schedule_pending_jobs] and
                                     [schedule_single_job]),
    - [src/core/carbon_api.py]      (the carbon data provider),
    - [src/core/emissions_tracker.py] (the tracking session and its log),
    - [src/cats/CI_api_interface.py] ([ciuk_request_url]).

    Conventions of the embedding.

    - A [datetime] is an instant, counted in microseconds (the resolution of
      Python's [datetime]); a [timedelta] is a signed number of microseconds.
      Their arithmetic is exact in Python, and it is exact here.  Time zones
      only change how an instant is printed, so [astimezone] is the identity.
    - A Python [float] is idealised as an exact rational ([Q]); every
      statement about values is up to [Qeq].  Rounding is not modelled
      there: the statements about values are formulas, read up to rounding,
      and bounds and signs that rounding does not change.  Where rounding
      decides, the function is also given on binary64 numbers
      ([Footprint64]).
    - Python exceptions are the constructors of [exn]; a function that can
      raise returns [result]. *)

From Stdlib Require Import String ZArith QArith Qround Bool Lia Lqa List.
From Stdlib Require Import Qfield DecimalString Permutation.
From Stdlib Require SpecFloat.
Import ListNotations.

Local Open Scope Z_scope.

(** ** Exceptions and the error monad *)

Inductive exn : Type :=
| IndexError (msg : string)
| ValueError (msg : string)
| ZeroDivisionError.

Inductive result (A : Type) : Type :=
| OK (a : A)
| Raise (e : exn).

Arguments OK {A} a.
Arguments Raise {A} e.

Definition bind {A B : Type} (m : result A) (k : A -> result B) : result B :=
  match m with
  | OK a => k a
  | Raise e => Raise e
  end.

Notation "x <- m ;; k" := (bind m (fun x => k))
  (at level 61, m at next level, right associativity).

Fixpoint mapM {A B : Type} (f : A -> result B) (l : list A) : result (list B) :=
  match l with
  | [] => OK []
  | a :: l' => b <- f a ;; bs <- mapM f l' ;; OK (b :: bs)
  end.

Definition is_ok {A : Type} (m : result A) : bool :=
  match m with OK _ => true | Raise _ => false end.

(** ** Python sequences *)

Module Py.

Definition len {A : Type} (l : list A) : Z := Z.of_nat (length l).

(** [l[i]]: a negative index counts from the end; out of range raises. *)
Definition index {A : Type} (l : list A) (i : Z) : result A :=
  let j := if i <? 0 then i + len l else i in
  if (j <? 0) || (len l <=? j) then Raise (IndexError "list index out of range")
  else match nth_error l (Z.to_nat j) with
       | Some a => OK a
       | None => Raise (IndexError "list index out of range")
       end.

(** A slice bound: negative bounds count from the end, then clamp. *)
Definition clamp {A : Type} (l : list A) (i : Z) : nat :=
  let j := if i <? 0 then i + len l else i in
  Z.to_nat (Z.min (Z.max 0 j) (len l)).

(** [l[a:b]] *)
Definition slice {A : Type} (l : list A) (a b : Z) : list A :=
  let lo := clamp l a in
  let hi := clamp l b in
  firstn (hi - lo) (skipn lo l).

(** [l[a:]] *)
Definition slice_from {A : Type} (l : list A) (a : Z) : list A :=
  skipn (clamp l a) l.

(** [l[:-1]] *)
Definition all_but_last {A : Type} (l : list A) : list A :=
  firstn (length l - 1) l.

(** [zip(xs, ys)] *)
Definition zip {A B : Type} (xs : list A) (ys : list B) : list (A * B) :=
  combine xs ys.

(** [sum(xs)] over floats: starts at 0 and adds from the left. *)
Definition sum (xs : list Q) : Q := fold_left Qplus xs 0%Q.

(** [x / y] on floats. *)
Definition truediv (x y : Q) : result Q :=
  if Qeq_bool y 0 then Raise ZeroDivisionError else OK (x / y)%Q.

(** [int(x)]: truncation toward zero. *)
Definition int (x : Q) : Z := Z.quot (Qnum x) (Zpos (Qden x)).

(** [range(n)] *)
Definition range (n : Z) : list Z := map Z.of_nat (seq 0 (Z.to_nat n)).

End Py.

(** ** Instants and durations *)

Definition datetime := Z.
Definition timedelta := Z.

(** [timedelta(minutes=m)] *)
Definition minutes (m : Z) : timedelta := m * 60000000.

(** [timedelta(hours=h)] *)
Definition hours (h : Z) : timedelta := h * 3600000000.

(** [td.total_seconds()] *)
Definition total_seconds (td : timedelta) : Q := (inject_Z td / inject_Z 1000000)%Q.

(** ** Python's [min] and the order of a [dataclass(order=True)] *)

Definition Qlt_bool (x y : Q) : bool := negb (Qle_bool y x).

(** The fields of a window record, as the tuple the generated [__lt__]
    compares: [(value, start, end, start_value, end_value)]. *)
Definition window_tuple : Type := (Q * Z * Z * Q * Q)%type.

(** Tuple comparison [a < b]: the first position where the two differ
    (by [==]) decides (by [<]); equal tuples are not less. *)
Definition tuple_lt (a b : window_tuple) : bool :=
  let '(v1, s1, e1, sv1, ev1) := a in
  let '(v2, s2, e2, sv2, ev2) := b in
  if negb (Qeq_bool v1 v2) then Qlt_bool v1 v2
  else if negb (s1 =? s2) then s1 <? s2
  else if negb (e1 =? e2) then e1 <? e2
  else if negb (Qeq_bool sv1 sv2) then Qlt_bool sv1 sv2
  else if negb (Qeq_bool ev1 ev2) then Qlt_bool ev1 ev2
  else false.

(** [min(iterable)]: keeps the first item, replaces it by a later item only
    when [item < best]. *)
Definition pick {A : Type} (lt : A -> A -> bool) (best item : A) : A :=
  if lt item best then item else best.

Definition py_min {A : Type} (lt : A -> A -> bool) (l : list A) : result A :=
  match l with
  | [] => Raise (ValueError "min() iterable argument is empty")
  | x :: xs => OK (fold_left (pick lt) xs x)
  end.

(** The order on records that compares the tuples of their fields. *)
Definition lt_by {A : Type} (key : A -> window_tuple) (a b : A) : bool :=
  tuple_lt (key a) (key b).

(** [x or default] for an optional integer: [None] and [0] are falsy. *)
Definition or_default (x : option Z) (default : Z) : Z :=
  match x with
  | None => default
  | Some 0 => default
  | Some m => m
  end.

Definition is_some {A : Type} (x : option A) : bool :=
  match x with Some _ => true | None => false end.

(** ** [src/cats/forecast.py] *)

Module Cats.

Record CarbonIntensityPointEstimate : Type := {
  pt_value : Q;
  pt_datetime : datetime
}.

Record CarbonIntensityAverageEstimate : Type := {
  value : Q;
  start : datetime;
  end_ : datetime;
  start_value : Q;
  end_value : Q
}.

Definition astuple (w : CarbonIntensityAverageEstimate) : window_tuple :=
  (value w, start w, end_ w, start_value w, end_value w).

(** [__lt__] generated by [dataclass(order=True)] *)
Definition lt : CarbonIntensityAverageEstimate -> CarbonIntensityAverageEstimate -> bool :=
  lt_by astuple.

Record WindowedForecast : Type := {
  wf_duration : Z;
  wf_max_window_minutes : option Z;
  wf_end_constraint : option datetime;
  wf_data_stepsize : timedelta;
  wf_start : datetime;
  wf_end : datetime;
  wf_data : list CarbonIntensityPointEstimate;
  wf_ndata : Z
}.

(** The loop of [_filter_data_by_constraints]: append while
    [d.datetime <= max_data_time], stop at the first later sample. *)
Fixpoint take_until (max_data_time : datetime)
         (data : list CarbonIntensityPointEstimate)
  : list CarbonIntensityPointEstimate :=
  match data with
  | [] => []
  | d :: ds =>
      if pt_datetime d <=? max_data_time
      then d :: take_until max_data_time ds
      else []
  end.

Definition filter_data_by_constraints
           (data : list CarbonIntensityPointEstimate)
           (start : datetime) (duration : Z)
           (max_window_minutes : Z) (end_constraint : option datetime)
  : result (list CarbonIntensityPointEstimate) :=
  let search_window_end := start + minutes max_window_minutes in
  let search_window_end :=
    match end_constraint with
    | Some ec => Z.min search_window_end ec
    | None => search_window_end
    end in
  let max_data_time := search_window_end + minutes duration in
  let filtered_data := take_until max_data_time data in
  if Py.len filtered_data <? 2
  then Raise (ValueError "Insufficient forecast data for the specified time window constraints.")
  else OK filtered_data.

(** The local [bisect_right] of [__init__]; [i] is the running index and
    [n] the length of the whole list. *)
Fixpoint bisect_right_from (i n : Z) (rest : list CarbonIntensityPointEstimate)
         (t : datetime) : Z :=
  match rest with
  | [] => n - 1
  | d :: ds =>
      if pt_datetime d >? t then i - 1
      else bisect_right_from (i + 1) n ds t
  end.

Definition bisect_right (data : list CarbonIntensityPointEstimate) (t : datetime) : Z :=
  bisect_right_from 0 (Py.len data) data t.

(** The local [bisect_left] of [__init__]. *)
Fixpoint bisect_left_from (i : Z) (stepsize : timedelta)
         (rest : list CarbonIntensityPointEstimate) (t : datetime) : result Z :=
  match rest with
  | [] => Raise (ValueError "No index found for closest data point past job end time")
  | d :: ds =>
      if pt_datetime d + stepsize >=? t then OK (i + 1)
      else bisect_left_from (i + 1) stepsize ds t
  end.

Definition bisect_left (stepsize : timedelta)
           (data : list CarbonIntensityPointEstimate) (t : datetime) : result Z :=
  bisect_left_from 0 stepsize data t.

(** [WindowedForecast.__init__] *)
Definition init (data : list CarbonIntensityPointEstimate) (duration : Z)
           (start : datetime) (max_window_minutes : option Z)
           (end_constraint : option datetime) : result WindowedForecast :=
  filtered_data <-
    (if is_some max_window_minutes || is_some end_constraint
     then filter_data_by_constraints data start duration
            (or_default max_window_minutes 2820) end_constraint
     else OK data) ;;
  d1 <- Py.index filtered_data 1 ;;
  d0 <- Py.index filtered_data 0 ;;
  let data_stepsize := pt_datetime d1 - pt_datetime d0 in
  let end_ := start + minutes duration in
  let data' := Py.slice_from filtered_data (bisect_right filtered_data start) in
  ndata <- bisect_left data_stepsize data' end_ ;;
  OK {| wf_duration := duration;
        wf_max_window_minutes := max_window_minutes;
        wf_end_constraint := end_constraint;
        wf_data_stepsize := data_stepsize;
        wf_start := start;
        wf_end := end_;
        wf_data := data';
        wf_ndata := ndata |}.

(** The deadline loop of [__len__]: the first offset whose window start
    reaches the deadline lowers [max_valid_index] to the offset before. *)
Fixpoint deadline_scan (start : datetime) (stepsize : timedelta)
         (end_constraint : datetime) (max_valid_index : Z) (offsets : list Z) : Z :=
  match offsets with
  | [] => max_valid_index
  | i :: rest =>
      if start + i * stepsize >=? end_constraint then i - 1
      else deadline_scan start stepsize end_constraint max_valid_index rest
  end.

(** [WindowedForecast.__len__] *)
Definition len (self : WindowedForecast) : result Z :=
  let base_length := Py.len (wf_data self) - wf_ndata self in
  if base_length <=? 0 then OK 0
  else
    let max_valid_index := base_length - 1 in
    max_valid_index <-
      match wf_max_window_minutes self with
      | Some m =>
          let data_stepsize_minutes := (total_seconds (wf_data_stepsize self) / 60)%Q in
          q <- Py.truediv (inject_Z m) data_stepsize_minutes ;;
          OK (Z.min max_valid_index (Py.int q))
      | None => OK max_valid_index
      end ;;
    let max_valid_index :=
      match wf_end_constraint self with
      | Some ec =>
          deadline_scan (wf_start self) (wf_data_stepsize self) ec max_valid_index
            (Py.range (Z.min base_length (max_valid_index + 1)))
      | None => max_valid_index
      end in
    OK (Z.max 0 (max_valid_index + 1)).

(** [WindowedForecast.interp] *)
Definition interp (p1 p2 : CarbonIntensityPointEstimate) (when : datetime)
  : result CarbonIntensityPointEstimate :=
  let timestep := total_seconds (pt_datetime p2 - pt_datetime p1) in
  slope <- Py.truediv (pt_value p2 - pt_value p1)%Q timestep ;;
  let offset := total_seconds (when - pt_datetime p1) in
  OK {| pt_value := (pt_value p1 + slope * offset)%Q; pt_datetime := when |}.

(** The first half of [__getitem__]: the bounds check and the two
    boundary points [lbound] and [rbound]. *)
Definition window_bounds (self : WindowedForecast) (index : Z)
  : result (CarbonIntensityPointEstimate * CarbonIntensityPointEstimate) :=
  n <- len self ;;
  if index >=? n then Raise (IndexError "Window index out of range")
  else
    let window_start := wf_start self + index * wf_data_stepsize self in
    let window_end := wf_end self + index * wf_data_stepsize self in
    a <- Py.index (wf_data self) index ;;
    b <- Py.index (wf_data self) (index + 1) ;;
    lbound <- interp a b window_start ;;
    rbound <-
      (if index + wf_ndata self =? Py.len (wf_data self)
       then Py.index (wf_data self) (-1)
       else
         a <- Py.index (wf_data self) (index + wf_ndata self - 1) ;;
         b <- Py.index (wf_data self) (index + wf_ndata self) ;;
         interp a b window_end) ;;
    OK (lbound, rbound).

(** The list [window_data] assembled from the bounds. *)
Definition assemble (self : WindowedForecast) (index : Z)
           (lbound rbound : CarbonIntensityPointEstimate)
  : list CarbonIntensityPointEstimate :=
  [lbound]
    ++ Py.slice (wf_data self) (index + 1) (index + wf_ndata self)
    ++ [rbound].

Definition window_data (self : WindowedForecast) (index : Z)
  : result (list CarbonIntensityPointEstimate) :=
  bounds <- window_bounds self index ;;
  OK (assemble self index (fst bounds) (snd bounds)).

(** The terms of the trapezoidal rule over consecutive points. *)
Definition trapezoids (window_data : list CarbonIntensityPointEstimate) : list Q :=
  map (fun ab : CarbonIntensityPointEstimate * CarbonIntensityPointEstimate =>
         let (a, b) := ab in
         (0.5 * (pt_value a + pt_value b)
          * total_seconds (pt_datetime b - pt_datetime a)%Z)%Q)
      (Py.zip (Py.all_but_last window_data) (Py.slice_from window_data 1)).

(** The elapsed time between the first and the last point of the list. *)
Definition span (window_data : list CarbonIntensityPointEstimate) : result timedelta :=
  last <- Py.index window_data (-1) ;;
  first <- Py.index window_data 0 ;;
  OK (pt_datetime last - pt_datetime first).

(** [WindowedForecast.__getitem__] *)
Definition getitem (self : WindowedForecast) (index : Z)
  : result CarbonIntensityAverageEstimate :=
  bounds <- window_bounds self index ;;
  let (lbound, rbound) := bounds in
  let window_start := wf_start self + index * wf_data_stepsize self in
  let window_end := wf_end self + index * wf_data_stepsize self in
  let window_data := assemble self index lbound rbound in
  let acc := trapezoids window_data in
  duration <- span window_data ;;
  v <- Py.truediv (Py.sum acc) (total_seconds duration) ;;
  OK {| value := v;
        start := window_start;
        end_ := window_end;
        start_value := pt_value lbound;
        end_value := pt_value rbound |}.

(** [WindowedForecast.__iter__], run to the end. *)
Definition iter (self : WindowedForecast)
  : result (list CarbonIntensityAverageEstimate) :=
  n <- len self ;;
  mapM (getitem self) (Py.range n).

End Cats.

(** ** [src/core/forecast.py] *)

Module Core.

Record CarbonIntensityPoint : Type := {
  pt_value : Q;
  pt_datetime : datetime
}.

Record CarbonIntensityWindow : Type := {
  value : Q;
  start : datetime;
  end_ : datetime;
  start_value : Q;
  end_value : Q
}.

Definition astuple (w : CarbonIntensityWindow) : window_tuple :=
  (value w, start w, end_ w, start_value w, end_value w).

(** [__lt__] generated by [dataclass(order=True)] *)
Definition lt : CarbonIntensityWindow -> CarbonIntensityWindow -> bool :=
  lt_by astuple.

Record WindowedForecast : Type := {
  wf_duration : Z;
  wf_max_window_minutes : Z;
  wf_data_stepsize : timedelta;
  wf_start : datetime;
  wf_end : datetime;
  wf_data : list CarbonIntensityPoint;
  wf_ndata : Z
}.

(** [WindowedForecast.__init__] *)
Definition init (data : list CarbonIntensityPoint) (duration : Z)
           (start : datetime) (max_window_minutes : option Z)
  : result WindowedForecast :=
  let max_window_minutes := or_default max_window_minutes 2820 in
  data_stepsize <-
    (if Py.len data >=? 2
     then
       d1 <- Py.index data 1 ;;
       d0 <- Py.index data 0 ;;
       OK (pt_datetime d1 - pt_datetime d0)
     else OK (minutes 30)) ;;
  let end_ := start + minutes duration in
  let filtered_data :=
    filter (fun d => pt_datetime d >=? start - data_stepsize) data in
  let data' := match filtered_data with [] => data | _ => filtered_data end in
  q <- Py.truediv (inject_Z duration) (total_seconds data_stepsize / 60)%Q ;;
  let ndata := Z.max 1 (Py.int q + 1) in
  OK {| wf_duration := duration;
        wf_max_window_minutes := max_window_minutes;
        wf_data_stepsize := data_stepsize;
        wf_start := start;
        wf_end := end_;
        wf_data := data';
        wf_ndata := ndata |}.

(** [WindowedForecast.__len__] *)
Definition len (self : WindowedForecast) : result Z :=
  let max_windows := Py.len (wf_data self) - wf_ndata self + 1 in
  max_windows <-
    (if negb (wf_max_window_minutes self =? 0)
     then
       let stepsize_minutes := (total_seconds (wf_data_stepsize self) / 60)%Q in
       q <- Py.truediv (inject_Z (wf_max_window_minutes self)) stepsize_minutes ;;
       OK (Z.min max_windows (Py.int q))
     else OK max_windows) ;;
  OK (Z.max 1 max_windows).

(** The samples of [self.data] whose timestamp lies in the window. *)
Definition in_window (self : WindowedForecast) (window_start window_end : datetime)
  : list CarbonIntensityPoint :=
  filter (fun d => (window_start <=? pt_datetime d) && (pt_datetime d <=? window_end))
         (wf_data self).

(** [WindowedForecast.__getitem__] *)
Definition getitem (self : WindowedForecast) (index : Z)
  : result CarbonIntensityWindow :=
  n <- len self ;;
  if index >=? n then Raise (IndexError "Window index out of range")
  else
    let window_start := wf_start self + index * wf_data_stepsize self in
    let window_end := window_start + minutes (wf_duration self) in
    let window_data := in_window self window_start window_end in
    let window_data :=
      match window_data with
      | [] => Py.slice (wf_data self) index (index + wf_ndata self)
      | _ => window_data
      end in
    match window_data with
    | [] =>
        OK {| value := 0;
              start := window_start;
              end_ := window_end;
              start_value := 0;
              end_value := 0 |}
    | _ =>
        let total := Py.sum (map pt_value window_data) in
        avg_value <- Py.truediv total (inject_Z (Py.len window_data)) ;;
        first <- Py.index window_data 0 ;;
        last <- Py.index window_data (-1) ;;
        OK {| value := avg_value;
              start := window_start;
              end_ := window_end;
              start_value := pt_value first;
              end_value := pt_value last |}
    end.

(** [WindowedForecast.__iter__], run to the end. *)
Definition iter (self : WindowedForecast) : result (list CarbonIntensityWindow) :=
  n <- len self ;;
  mapM (getitem self) (Py.range n).

(** [min(windowed)]: the minimum over the iterated windows. *)
Definition min_window (self : WindowedForecast) : result CarbonIntensityWindow :=
  windows <- iter self ;;
  py_min lt windows.

Definition show_int (z : Z) : string :=
  DecimalString.NilZero.string_of_int (Z.to_int z).

(** [get_best_start_time].  The two reads of the outside world are
    arguments: [forecast] is what [generate_mock_forecast] returned and
    [current_time] what [datetime.now] returned. *)
Definition get_best_start_time
           (forecast : list CarbonIntensityPoint) (current_time : datetime)
           (duration_minutes : Z) (max_window_hours : Z)
  : result (datetime * Q) :=
  if duration_minutes <? 1
  then Raise (ValueError "Duration must be at least 1 minute")
  else
    let max_window_minutes := max_window_hours * 60 in
    if duration_minutes >? max_window_minutes
    then Raise (ValueError ("Job duration (" ++ show_int duration_minutes
                            ++ " min) exceeds window ("
                            ++ show_int max_window_minutes ++ " min)"))
    else
      windowed <- init forecast duration_minutes current_time (Some max_window_minutes) ;;
      best_window <- min_window windowed ;;
      OK (start best_window, value best_window).

(** [get_current_vs_optimal], with the same two arguments. *)
Definition get_current_vs_optimal
           (forecast : list CarbonIntensityPoint) (current_time : datetime)
           (duration_minutes : Z) (max_window_hours : Z)
  : result (CarbonIntensityWindow * CarbonIntensityWindow) :=
  windowed <- init forecast duration_minutes current_time (Some (max_window_hours * 60)) ;;
  now_window <- getitem windowed 0 ;;
  optimal_window <- min_window windowed ;;
  OK (now_window, optimal_window).

End Core.

(** ** [src/cats/carbonFootprint.py] *)

Module Footprint.

Record Estimates : Type := {
  now : Q;
  best : Q;
  savings : Q
}.

(** The energy in kWh, as the expression of the source associates:
    [((PUE * (seconds / 3600)) * sum(...)) / 1000]. *)
Definition energy (PUE : Q) (jobinfo : list (Z * Q)) (runtime : timedelta) : Q :=
  (PUE
   * (total_seconds runtime / 3600)
   * Py.sum (map (fun np : Z * Q => let (nunits, power) := np in inject_Z nunits * power)
                 jobinfo)
   / 1000)%Q.

Definition get_footprint_reduction_estimate
           (PUE : Q) (jobinfo : list (Z * Q)) (runtime : timedelta)
           (average_best_ci average_now_ci : Q) : Estimates :=
  let energy := energy PUE jobinfo runtime in
  let best := (energy * average_best_ci)%Q in
  let now := (energy * average_now_ci)%Q in
  {| now := now; best := best; savings := (now - best)%Q |}.

End Footprint.

(** ** [src/cats/carbonFootprint.py] in binary64

    The same function on IEEE 754 binary64 numbers, which Python's [float]
    is, for the inputs where rounding decides what the estimate is.  The
    numbers and their operations, rounded to nearest with ties to even,
    are those of the Standard Library's [SpecFloat], at precision 53 and
    exponent range 1024. *)

Module Footprint64.
Import SpecFloat.

Definition float : Type := spec_float.

Definition prec : Z := 53.
Definition emax : Z := 1024.

Definition add (x y : float) : float := SFadd prec emax x y.
Definition sub (x y : float) : float := SFsub prec emax x y.
Definition mul (x y : float) : float := SFmul prec emax x y.
Definition div (x y : float) : float := SFdiv prec emax x y.
Definition ltb (x y : float) : bool := SFltb x y.
Definition eqb (x y : float) : bool := SFeqb x y.

(** [float(n)] for an integer: the nearest binary64 number. *)
Definition of_int (z : Z) : float := binary_normalize prec emax z 0 false.

(** [td.total_seconds()]: the microseconds divided by [10**6], rounded
    once (the count of microseconds is itself a binary64 number below
    [2**53], that is for 285 years). *)
Definition total_seconds (td : timedelta) : float :=
  div (of_int td) (of_int 1000000).

(** [sum(xs)]: starts at the integer 0 and adds from the left. *)
Definition sum (xs : list float) : float := fold_left add xs (of_int 0).

Record Estimates : Type := {
  now : float;
  best : float;
  savings : float
}.

(** The energy in kWh, as the expression of the source associates:
    [((PUE * (seconds / 3600)) * sum(...)) / 1000]. *)
Definition energy (PUE : float) (jobinfo : list (Z * float)) (runtime : timedelta)
  : float :=
  div (mul (mul PUE (div (total_seconds runtime) (of_int 3600)))
           (sum (map (fun np : Z * float =>
                        let (nunits, power) := np in mul (of_int nunits) power)
                     jobinfo)))
      (of_int 1000).

Definition get_footprint_reduction_estimate
           (PUE : float) (jobinfo : list (Z * float)) (runtime : timedelta)
           (average_best_ci average_now_ci : float) : Estimates :=
  let energy := energy PUE jobinfo runtime in
  let best := mul energy average_best_ci in
  let now := mul energy average_now_ci in
  {| now := now; best := best; savings := sub now best |}.

(** The binary64 number that the literal [1.001] denotes: the quotient of
    1001 by 1000, rounded. *)
Definition pue_1_001 : float := div (of_int 1001) (of_int 1000).

(** The binary64 number that the literal [100.00000000000001] denotes: the
    next number after 100, which is [(100 * 2^46 + 1) * 2^-46]. *)
Definition next_after_100 : float := S754_finite false 7036874417766401 (-46).

(** One unit of 700 W. *)
Definition one_unit_700 : list (Z * float) := [(1, of_int 700)].

End Footprint64.

(** ** [src/core/job_queue.py] *)

Module JobQueue.

Inductive JobStatus : Type :=
| PENDING | SCHEDULED | RUNNING | COMPLETED | DEFERRED | CANCELLED.

(** [JobStatus.X.value] *)
Definition status_value (s : JobStatus) : string :=
  match s with
  | PENDING => "pending"
  | SCHEDULED => "scheduled"
  | RUNNING => "running"
  | COMPLETED => "completed"
  | DEFERRED => "deferred"
  | CANCELLED => "cancelled"
  end.

(** The fields of [GPUJob] that scheduling reads or writes.  The source
    stores [scheduled_for] and [completed_at] as the ISO text of an
    instant; the instant itself is kept here. *)
Record GPUJob : Type := {
  job_id : string;
  duration_minutes : Z;
  power_draw_watts : Z;
  priority : Z;
  status : string;
  carbon_intensity_threshold : Z;
  scheduled_for : option datetime;
  completed_at : option datetime
}.

Definition set_status (j : GPUJob) (s : string) : GPUJob :=
  {| job_id := job_id j;
     duration_minutes := duration_minutes j;
     power_draw_watts := power_draw_watts j;
     priority := priority j;
     status := s;
     carbon_intensity_threshold := carbon_intensity_threshold j;
     scheduled_for := scheduled_for j;
     completed_at := completed_at j |}.

Definition set_completed_at (j : GPUJob) (t : datetime) : GPUJob :=
  {| job_id := job_id j;
     duration_minutes := duration_minutes j;
     power_draw_watts := power_draw_watts j;
     priority := priority j;
     status := status j;
     carbon_intensity_threshold := carbon_intensity_threshold j;
     scheduled_for := scheduled_for j;
     completed_at := Some t |}.

Definition set_scheduled_for (j : GPUJob) (t : datetime) : GPUJob :=
  {| job_id := job_id j;
     duration_minutes := duration_minutes j;
     power_draw_watts := power_draw_watts j;
     priority := priority j;
     status := status j;
     carbon_intensity_threshold := carbon_intensity_threshold j;
     scheduled_for := Some t;
     completed_at := completed_at j |}.

(** The shape shared by [update_job_status] and [update_job]: the first
    job of the list with the given id is changed, and only that one. *)
Fixpoint update_first (jobs : list GPUJob) (id : string) (f : GPUJob -> GPUJob)
  : list GPUJob * bool :=
  match jobs with
  | [] => ([], false)
  | j :: rest =>
      if String.eqb (job_id j) id then (f j :: rest, true)
      else let (rest', found) := update_first rest id f in (j :: rest', found)
  end.

(** [JobQueue.update_job_status]; [now] is the clock reading used when the
    new status is "completed". *)
Definition update_job_status (jobs : list GPUJob) (id new_status : string)
           (now : datetime) : list GPUJob * bool :=
  update_first jobs id
    (fun j =>
       let j := set_status j new_status in
       if String.eqb new_status (status_value COMPLETED)
       then set_completed_at j now else j).

(** [JobQueue.update_job(job_id, scheduled_for=...)] *)
Definition update_job (jobs : list GPUJob) (id : string) (scheduled_for : datetime)
  : list GPUJob * bool :=
  update_first jobs id (fun j => set_scheduled_for j scheduled_for).

(** [JobQueue.get_jobs_by_status] *)
Definition get_jobs_by_status (jobs : list GPUJob) (s : string) : list GPUJob :=
  filter (fun j => String.eqb (status j) s) jobs.

(** [sorted(pending, key=priority, reverse=True)]: a stable sort, so jobs
    of equal priority keep their order. *)
Fixpoint insert_by_priority (j : GPUJob) (sorted : list GPUJob) : list GPUJob :=
  match sorted with
  | [] => [j]
  | k :: rest =>
      if priority k <=? priority j then j :: k :: rest
      else k :: insert_by_priority j rest
  end.

Definition sorted_by_priority (jobs : list GPUJob) : list GPUJob :=
  fold_right insert_by_priority [] jobs.

(** [JobQueue.get_prioritized_queue] *)
Definition get_prioritized_queue (jobs : list GPUJob) : list GPUJob :=
  sorted_by_priority (get_jobs_by_status jobs (status_value PENDING)).

(** [JobQueue.get_job] *)
Definition get_job (jobs : list GPUJob) (id : string) : option GPUJob :=
  find (fun j => String.eqb (job_id j) id) jobs.

End JobQueue.

(** ** [src/core/carbon_scheduler.py] *)

Module Scheduler.
Import JobQueue.

Section Schedule.

(** The outside world, read in sequence.  [clock k] is what
    [datetime.now()] returns when it is the [k]-th read, and
    [mock_forecast k] the forecast that [generate_mock_forecast] draws
    when [get_best_start_time] is the [k]-th read (it reads the clock
    itself, at the same tick). *)
Variable clock : nat -> datetime.
Variable mock_forecast : nat -> list Core.CarbonIntensityPoint.

(** [get_best_start_time(duration_minutes=d, region=region,
    max_window_hours=24)] at the [k]-th read. *)
Definition best_start (k : nat) (d : Z) : result (datetime * Q) :=
  Core.get_best_start_time (mock_forecast k) (clock k) d 24.

(** The job store, the two result lists and the count of reads of the
    outside world made so far. *)
Record state : Type := {
  jobs : list GPUJob;
  scheduled_jobs : list string;
  deferred_jobs : list string;
  tick : nat
}.

(** The body of the loop of [schedule_pending_jobs] for one job. *)
Definition schedule_one (carbon_intensity : Q) (st : state) (job : GPUJob) : state :=
  if Qlt_bool carbon_intensity (inject_Z (carbon_intensity_threshold job))
  then
    let jobs1 := fst (update_job_status (jobs st) (job_id job)
                        (status_value SCHEDULED) (clock (tick st))) in
    let jobs2 := fst (update_job jobs1 (job_id job) (clock (tick st))) in
    {| jobs := jobs2;
       scheduled_jobs := scheduled_jobs st ++ [job_id job];
       deferred_jobs := deferred_jobs st;
       tick := S (tick st) |}
  else
    let jobs1 := fst (update_job_status (jobs st) (job_id job)
                        (status_value DEFERRED) (clock (tick st))) in
    match best_start (tick st) (duration_minutes job) with
    | OK (optimal_time, _) =>
        {| jobs := fst (update_job jobs1 (job_id job) optimal_time);
           scheduled_jobs := scheduled_jobs st;
           deferred_jobs := deferred_jobs st ++ [job_id job];
           tick := S (tick st) |}
    | Raise _ =>
        let reschedule_time := clock (S (tick st)) + hours 6 in
        {| jobs := fst (update_job jobs1 (job_id job) reschedule_time);
           scheduled_jobs := scheduled_jobs st;
           deferred_jobs := deferred_jobs st ++ [job_id job];
           tick := S (S (tick st)) |}
    end.

(** The loop of [schedule_pending_jobs] over the prioritized queue. *)
Definition schedule_pending_jobs (carbon_intensity : Q) (st : state) : state :=
  fold_left (schedule_one carbon_intensity)
            (get_prioritized_queue (jobs st))
            {| jobs := jobs st; scheduled_jobs := []; deferred_jobs := [];
               tick := tick st |}.

End Schedule.

End Scheduler.

(** ** Input contracts and sample data *)

Module Contract.

(** The timestamps of a sample sequence increase strictly. *)
Fixpoint strictly_increasing (l : list Cats.CarbonIntensityPointEstimate) : bool :=
  match l with
  | a :: (b :: _) as rest =>
      (Cats.pt_datetime a <? Cats.pt_datetime b) && strictly_increasing rest
  | _ => true
  end.

(** A sample as a pair (value, minute), for both implementations. *)
Definition cats_sample (vm : Z * Z) : Cats.CarbonIntensityPointEstimate :=
  {| Cats.pt_value := inject_Z (fst vm); Cats.pt_datetime := minutes (snd vm) |}.

Definition core_sample (vm : Z * Z) : Core.CarbonIntensityPoint :=
  {| Core.pt_value := inject_Z (fst vm); Core.pt_datetime := minutes (snd vm) |}.

(** The unique identifiers of a job store. *)
Definition ids (jobs : list JobQueue.GPUJob) : list string :=
  map JobQueue.job_id jobs.

(** The forecast of the two-sample scenario: 100 at minute 0, 200 at
    minute 30. *)
Definition two_samples : list Cats.CarbonIntensityPointEstimate :=
  map cats_sample [(100, 0); (200, 30)].

(** The forecast 100, 100, 300 at minutes 0, 30, 60. *)
Definition three_samples : list Cats.CarbonIntensityPointEstimate :=
  map cats_sample [(100, 0); (100, 30); (300, 60)].

(** The simplified forecast of the samples 100, 200, 50, 50, 70 at minutes
    0, 30, 60, 90, 120, for a job of 30 minutes starting at minute 0. *)
Definition five_samples : Core.WindowedForecast :=
  {| Core.wf_duration := 30;
     Core.wf_max_window_minutes := 1440;
     Core.wf_data_stepsize := minutes 30;
     Core.wf_start := 0;
     Core.wf_end := minutes 30;
     Core.wf_data := map core_sample [(100, 0); (200, 30); (50, 60); (50, 90); (70, 120)];
     Core.wf_ndata := 2 |}.

(** The simplified forecast of no sample at all, for a job of 60 minutes. *)
Definition no_samples : Core.WindowedForecast :=
  {| Core.wf_duration := 60;
     Core.wf_max_window_minutes := 2820;
     Core.wf_data_stepsize := minutes 30;
     Core.wf_start := 0;
     Core.wf_end := minutes 60;
     Core.wf_data := [];
     Core.wf_ndata := 3 |}.

(** No two jobs of the store share an identifier. *)
Fixpoint unique_ids (jobs : list JobQueue.GPUJob) : bool :=
  match jobs with
  | [] => true
  | j :: rest =>
      negb (existsb (String.eqb (JobQueue.job_id j)) (ids rest)) && unique_ids rest
  end.

(** A store of two pending jobs: "a" tolerates 400 gCO2/kWh, "b" 100. *)
Definition two_jobs : list JobQueue.GPUJob :=
  [ {| JobQueue.job_id := "a"; JobQueue.duration_minutes := 30;
       JobQueue.power_draw_watts := 300; JobQueue.priority := 1;
       JobQueue.status := "pending"; JobQueue.carbon_intensity_threshold := 400;
       JobQueue.scheduled_for := None; JobQueue.completed_at := None |};
    {| JobQueue.job_id := "b"; JobQueue.duration_minutes := 30;
       JobQueue.power_draw_watts := 300; JobQueue.priority := 5;
       JobQueue.status := "pending"; JobQueue.carbon_intensity_threshold := 100;
       JobQueue.scheduled_for := None; JobQueue.completed_at := None |} ].

(** A clock that advances one minute per read, and a constant forecast. *)
Definition minute_clock (k : nat) : datetime := minutes (Z.of_nat k).

Definition constant_forecast (k : nat) : list Core.CarbonIntensityPoint :=
  map core_sample [(100, 0); (200, 30); (50, 60); (50, 90); (70, 120)].

(** What the scheduler decides for [job] when it is processed at tick
    [k], as a property of the job [j'] the store holds afterwards. *)
Definition decided (clock : nat -> datetime)
           (mock_forecast : nat -> list Core.CarbonIntensityPoint)
           (carbon_intensity : Q) (job j' : JobQueue.GPUJob) (k : nat) : Prop :=
  JobQueue.job_id j' = JobQueue.job_id job /\
  ((carbon_intensity < inject_Z (JobQueue.carbon_intensity_threshold job))%Q ->
   JobQueue.status j' = JobQueue.status_value JobQueue.SCHEDULED /\
   JobQueue.scheduled_for j' = Some (clock k)) /\
  (~ (carbon_intensity < inject_Z (JobQueue.carbon_intensity_threshold job))%Q ->
   JobQueue.status j' = JobQueue.status_value JobQueue.DEFERRED /\
   match Core.get_best_start_time (mock_forecast k) (clock k)
           (JobQueue.duration_minutes job) 24 with
   | OK (optimal_time, _) => JobQueue.scheduled_for j' = Some optimal_time
   | Raise _ => JobQueue.scheduled_for j' = Some (clock (S k) + hours 6)
   end).

End Contract.

(** ** The turn of a job in the scheduling pass *)

Module SchedulerTurn.
Import JobQueue Scheduler.





End SchedulerTurn.

(** ** The footprint formula, as the specification words it *)

Module FootprintSpec.

(** The sum over the (units, watts per unit) pairs of units times watts. *)
Fixpoint total_power (jobinfo : list (Z * Q)) : Q :=
  match jobinfo with
  | [] => 0
  | (units, watts_per_unit) :: rest =>
      (inject_Z units * watts_per_unit + total_power rest)%Q
  end.

(** [PUE * (runtimeSeconds / 3600) * total_power / 1000], in kWh. *)
Definition energy_kwh (PUE : Q) (jobinfo : list (Z * Q)) (runtime_seconds : Q) : Q :=
  (PUE * (runtime_seconds / 3600) * (total_power jobinfo / 1000))%Q.

End FootprintSpec.

(** ** Further contracts of the interpolating forecast *)

Module CatsContract.

(** Every sample of the forecast has the value [v]. *)
Definition flat (v : Q) (data : list Cats.CarbonIntensityPointEstimate) : bool :=
  forallb (fun d => Qeq_bool (Cats.pt_value d) v) data.

(** The samples with a timestamp up to [max_data_time], wherever they are
    in the list. *)
Definition up_to (max_data_time : datetime)
           (data : list Cats.CarbonIntensityPointEstimate)
  : list Cats.CarbonIntensityPointEstimate :=
  filter (fun d => Cats.pt_datetime d <=? max_data_time) data.

(** Five samples half an hour apart, for a job of 30 minutes from minute 0
    that must start before minute 45. *)
Definition with_deadline : Cats.WindowedForecast :=
  {| Cats.wf_duration := 30; Cats.wf_max_window_minutes := None;
     Cats.wf_end_constraint := Some (minutes 45);
     Cats.wf_data_stepsize := minutes 30; Cats.wf_start := 0;
     Cats.wf_end := minutes 30;
     Cats.wf_data := map Contract.cats_sample
                         [(100, 0); (100, 30); (300, 60); (300, 90); (300, 120)];
     Cats.wf_ndata := 1 |}.

(** The same samples with a lookahead of 60 minutes instead. *)
Definition with_lookahead : Cats.WindowedForecast :=
  {| Cats.wf_duration := 30; Cats.wf_max_window_minutes := Some 60;
     Cats.wf_end_constraint := None;
     Cats.wf_data_stepsize := minutes 30; Cats.wf_start := 0;
     Cats.wf_end := minutes 30;
     Cats.wf_data := map Contract.cats_sample
                         [(100, 0); (100, 30); (300, 60); (300, 90); (300, 120)];
     Cats.wf_ndata := 1 |}.

End CatsContract.

(** ** The calendar fields of an instant (UTC) *)

Module Calendar.

(** [t.hour] *)
Definition hour (t : datetime) : Z := (t / 3600000000) mod 24.

(** [t.minute] *)
Definition minute (t : datetime) : Z := (t / 60000000) mod 60.

(** [t.replace(minute=m, second=0, microsecond=0)] *)
Definition replace_minute (t : datetime) (m : Z) : datetime :=
  t - t mod 3600000000 + minutes m.

End Calendar.

(** ** [src/core/forecast.py]: the mock forecast *)

Module CoreMock.

(** [max(a, x)] on numbers: [x] when [x > a], else [a]. *)
Definition py_max (a x : Q) : Q := if Qlt_bool a x then x else a.

(** [d.get(key, default)] on a dictionary written as a literal. *)
Fixpoint dict_get {V : Type} (d : list (string * V)) (key : string) (default : V) : V :=
  match d with
  | [] => default
  | (k, v) :: rest => if String.eqb k key then v else dict_get rest key default
  end.

Definition base_multipliers : list (string * Q) :=
  [("GB"%string, 1.0%Q); ("IN"%string, 3.5%Q); ("US"%string, 2.0%Q);
   ("DE"%string, 1.8%Q); ("NO"%string, 0.3%Q); ("AU"%string, 3.0%Q);
   ("FR"%string, 0.4%Q)].

(** The daily pattern: [(base_intensity, variation)] by hour of the day. *)
Definition pattern (hour : Z) : Z * Z :=
  if (2 <=? hour) && (hour <? 6) then (90, 20)
  else if (6 <=? hour) && (hour <? 9) then (150, 30)
  else if (9 <=? hour) && (hour <? 17) then (180, 40)
  else if (17 <=? hour) && (hour <? 22) then (250, 30)
  else (140, 30).

(** The start of the forecast: [now] rounded down to the half hour. *)
Definition start_time (now : datetime) : datetime :=
  if Calendar.minute now <? 30
  then Calendar.replace_minute now 0
  else Calendar.replace_minute now 30.

(** The body of the loop, for the point of index [i]; [noise] is what
    [random.uniform(-10, 10)] returns at that iteration. *)
Definition mock_point (base_mult : Q) (start : datetime) (noise : Q) (i : Z)
  : Core.CarbonIntensityPoint :=
  let timestamp := start + minutes (30 * i) in
  let hour := Calendar.hour timestamp in
  let (base_intensity, variation) := pattern hour in
  let intensity :=
    (inject_Z base_intensity * base_mult
     + inject_Z (i mod 7 - 3) * (inject_Z variation / 10))%Q in
  let intensity := (intensity + noise)%Q in
  {| Core.pt_value := py_max 20 intensity; Core.pt_datetime := timestamp |}.

(** [generate_mock_forecast(region, hours)], with the clock reading [now]
    and the random draws [noise] as arguments. *)
Definition generate_mock_forecast (now : datetime) (noise : Z -> Q)
           (region : string) (hours : Z) : list Core.CarbonIntensityPoint :=
  let base_mult := dict_get base_multipliers region 1.0%Q in
  let start := start_time now in
  let num_points := hours * 2 in
  map (fun i => mock_point base_mult start (noise i) i) (Py.range num_points).

(** The first two samples of a forecast share their timestamp. *)
Definition degenerate (forecast : list Core.CarbonIntensityPoint) : bool :=
  match forecast with
  | d0 :: d1 :: _ => Core.pt_datetime d1 =? Core.pt_datetime d0
  | _ => false
  end.

(** Every sample of the forecast has a value in [[lo, hi]]. *)
Definition within (lo hi : Q) (forecast : list Core.CarbonIntensityPoint) : bool :=
  forallb (fun p => Qle_bool lo (Core.pt_value p) && Qle_bool (Core.pt_value p) hi)
          forecast.

(** A noon clock reading (12:10 on day 0) and a noise that is always 0. *)
Definition noon : datetime := hours 12 + minutes 10.

Definition quiet (i : Z) : Q := 0.

(** The simplified forecast of the samples 100, 200, 50 at minutes 0, 30,
    60, for a job of 30 minutes starting at minute 0. *)
Definition three_core_samples : list Core.CarbonIntensityPoint :=
  map Contract.core_sample [(100, 0); (200, 30); (50, 60)].

Definition three_core : Core.WindowedForecast :=
  {| Core.wf_duration := 30;
     Core.wf_max_window_minutes := 2820;
     Core.wf_data_stepsize := minutes 30;
     Core.wf_start := 0;
     Core.wf_end := minutes 30;
     Core.wf_data := three_core_samples;
     Core.wf_ndata := 2 |}.

End CoreMock.

(** ** [src/core/job_queue.py]: the other operations of the store *)

Module JobQueueMore.
Import JobQueue.

(** [JobQueue.add_job]: the new store and the returned identifier. *)
Definition add_job (jobs : list GPUJob) (job : GPUJob) : list GPUJob * string :=
  (jobs ++ [job], job_id job).

(** [JobQueue.delete_job]: deletes the first job with the identifier. *)
Fixpoint delete_job (jobs : list GPUJob) (id : string) : list GPUJob * bool :=
  match jobs with
  | [] => ([], false)
  | j :: rest =>
      if String.eqb (job_id j) id then (rest, true)
      else let (rest', found) := delete_job rest id in (j :: rest', found)
  end.

(** [JobQueue.update_job(job_id, scheduled_for=..., status=...)] *)
Definition update_job_scheduled_status (jobs : list GPUJob) (id : string)
           (scheduled_for : datetime) (status : string) : list GPUJob * bool :=
  update_first jobs id (fun j => set_status (set_scheduled_for j scheduled_for) status).

(** [JobQueue.calculate_emissions_for_job]; [None] is the default argument. *)
Definition calculate_emissions_for_job (job : GPUJob) (carbon_intensity : option Q) : Q :=
  let power_kw := (inject_Z (power_draw_watts job) / 1000)%Q in
  let duration_h := (inject_Z (duration_minutes job) / 60)%Q in
  let carbon_intensity :=
    match carbon_intensity with
    | None => 0.7%Q
    | Some c => (c / 1000)%Q
    end in
  (power_kw * duration_h * carbon_intensity)%Q.

Record QueueStats : Type := {
  total : Z;
  pending : Z;
  scheduled : Z;
  running : Z;
  completed : Z;
  deferred : Z
}.

(** [JobQueue.get_queue_stats] *)
Definition get_queue_stats (jobs : list GPUJob) : QueueStats :=
  {| total := Py.len jobs;
     pending := Py.len (get_jobs_by_status jobs (status_value PENDING));
     scheduled := Py.len (get_jobs_by_status jobs (status_value SCHEDULED));
     running := Py.len (get_jobs_by_status jobs (status_value RUNNING));
     completed := Py.len (get_jobs_by_status jobs (status_value COMPLETED));
     deferred := Py.len (get_jobs_by_status jobs (status_value DEFERRED)) |}.

(** The priorities of a list do not increase from one job to the next. *)
Fixpoint priority_ordered (jobs : list GPUJob) : bool :=
  match jobs with
  | j :: (k :: _) as rest => (priority k <=? priority j) && priority_ordered rest
  | _ => true
  end.

End JobQueueMore.

(** ** [src/core/emissions_tracker.py]: the estimate *)

Module Tracker.

(** [GPUEmissionsTracker.estimate_emissions] *)
Definition estimate_emissions (duration_minutes power_watts : Z)
           (carbon_intensity_g_kwh : Q) : Q :=
  let power_kw := (inject_Z power_watts / 1000)%Q in
  let duration_h := (inject_Z duration_minutes / 60)%Q in
  let carbon_intensity_kg := (carbon_intensity_g_kwh / 1000)%Q in
  (power_kw * duration_h * carbon_intensity_kg)%Q.

End Tracker.

(** ** [src/core/carbon_scheduler.py]: scheduling one job *)

Module SchedulerMore.
Import JobQueue JobQueueMore.

(** The numbers of the dictionary [schedule_single_job] returns. *)
Record SingleJobInfo : Type := {
  ci_now : Q;
  emissions_now_g : Q;
  optimal_time : datetime;
  ci_optimal : Q;
  emissions_optimal_g : Q;
  savings_g : Q;
  savings_percent : Q;
  delay_hours : Q
}.

(** [CarbonAwareScheduler.schedule_single_job].  [forecast] and
    [current_time] are what [get_current_vs_optimal] draws and reads,
    [later] the clock reading of the returned [delay_hours]. *)
Definition schedule_single_job (forecast : list Core.CarbonIntensityPoint)
           (current_time later : datetime) (jobs : list GPUJob) (job : GPUJob)
           (max_window_hours : Z) : result (SingleJobInfo * list GPUJob) :=
  windows <- Core.get_current_vs_optimal forecast current_time
               (duration_minutes job) max_window_hours ;;
  let (now_window, optimal_window) := windows in
  let power_kw := (inject_Z (power_draw_watts job) / 1000)%Q in
  let duration_h := (inject_Z (duration_minutes job) / 60)%Q in
  let emissions_now := (power_kw * duration_h * (Core.value now_window / 1000))%Q in
  let emissions_optimal := (power_kw * duration_h * (Core.value optimal_window / 1000))%Q in
  let savings_kg := (emissions_now - emissions_optimal)%Q in
  savings_percent <-
    (if Qlt_bool 0 emissions_now
     then q <- Py.truediv savings_kg emissions_now ;; OK (q * 100)%Q
     else OK 0%Q) ;;
  let jobs' := fst (update_job_scheduled_status jobs (job_id job)
                      (Core.start optimal_window) (status_value SCHEDULED)) in
  OK ({| ci_now := Core.value now_window;
         emissions_now_g := (emissions_now * 1000)%Q;
         optimal_time := Core.start optimal_window;
         ci_optimal := Core.value optimal_window;
         emissions_optimal_g := (emissions_optimal * 1000)%Q;
         savings_g := (savings_kg * 1000)%Q;
         savings_percent := savings_percent;
         delay_hours := (total_seconds (Core.start optimal_window - later)%Z / 3600)%Q |},
      jobs').

(** A job of one hour at 300 W, stored as completed. *)
Definition done_job : GPUJob :=
  {| job_id := "a"; duration_minutes := 60; power_draw_watts := 300; priority := 1;
     status := "completed"; carbon_intensity_threshold := 400;
     scheduled_for := None; completed_at := Some 0 |}.

End SchedulerMore.

(** ** [src/core/carbon_api.py] *)

Module CarbonApi.

(** The dictionary that [_format_response] builds. *)
Record Response : Type := {
  carbonIntensity : Q;
  timestamp : datetime;
  greenness : string;
  recommendation : string;
  region : string;
  unit : string;
  is_mock : bool
}.

(** [CarbonDataProvider._format_response]; [now_utc] is the clock reading
    of the timestamp. *)
Definition format_response (now_utc : datetime) (carbon_intensity : Q)
           (region : string) (is_mock : bool) : Response :=
  let (greenness, recommendation) :=
    if Qlt_bool carbon_intensity 200
    then ("HIGH"%string, "✅ Schedule jobs NOW - Clean grid"%string)
    else if Qlt_bool carbon_intensity 400
    then ("MEDIUM"%string, "⏳ Wait for better conditions"%string)
    else ("LOW"%string, "❌ Defer jobs - Dirty grid"%string) in
  {| carbonIntensity := carbon_intensity;
     timestamp := now_utc;
     greenness := greenness;
     recommendation := recommendation;
     region := region;
     unit := "gCO2/kWh";
     is_mock := is_mock |}.

Definition base_intensities : list (string * Z) :=
  [("IN"%string, 700); ("US"%string, 400); ("DE"%string, 350); ("NO"%string, 50);
   ("AU"%string, 600); ("GB"%string, 200); ("FR"%string, 80)].

(** The time-of-day variation of [_get_mock_data]. *)
Definition variation (hour : Z) : Z :=
  if (2 <=? hour) && (hour <? 6) then -50
  else if (17 <=? hour) && (hour <? 22) then 80
  else 20.

(** [CarbonDataProvider._get_mock_data]; [hour] is [datetime.now().hour] and
    [rand] what [random.randint(-50, 50)] returns. *)
Definition get_mock_data (hour rand : Z) (now_utc : datetime) (region : string)
  : Response :=
  let base := CoreMock.dict_get base_intensities region 500 in
  let intensity := Z.max 20 (base + variation hour + rand) in
  format_response now_utc (inject_Z intensity) region true.

(** The cache, a dictionary from (region, minute of the clock) to the
    response stored under it; the source writes the key as the text
    [region_YYYYmmddHHMM]. *)
Definition cache_key : Type := (string * Z)%type.

Definition key_eqb (a b : cache_key) : bool :=
  String.eqb (fst a) (fst b) && (snd a =? snd b).

Fixpoint cache_get (cache : list (cache_key * Response)) (key : cache_key)
  : option Response :=
  match cache with
  | [] => None
  | (k, r) :: rest => if key_eqb k key then Some r else cache_get rest key
  end.

(** [cache[key] = r]: replaces the entry in place, or appends it. *)
Fixpoint cache_set (cache : list (cache_key * Response)) (key : cache_key) (r : Response)
  : list (cache_key * Response) :=
  match cache with
  | [] => [(key, r)]
  | (k, r0) :: rest =>
      if key_eqb k key then (k, r) :: rest else (k, r0) :: cache_set rest key r
  end.

(** What the HTTP request does: [requests.get] raises, or returns a status
    code and a body whose JSON decoding raises or gives a dictionary, where
    the key "carbonIntensity" is present, with a number, or not.  A body that
    is no dictionary, or holds something else than a number under the key,
    raises before a response is formatted: it counts as a body that
    raises. *)
Definition http_outcome : Type := result (Z * result (option Q)).

(** [CarbonDataProvider.get_grid_carbon_intensity]: the response and the
    cache afterwards.  [minute] is the clock reading of the cache key. *)
Definition get_grid_carbon_intensity (token : string) (http : http_outcome)
           (minute hour rand : Z) (now_utc : datetime)
           (cache : list (cache_key * Response)) (region : string)
  : Response * list (cache_key * Response) :=
  let key := (region, minute) in
  match cache_get cache key with
  | Some cached => (cached, cache)
  | None =>
      let attempt : result (option Response) :=
        if negb (String.eqb token "demo")
        then
          response <- http ;;
          let (status_code, body) := response in
          if status_code =? 200
          then
            data <- body ;;
            let carbon_intensity :=
              match data with Some c => c | None => 500%Q end in
            OK (Some (format_response now_utc carbon_intensity region false))
          else OK None
        else OK None in
      match attempt with
      | OK (Some r) => (r, cache_set cache key r)
      | OK None => (get_mock_data hour rand now_utc region, cache)
      | Raise _ => (get_mock_data hour rand now_utc region, cache)
      end
  end.

(** [min(items, key=...)]: the first item whose key no later item's key is
    below. *)
Definition py_min_by {A : Type} (key : A -> Q) (l : list A) : result A :=
  py_min (fun a b => Qlt_bool (key a) (key b)) l.

(** The choice of the greenest region in [get_multi_region_comparison],
    from the dictionary [comparison] in insertion order. *)
Definition greenest (comparison : list (string * Response))
  : result (string * Q) :=
  best <- py_min_by (fun item : string * Response => carbonIntensity (snd item))
                    comparison ;;
  OK (fst best, carbonIntensity (snd best)).

(** [d[key] = v] on a dictionary in insertion order: an existing key keeps
    its place. *)
Fixpoint dict_set {V : Type} (d : list (string * V)) (key : string) (v : V)
  : list (string * V) :=
  match d with
  | [] => [(key, v)]
  | (k, v0) :: rest =>
      if String.eqb k key then (k, v) :: rest else (k, v0) :: dict_set rest key v
  end.

(** What one call of [get_grid_carbon_intensity] reads from the outside
    world: the outcome of the request, the minute and the hour of the local
    clock, the random draw, the UTC clock. *)
Record reading : Type := {
  r_http : http_outcome;
  r_minute : Z;
  r_hour : Z;
  r_rand : Z;
  r_now_utc : datetime
}.

Definition default_regions : list string :=
  ["IN"%string; "US"%string; "DE"%string; "NO"%string; "AU"%string; "GB"%string].

(** The loop of [get_multi_region_comparison] that fills [comparison]; the
    [k]-th call of [get_grid_carbon_intensity] reads [world k]. *)
Fixpoint compare_loop (token : string) (world : nat -> reading) (k : nat)
         (cache : list (cache_key * Response)) (regions : list string)
         (comparison : list (string * Response))
  : list (string * Response) * list (cache_key * Response) :=
  match regions with
  | [] => (comparison, cache)
  | region :: rest =>
      let w := world k in
      let (r, cache') :=
        get_grid_carbon_intensity token (r_http w) (r_minute w) (r_hour w)
                                  (r_rand w) (r_now_utc w) cache region in
      compare_loop token world (S k) cache' rest (dict_set comparison region r)
  end.

(** The dictionary that [get_multi_region_comparison] returns. *)
Record Comparison : Type := {
  regions : list (string * Response);
  greenest_region : string;
  greenest_intensity : Q;
  comparison_timestamp : datetime
}.

(** [CarbonDataProvider.get_multi_region_comparison]: the result and the
    cache afterwards; [now_utc] is the clock reading of the timestamp. *)
Definition get_multi_region_comparison (token : string) (world : nat -> reading)
           (now_utc : datetime) (cache : list (cache_key * Response))
           (regions : option (list string))
  : result Comparison * list (cache_key * Response) :=
  let regions := match regions with None => default_regions | Some l => l end in
  let (comparison, cache') := compare_loop token world 0 cache regions [] in
  (best <- greenest comparison ;;
   OK {| regions := comparison;
         greenest_region := fst best;
         greenest_intensity := snd best;
         comparison_timestamp := now_utc |},
   cache').

(** An entry of the list that [get_24h_forecast] returns. *)
Record ForecastEntry : Type := {
  fe_datetime : datetime;
  fe_value : Q;
  fe_region : string
}.

(** The body of the loop of [get_24h_forecast] for the index [i];
    [randint lo hi] is what [random.randint(lo, hi)] returns at that
    iteration. *)
Definition forecast_entry (base : Z) (start_time : datetime) (randint : Z -> Z -> Z)
           (region : string) (i : Z) : ForecastEntry :=
  let timestamp := start_time + minutes (30 * i) in
  let hour := Calendar.hour timestamp in
  let intensity :=
    if (2 <=? hour) && (hour <? 6)
    then (inject_Z base * 0.4 + inject_Z (randint (-20)%Z 20%Z))%Q
    else if (6 <=? hour) && (hour <? 9)
    then (inject_Z base * 0.7 + inject_Z (randint (-30)%Z 30%Z))%Q
    else if (9 <=? hour) && (hour <? 17)
    then (inject_Z base * 0.8 + inject_Z (randint (-40)%Z 40%Z))%Q
    else if (17 <=? hour) && (hour <? 22)
    then (inject_Z base * 1.1 + inject_Z (randint (-30)%Z 30%Z))%Q
    else (inject_Z base * 0.6 + inject_Z (randint (-25)%Z 25%Z))%Q in
  {| fe_datetime := timestamp;
     fe_value := CoreMock.py_max 20 intensity;
     fe_region := region |}.

(** [CarbonDataProvider.get_24h_forecast], with the UTC clock reading and
    the random draws of each iteration as arguments. *)
Definition get_24h_forecast (now_utc : datetime) (randint : Z -> Z -> Z -> Z)
           (region : string) : list ForecastEntry :=
  let start_time := CoreMock.start_time now_utc in
  let base := CoreMock.dict_get base_intensities region 500 in
  map (fun i => forecast_entry base start_time (randint i) region i) (Py.range 48).

(** [random.randint(lo, hi)] returns an integer of [[lo, hi]]. *)
Definition randint_contract (randint : Z -> Z -> Z -> Z) : Prop :=
  forall i lo hi, lo <= hi -> lo <= randint i lo hi <= hi.

(** A world without network where every draw is 0, and draws that return
    the lower bound. *)
Definition offline (k : nat) : reading :=
  {| r_http := Raise (ValueError "offline"); r_minute := 0; r_hour := 12;
     r_rand := 0; r_now_utc := 0 |}.

Definition lowest (i lo hi : Z) : Z := lo.

End CarbonApi.

(** ** [src/core/carbon_scheduler.py]: the scheduling pass with its grid status *)

Module SchedulerRun.
Import JobQueue.

(** The part of the dictionary that [schedule_pending_jobs] returns that
    comes from the grid status and the two lists. *)
Record Summary : Type := {
  current_carbon_intensity : Q;
  grid_greenness : string;
  scheduled_count : Z;
  deferred_count : Z
}.

(** [CarbonAwareScheduler.schedule_pending_jobs(region)]: the grid status is
    read once, then the loop runs over the prioritized queue. *)
Definition schedule_pending_jobs (token : string) (w : CarbonApi.reading)
           (cache : list (CarbonApi.cache_key * CarbonApi.Response))
           (clock : nat -> datetime)
           (mock_forecast : nat -> list Core.CarbonIntensityPoint)
           (st : Scheduler.state) (region : string)
  : Summary * Scheduler.state * list (CarbonApi.cache_key * CarbonApi.Response) :=
  let (grid_status, cache') :=
    CarbonApi.get_grid_carbon_intensity token (CarbonApi.r_http w) (CarbonApi.r_minute w)
      (CarbonApi.r_hour w) (CarbonApi.r_rand w) (CarbonApi.r_now_utc w) cache region in
  let carbon_intensity := CarbonApi.carbonIntensity grid_status in
  let greenness := CarbonApi.greenness grid_status in
  let st' := Scheduler.schedule_pending_jobs clock mock_forecast carbon_intensity st in
  ({| current_carbon_intensity := carbon_intensity;
      grid_greenness := greenness;
      scheduled_count := Py.len (Scheduler.scheduled_jobs st');
      deferred_count := Py.len (Scheduler.deferred_jobs st') |},
   st', cache').

End SchedulerRun.

(** ** [src/core/emissions_tracker.py]: the tracking session and the log *)

Module TrackerLog.

(** The class of the object held in [self.tracker]. *)
Inductive tracker_kind : Type :=
| EmissionsTracker
| OfflineEmissionsTracker
| DummyTracker.

(** A record of the emissions log, a dictionary: a field is [None] when the
    key is absent.  [stop_tracking] and [add_manual_record] always set
    "emissions_kg_co2"; a log loaded from disk may lack it. *)
Record EmissionsRecord : Type := {
  job_name : option string;
  emissions_kg_co2 : option Q;
  emissions_avoided_kg : option Q;
  duration_seconds : Q;
  timestamp : datetime;
  country : string;
  is_estimated : option bool
}.

(** The fields of [GPUEmissionsTracker]. *)
Record GPUEmissionsTracker : Type := {
  country_code : string;
  tracker : option tracker_kind;
  emissions_log : list EmissionsRecord;
  current_job : option string;
  start_time : option datetime
}.

(** What CodeCarbon does during [start_tracking]: whether the two
    constructors and [start] return ([true]) or raise. *)
Record codecarbon : Type := {
  online_ok : bool;
  offline_ok : bool;
  start_ok : bool
}.

(** [GPUEmissionsTracker.start_tracking]; [available] is
    [_CODECARBON_AVAILABLE], [now] the clock reading, and [None] stands for
    an exception inside the [try]. *)
Definition start_tracking (available : bool) (cc : codecarbon) (now : datetime)
           (self : GPUEmissionsTracker) (job : string) : GPUEmissionsTracker :=
  let constructed : option tracker_kind :=
    if available
    then if online_ok cc then Some EmissionsTracker
         else if offline_ok cc then Some OfflineEmissionsTracker
         else None
    else Some DummyTracker in
  let started : option tracker_kind :=
    match constructed with
    | Some DummyTracker => Some DummyTracker
    | Some t => if start_ok cc then Some t else None
    | None => None
    end in
  let t := match started with Some t => t | None => DummyTracker end in
  {| country_code := country_code self;
     tracker := Some t;
     emissions_log := emissions_log self;
     current_job := Some job;
     start_time := Some now |}.

(** [GPUEmissionsTracker.stop_tracking].  [stop] is what
    [self.tracker.stop()] does for a CodeCarbon tracker: it raises
    ([None]) or returns emissions or [None]; the dummy tracker returns 0.
    [end_time] and [now] are the two clock readings; the result [None]
    stands for the empty dictionary. *)
Definition stop_tracking (stop : option (option Q)) (end_time now : datetime)
           (self : GPUEmissionsTracker)
  : option EmissionsRecord * GPUEmissionsTracker :=
  match tracker self, start_time self with
  | Some kind, Some started =>
      let stopped :=
        match kind with
        | DummyTracker => Some (Some 0%Q)
        | _ => stop
        end in
      let emissions :=
        match stopped with
        | Some (Some e) => e
        | Some None => 0%Q
        | None => 0%Q
        end in
      let duration := total_seconds (end_time - started) in
      let record :=
        {| job_name := current_job self;
           emissions_kg_co2 := Some emissions;
           emissions_avoided_kg := None;
           duration_seconds := duration;
           timestamp := now;
           country := country_code self;
           is_estimated := None |} in
      (Some record,
       {| country_code := country_code self;
          tracker := None;
          emissions_log := emissions_log self ++ [record];
          current_job := None;
          start_time := None |})
  | _, _ => (None, self)
  end.

(** [GPUEmissionsTracker.get_total_emissions] *)
Definition get_total_emissions (self : GPUEmissionsTracker) : Q :=
  Py.sum (map (fun job => match emissions_kg_co2 job with
                          | Some e => e
                          | None => 0%Q
                          end)
              (emissions_log self)).

(** [GPUEmissionsTracker.add_manual_record] *)
Definition add_manual_record (now : datetime) (self : GPUEmissionsTracker)
           (job : string) (emissions_kg duration : Q) (avoided_kg : Q)
  : EmissionsRecord * GPUEmissionsTracker :=
  let record :=
    {| job_name := Some job;
       emissions_kg_co2 := Some emissions_kg;
       emissions_avoided_kg := Some avoided_kg;
       duration_seconds := duration;
       timestamp := now;
       country := country_code self;
       is_estimated := Some true |} in
  (record,
   {| country_code := country_code self;
      tracker := tracker self;
      emissions_log := emissions_log self ++ [record];
      current_job := current_job self;
      start_time := start_time self |}).

(** A tracker for India with an empty log, as the constructor leaves it
    when there is no log file; and a CodeCarbon where everything raises. *)
Definition fresh : GPUEmissionsTracker :=
  {| country_code := "IN"; tracker := None; emissions_log := [];
     current_job := None; start_time := None |}.

Definition broken : codecarbon :=
  {| online_ok := false; offline_ok := false; start_ok := false |}.

End TrackerLog.

(** ** [src/cats/CI_api_interface.py]: the request URL *)

Module CatsApi.

(** [str.isspace] on a character with a code point below 256. *)
Definition isspace (c : Ascii.ascii) : bool :=
  let n := Z.of_nat (Ascii.nat_of_ascii c) in
  ((9 <=? n) && (n <=? 13)) || ((28 <=? n) && (n <=? 32))
  || (n =? 133) || (n =? 160).

Fixpoint lstrip (s : list Ascii.ascii) : list Ascii.ascii :=
  match s with
  | c :: rest => if isspace c then lstrip rest else s
  | [] => []
  end.

(** [s.strip()] *)
Definition strip (s : list Ascii.ascii) : list Ascii.ascii :=
  rev (lstrip (rev (lstrip s))).

(** The instant the request is made for: the timestamp with its minute
    set to 31 or to 1. *)
Definition request_time (timestamp : datetime) : datetime :=
  if Calendar.minute timestamp >? 30
  then Calendar.replace_minute timestamp 31
  else Calendar.replace_minute timestamp 1.

(** The postcode the request is made for. *)
Definition request_postcode (postcode : string) : string :=
  let chars := list_ascii_of_string postcode in
  if Py.len chars >? 4
  then string_of_list_ascii (strip (Py.slice chars 0 (-3)))
  else postcode.

(** [ciuk_request_url]; [strftime dt] is [dt.strftime("%Y-%m-%dT%H:%MZ")].
    The warning written to the standard error is left out. *)
Definition ciuk_request_url (strftime : datetime -> string)
           (timestamp : datetime) (postcode : string) : string :=
  let dt := request_time timestamp in
  let postcode := request_postcode postcode in
  ("https://api.carbonintensity.org.uk/regional/intensity/"
   ++ strftime dt ++ "/fw48h/postcode/" ++ postcode)%string.

End CatsApi.

(** * Properties *)

(** ** The error monad and Python sequences *)

Lemma bind_ok {A B : Type} (m : result A) (k : A -> result B) (b : B) :
  bind m k = OK b -> exists a, m = OK a /\ k a = OK b.
Proof.
  destruct m as [a | e]; simpl; intros H.
  - exists a; split; [reflexivity | exact H].
  - discriminate H.
Qed.

Ltac inv_bind H :=
  let a := fresh "x" in
  let Ha := fresh "E" in
  apply bind_ok in H; destruct H as (a & Ha & H).

Lemma len_nonneg {A : Type} (l : list A) : 0 <= Py.len l.
Proof. unfold Py.len; lia. Qed.

Lemma len_app {A : Type} (l1 l2 : list A) :
  Py.len (l1 ++ l2) = Py.len l1 + Py.len l2.
Proof. unfold Py.len; rewrite length_app; lia. Qed.

Lemma index_nonneg {A : Type} (l : list A) (i : Z) :
  0 <= i < Py.len l ->
  exists a, Py.index l i = OK a /\ nth_error l (Z.to_nat i) = Some a.
Proof.
  intros Hi. unfold Py.index.
  destruct (i <? 0) eqn:Hneg; [apply Z.ltb_lt in Hneg; lia |].
  destruct ((i <? 0) || (Py.len l <=? i)) eqn:Hout.
  - apply orb_true_iff in Hout. destruct Hout as [H | H].
    + apply Z.ltb_lt in H; lia.
    + apply Z.leb_le in H; lia.
  - destruct (nth_error l (Z.to_nat i)) as [a |] eqn:Hnth.
    + exists a; split; reflexivity.
    + apply nth_error_None in Hnth. unfold Py.len in Hi. lia.
Qed.

Lemma index_out_of_range {A : Type} (l : list A) (i : Z) :
  Py.len l <= i -> Py.index l i = Raise (IndexError "list index out of range").
Proof.
  intros Hi. unfold Py.index.
  pose proof (len_nonneg l).
  destruct (i <? 0) eqn:Hneg; [apply Z.ltb_lt in Hneg; lia |].
  replace (Py.len l <=? i) with true by (symmetry; apply Z.leb_le; lia).
  rewrite orb_true_r. reflexivity.
Qed.

Lemma index_first {A : Type} (a : A) (l : list A) : Py.index (a :: l) 0 = OK a.
Proof.
  destruct (index_nonneg (a :: l) 0) as (b & Hb & Hn).
  - unfold Py.len; simpl length; lia.
  - simpl in Hn. congruence.
Qed.

Lemma index_second {A : Type} (a b : A) (l : list A) : Py.index (a :: b :: l) 1 = OK b.
Proof.
  destruct (index_nonneg (a :: b :: l) 1) as (c & Hc & Hn).
  - unfold Py.len; simpl length; lia.
  - simpl in Hn. congruence.
Qed.

Lemma index_last {A : Type} (l : list A) (a : A) : Py.index (l ++ [a]) (-1) = OK a.
Proof.
  unfold Py.index.
  replace (-1 <? 0) with true by reflexivity.
  rewrite len_app. change (Py.len [a]) with 1.
  pose proof (len_nonneg l) as Hl.
  replace (-1 + (Py.len l + 1)) with (Py.len l) by lia.
  replace (Py.len l <? 0) with false by (symmetry; apply Z.ltb_ge; lia).
  replace (Py.len l + 1 <=? Py.len l) with false by (symmetry; apply Z.leb_gt; lia).
  simpl orb. unfold Py.len. rewrite Nat2Z.id.
  rewrite nth_error_app2 by lia. rewrite Nat.sub_diag. reflexivity.
Qed.

Lemma in_range (n i : Z) : In i (Py.range n) <-> 0 <= i < n.
Proof.
  unfold Py.range. rewrite in_map_iff. split.
  - intros (k & Hk & Hin). apply in_seq in Hin. lia.
  - intros Hi. exists (Z.to_nat i). split; [lia |]. apply in_seq. lia.
Qed.

Lemma mapM_ok {A B : Type} (f : A -> result B) (l : list A) (bs : list B) :
  mapM f l = OK bs -> Forall2 (fun a b => f a = OK b) l bs.
Proof.
  revert bs. induction l as [| a l IH]; simpl; intros bs H.
  - injection H as <-. constructor.
  - inv_bind H. inv_bind H. injection H as <-.
    constructor; [assumption | apply IH; assumption].
Qed.

Lemma mapM_total {A B : Type} (f : A -> result B) (l : list A) :
  (forall a, In a l -> exists b, f a = OK b) -> exists bs, mapM f l = OK bs.
Proof.
  induction l as [| a l IH]; simpl; intros H.
  - eexists; reflexivity.
  - destruct (H a) as (b & Hb); [left; reflexivity |].
    destruct IH as (bs & Hbs); [intros; apply H; right; assumption |].
    rewrite Hb, Hbs. simpl. eexists; reflexivity.
Qed.

Lemma geb_false (i n : Z) : i < n -> (i >=? n) = false.
Proof. intros H. rewrite Z.geb_leb. apply Z.leb_gt. assumption. Qed.

Lemma geb_true (i n : Z) : n <= i -> (i >=? n) = true.
Proof. intros H. rewrite Z.geb_leb. apply Z.leb_le. assumption. Qed.

(** ** Durations *)

Lemma total_seconds_zero (td : timedelta) : total_seconds td == 0 <-> td = 0.
Proof.
  unfold total_seconds, Qeq, Qdiv, Qmult, Qinv, inject_Z. simpl. lia.
Qed.

Lemma total_seconds_minutes (d : Z) : total_seconds (minutes d) == inject_Z d * 60.
Proof.
  unfold total_seconds, minutes, Qeq, Qdiv, Qmult, Qinv, inject_Z. simpl. lia.
Qed.

Lemma truediv_ok (x y : Q) :
  ~ y == 0 -> Py.truediv x y = OK (x / y)%Q.
Proof.
  intros Hy. unfold Py.truediv.
  destruct (Qeq_bool y 0) eqn:E; [| reflexivity].
  apply Qeq_bool_iff in E. contradiction.
Qed.

Lemma truediv_inv (x y q : Q) :
  Py.truediv x y = OK q -> ~ y == 0 /\ q = (x / y)%Q.
Proof.
  unfold Py.truediv. destruct (Qeq_bool y 0) eqn:E; [discriminate |].
  intros H; injection H as <-. split; [| reflexivity].
  intros Hy. apply Qeq_bool_iff in Hy. congruence.
Qed.

(** ** The order of the window records and [min] *)

Lemma Qlt_bool_iff (x y : Q) : Qlt_bool x y = true <-> (x < y)%Q.
Proof.
  unfold Qlt_bool. rewrite negb_true_iff. split.
  - intros H. apply Qnot_le_lt. intros Hle. apply Qle_bool_iff in Hle. congruence.
  - intros H. destruct (Qle_bool y x) eqn:E; [| reflexivity].
    apply Qle_bool_iff in E. apply Qlt_not_le in H. contradiction.
Qed.

Lemma Qlt_bool_false (x y : Q) : Qlt_bool x y = false <-> (y <= x)%Q.
Proof.
  unfold Qlt_bool. rewrite negb_false_iff. apply Qle_bool_iff.
Qed.

Lemma Qeq_bool_false (x y : Q) : Qeq_bool x y = false <-> ~ (x == y)%Q.
Proof.
  split.
  - intros H E. apply Qeq_bool_iff in E. congruence.
  - intros H. destruct (Qeq_bool x y) eqn:E; [| reflexivity].
    apply Qeq_bool_iff in E. contradiction.
Qed.

(** Turns every test of a tuple comparison into the fact it decides. *)
Ltac reflect_tests :=
  repeat match goal with
    | H : context [Qeq_bool ?x ?y] |- _ =>
        let E := fresh "E" in
        destruct (Qeq_bool x y) eqn:E;
        [apply Qeq_bool_iff in E | apply Qeq_bool_false in E];
        simpl negb in *; cbv iota in *
    | |- context [Qeq_bool ?x ?y] =>
        let E := fresh "E" in
        destruct (Qeq_bool x y) eqn:E;
        [apply Qeq_bool_iff in E | apply Qeq_bool_false in E];
        simpl negb in *; cbv iota in *
    | H : context [Z.eqb ?x ?y] |- _ =>
        destruct (Z.eqb_spec x y); simpl negb in *; cbv iota in *
    | |- context [Z.eqb ?x ?y] =>
        destruct (Z.eqb_spec x y); simpl negb in *; cbv iota in *
    | H : Qlt_bool _ _ = true |- _ => apply Qlt_bool_iff in H
    | H : Qlt_bool _ _ = false |- _ => apply Qlt_bool_false in H
    | H : Z.ltb _ _ = true |- _ => apply Z.ltb_lt in H
    | H : Z.ltb _ _ = false |- _ => apply Z.ltb_ge in H
    | |- Qlt_bool _ _ = true => apply Qlt_bool_iff
    | |- Qlt_bool _ _ = false => apply Qlt_bool_false
    | |- Z.ltb _ _ = true => apply Z.ltb_lt
    | |- Z.ltb _ _ = false => apply Z.ltb_ge
    end.

Lemma tuple_lt_trans (a b c : window_tuple) :
  tuple_lt a b = true -> tuple_lt b c = true -> tuple_lt a c = true.
Proof.
  destruct a as ((((v1, s1), e1), sv1), ev1).
  destruct b as ((((v2, s2), e2), sv2), ev2).
  destruct c as ((((v3, s3), e3), sv3), ev3).
  unfold tuple_lt. intros H1 H2.
  reflect_tests; subst; try discriminate; try reflexivity; try lia; try lra.
Qed.

Lemma tuple_lt_irrefl (a : window_tuple) : tuple_lt a a = false.
Proof.
  destruct a as ((((v1, s1), e1), sv1), ev1).
  unfold tuple_lt.
  reflect_tests; subst; try discriminate; try reflexivity; try lia; try lra.
Qed.

(** A tuple that nothing is less than has the least value, and among equal
    values the earliest start. *)
Lemma tuple_not_lt (a b : window_tuple) :
  tuple_lt b a = false ->
  let '(v1, s1, _, _, _) := a in
  let '(v2, s2, _, _, _) := b in
  (v1 <= v2)%Q /\ ((v2 == v1)%Q -> s1 <= s2).
Proof.
  destruct a as ((((v1, s1), e1), sv1), ev1).
  destruct b as ((((v2, s2), e2), sv2), ev2).
  unfold tuple_lt. intros H.
  reflect_tests; subst; split; try lra; try lia; intros; try lia; try lra.
Qed.

Section Min.
Context {A : Type}.
Variable key : A -> window_tuple.

Lemma pick_in (xs : list A) (x : A) :
  In (fold_left (pick (lt_by key)) xs x) (x :: xs).
Proof.
  revert x. induction xs as [| item xs IH]; intros x; simpl.
  - left; reflexivity.
  - destruct (IH (pick (lt_by key) x item)) as [Hpick | Hin];
      [| right; right; assumption].
    rewrite <- Hpick. unfold pick.
    destruct (lt_by key item x); [right; left | left]; reflexivity.
Qed.

(** The loop invariant of [min]: nothing seen so far is less than the
    current best. *)
Lemma pick_least (xs : list A) (x : A) (seen : list A) :
  (forall y, In y seen -> lt_by key y x = false) ->
  forall y, In y seen \/ y = x \/ In y xs ->
            lt_by key y (fold_left (pick (lt_by key)) xs x) = false.
Proof.
  revert x seen. induction xs as [| item xs IH]; intros x seen Hseen y Hy; simpl.
  - destruct Hy as [Hy | [-> | []]]; [apply Hseen; assumption | apply tuple_lt_irrefl].
  - apply (IH (pick (lt_by key) x item) (item :: x :: seen)).
    + intros z Hz. unfold pick. destruct (lt_by key item x) eqn:Hix.
      * destruct (lt_by key z item) eqn:Hzi; [exfalso | reflexivity].
        destruct Hz as [<- | [<- | Hz]].
        -- unfold lt_by in Hzi. rewrite tuple_lt_irrefl in Hzi. discriminate.
        -- unfold lt_by in *. pose proof (tuple_lt_trans _ _ _ Hzi Hix) as Hxx.
           rewrite tuple_lt_irrefl in Hxx. discriminate.
        -- pose proof (Hseen z Hz) as Hzx.
           unfold lt_by in *. rewrite (tuple_lt_trans _ _ _ Hzi Hix) in Hzx.
           discriminate.
      * destruct Hz as [<- | [<- | Hz]];
          [assumption | apply tuple_lt_irrefl | apply Hseen; assumption].
    + destruct Hy as [Hy | [-> | [-> | Hy]]].
      * left. right; right; assumption.
      * left. right; left; reflexivity.
      * left. left; reflexivity.
      * right; right; assumption.
Qed.

(** [min] returns an element of the list that no element is less than. *)
Lemma py_min_least (l : list A) (m : A) :
  py_min (lt_by key) l = OK m ->
  In m l /\ forall y, In y l -> tuple_lt (key y) (key m) = false.
Proof.
  destruct l as [| x xs]; simpl; intros H; [discriminate |].
  injection H as <-. split.
  - apply pick_in.
  - intros y Hy. apply (pick_least xs x []).
    + intros z [].
    + right. destruct Hy as [<- | Hy]; [left; reflexivity | right; assumption].
Qed.

Lemma py_min_total (l : list A) :
  l <> [] -> exists m, py_min (lt_by key) l = OK m.
Proof.
  destruct l as [| x xs]; [congruence |]. intros _. simpl. eexists; reflexivity.
Qed.

End Min.

(** ** The interpolating forecast ([src/cats/forecast.py]) *)

Module CatsFacts.
Import Cats Contract.

Lemma take_until_prefix (t : datetime) (data : list CarbonIntensityPointEstimate) :
  exists post, data = take_until t data ++ post.
Proof.
  induction data as [| d ds IH]; simpl.
  - exists []; reflexivity.
  - destruct (pt_datetime d <=? t).
    + destruct IH as (post & Hpost). exists post. simpl. congruence.
    + exists (d :: ds); reflexivity.
Qed.

Lemma skipn_suffix {A : Type} (n : nat) (l : list A) :
  exists pre, l = pre ++ skipn n l.
Proof. exists (firstn n l). symmetry. apply firstn_skipn. Qed.

(** Consecutive samples of a strictly increasing sequence are apart. *)
Lemma increasing_consecutive (l : list CarbonIntensityPointEstimate) :
  strictly_increasing l = true ->
  forall (i : nat) a b,
    nth_error l i = Some a -> nth_error l (S i) = Some b ->
    pt_datetime a < pt_datetime b.
Proof.
  induction l as [| x l IH]; intros Hinc i a b Ha Hb.
  - destruct i; discriminate Ha.
  - destruct l as [| y l'].
    + destruct i; simpl in Hb; [discriminate | destruct i; discriminate].
    + simpl in Hinc. apply andb_true_iff in Hinc. destruct Hinc as [Hxy Hrest].
      destruct i as [| i].
      * simpl in Ha, Hb. injection Ha as <-. injection Hb as <-.
        apply Z.ltb_lt; assumption.
      * apply (IH Hrest i); assumption.
Qed.

Lemma increasing_middle (pre l post : list CarbonIntensityPointEstimate) :
  strictly_increasing (pre ++ l ++ post) = true ->
  forall (i : nat) a b,
    nth_error l i = Some a -> nth_error l (S i) = Some b ->
    pt_datetime a < pt_datetime b.
Proof.
  intros Hinc i a b Ha Hb.
  apply (increasing_consecutive _ Hinc (length pre + i)).
  - rewrite nth_error_app2 by lia.
    replace (length pre + i - length pre)%nat with i by lia.
    rewrite nth_error_app1; [assumption |].
    apply nth_error_Some; congruence.
  - replace (S (length pre + i)) with (length pre + S i)%nat by lia.
    rewrite nth_error_app2 by lia.
    replace (length pre + S i - length pre)%nat with (S i) by lia.
    rewrite nth_error_app1; [assumption |].
    apply nth_error_Some; congruence.
Qed.

Lemma bisect_left_from_pos (step : timedelta) (rest : list CarbonIntensityPointEstimate)
      (t : datetime) (i n : Z) :
  bisect_left_from i step rest t = OK n -> i + 1 <= n <= i + Py.len rest.
Proof.
  revert i. induction rest as [| d ds IH]; simpl; intros i H.
  - discriminate H.
  - unfold Py.len in *. simpl length.
    destruct (pt_datetime d + step >=? t).
    + injection H as <-. lia.
    + apply IH in H. lia.
Qed.

(** What a successful construction establishes. *)
Lemma init_facts data duration start mwm ec self :
  init data duration start mwm ec = OK self ->
  wf_duration self = duration /\
  wf_max_window_minutes self = mwm /\
  wf_end_constraint self = ec /\
  wf_start self = start /\
  wf_end self = start + minutes duration /\
  1 <= wf_ndata self /\
  (exists d0 d1 rest,
      data = d0 :: d1 :: rest /\
      wf_data_stepsize self = pt_datetime d1 - pt_datetime d0) /\
  (exists pre post, data = pre ++ wf_data self ++ post).
Proof.
  unfold init. intros H.
  inv_bind H. rename x into filtered, E into Hfilt.
  inv_bind H. rename x into d1, E into Hd1.
  inv_bind H. rename x into d0, E into Hd0.
  inv_bind H. rename x into nd, E into Hnd.
  injection H as <-. simpl.
  assert (Hpre : exists post, data = filtered ++ post).
  { destruct (is_some mwm || is_some ec).
    - unfold filter_data_by_constraints in Hfilt.
      match type of Hfilt with
      | (if _ then _ else OK (take_until ?t _)) = _ =>
          destruct (take_until_prefix t data) as (post & Hpost);
          destruct (Py.len (take_until t data) <? 2); [discriminate |];
          injection Hfilt as <-; exists post; exact Hpost
      end.
    - injection Hfilt as <-. exists []. rewrite app_nil_r. reflexivity. }
  destruct Hpre as (post & Hpost).
  repeat split.
  - apply bisect_left_from_pos in Hnd. lia.
  - destruct filtered as [| f0 [| f1 frest]]; try discriminate.
    rewrite index_first in Hd0. injection Hd0 as <-.
    rewrite index_second in Hd1. injection Hd1 as <-.
    exists f0, f1, (frest ++ post). split; [rewrite Hpost; reflexivity | reflexivity].
  - unfold Py.slice_from.
    destruct (skipn_suffix (Py.clamp filtered (bisect_right filtered start)) filtered)
      as (pre & Hsuf).
    exists pre, post. rewrite app_assoc, <- Hsuf. exact Hpost.
Qed.

Lemma deadline_scan_le start step ec (m : Z) (offsets : list Z) :
  (forall i, In i offsets -> i <= m + 1) ->
  deadline_scan start step ec m offsets <= m.
Proof.
  induction offsets as [| i rest IH]; simpl; intros H.
  - lia.
  - destruct (start + i * step >=? ec).
    + specialize (H i (or_introl eq_refl)). lia.
    + apply IH. intros j Hj. apply H. right; assumption.
Qed.

(** [len(self)] never exceeds the number of offsets whose two boundary
    pairs exist, and is never negative. *)
Lemma len_bound (self : WindowedForecast) (n : Z) :
  len self = OK n ->
  0 <= n <= Z.max 0 (Py.len (wf_data self) - wf_ndata self).
Proof.
  unfold len. intros H.
  destruct (Py.len (wf_data self) - wf_ndata self <=? 0) eqn:Hbase.
  - injection H as <-. lia.
  - apply Z.leb_gt in Hbase.
    inv_bind H. rename x into m, E into Hm.
    injection H as <-.
    assert (Hm' : m <= Py.len (wf_data self) - wf_ndata self - 1).
    { destruct (wf_max_window_minutes self).
      - inv_bind Hm. injection Hm as <-. lia.
      - injection Hm as <-. lia. }
    destruct (wf_end_constraint self) as [ec |]; [| lia].
    match goal with
    | |- context [deadline_scan ?s ?st ?e ?mm ?os] =>
        pose proof (deadline_scan_le s st e mm os) as Hscan
    end.
    assert (forall i, In i (Py.range (Z.min (Py.len (wf_data self) - wf_ndata self) (m + 1))) ->
                      i <= m + 1) as Hall.
    { intros i Hi. apply in_range in Hi. lia. }
    specialize (Hscan Hall). lia.
Qed.

Lemma interp_ok (p1 p2 : CarbonIntensityPointEstimate) (when : datetime) :
  pt_datetime p1 <> pt_datetime p2 ->
  exists p, interp p1 p2 when = OK p /\ pt_datetime p = when.
Proof.
  intros Hne. unfold interp.
  rewrite truediv_ok.
  - simpl. eexists; split; reflexivity.
  - rewrite total_seconds_zero. lia.
Qed.

(** Every offset below [len(self)] that is not negative has its two
    boundary points, at the two ends of the window. *)
Lemma window_bounds_ok (self : WindowedForecast) (n index : Z) :
  len self = OK n ->
  0 <= index < n ->
  1 <= wf_ndata self ->
  (forall (i : nat) a b,
      nth_error (wf_data self) i = Some a ->
      nth_error (wf_data self) (S i) = Some b ->
      pt_datetime a < pt_datetime b) ->
  exists lbound rbound,
    window_bounds self index = OK (lbound, rbound) /\
    pt_datetime lbound = wf_start self + index * wf_data_stepsize self /\
    pt_datetime rbound = wf_end self + index * wf_data_stepsize self.
Proof.
  intros Hlen Hidx Hnd Hapart.
  pose proof (len_bound _ _ Hlen) as Hb.
  unfold window_bounds. rewrite Hlen. simpl.
  rewrite geb_false by lia.
  destruct (index_nonneg (wf_data self) index) as (a & Ha & Hna); [lia |].
  destruct (index_nonneg (wf_data self) (index + 1)) as (b & Hb' & Hnb); [lia |].
  rewrite Ha, Hb'. simpl.
  replace (Z.to_nat (index + 1)) with (S (Z.to_nat index)) in Hnb by lia.
  destruct (interp_ok a b (wf_start self + index * wf_data_stepsize self))
    as (lb & Hlb & Hlbt).
  { specialize (Hapart _ _ _ Hna Hnb). lia. }
  rewrite Hlb. simpl.
  replace (index + wf_ndata self =? Py.len (wf_data self)) with false
    by (symmetry; apply Z.eqb_neq; lia).
  destruct (index_nonneg (wf_data self) (index + wf_ndata self - 1)) as (c & Hc & Hnc); [lia |].
  destruct (index_nonneg (wf_data self) (index + wf_ndata self)) as (d & Hd & Hndd); [lia |].
  rewrite Hc, Hd. simpl.
  replace (Z.to_nat (index + wf_ndata self))
    with (S (Z.to_nat (index + wf_ndata self - 1))) in Hndd by lia.
  destruct (interp_ok c d (wf_end self + index * wf_data_stepsize self))
    as (rb & Hrb & Hrbt).
  { specialize (Hapart _ _ _ Hnc Hndd). lia. }
  rewrite Hrb. simpl.
  exists lb, rb. repeat split; assumption.
Qed.

Lemma span_assemble (self : WindowedForecast) (index : Z)
      (lbound rbound : CarbonIntensityPointEstimate) :
  span (assemble self index lbound rbound)
  = OK (pt_datetime rbound - pt_datetime lbound).
Proof.
  unfold span, assemble.
  change ([lbound] ++ ?l ++ [rbound]) with (lbound :: (l ++ [rbound])).
  rewrite index_first.
  change (lbound :: (?l ++ [rbound])) with ((lbound :: l) ++ [rbound]).
  rewrite index_last. reflexivity.
Qed.

(** Whatever window [__getitem__] returns starts at [start + index*step]
    and ends at [end + index*step]. *)
Lemma getitem_fields (self : WindowedForecast) (index : Z) w :
  getitem self index = OK w ->
  start w = wf_start self + index * wf_data_stepsize self /\
  end_ w = wf_end self + index * wf_data_stepsize self.
Proof.
  unfold getitem. intros H.
  inv_bind H. destruct x as (lb, rb).
  inv_bind H. inv_bind H. injection H as <-. simpl. split; reflexivity.
Qed.

(** The bounds check of [__getitem__]. *)
Lemma getitem_upper (self : WindowedForecast) (n index : Z) :
  len self = OK n -> n <= index ->
  getitem self index = Raise (IndexError "Window index out of range").
Proof.
  intros Hlen Hi. unfold getitem, window_bounds. rewrite Hlen. simpl.
  rewrite geb_true by lia.
  reflexivity.
Qed.

(** Under the input contract, [__getitem__] returns a window for every
    offset in [0, len(self)), and its value is the trapezoidal sum over
    the assembled points divided by the length of the window. *)
Lemma getitem_ok (self : WindowedForecast) (n index : Z) :
  len self = OK n ->
  0 <= index < n ->
  1 <= wf_ndata self ->
  wf_end self <> wf_start self ->
  (forall (i : nat) a b,
      nth_error (wf_data self) i = Some a ->
      nth_error (wf_data self) (S i) = Some b ->
      pt_datetime a < pt_datetime b) ->
  exists w lbound rbound,
    getitem self index = OK w /\
    window_bounds self index = OK (lbound, rbound) /\
    value w = (Py.sum (trapezoids (assemble self index lbound rbound))
               / total_seconds (wf_end self - wf_start self)%Z)%Q.
Proof.
  intros Hlen Hidx Hnd Hdur Hapart.
  destruct (window_bounds_ok self n index Hlen Hidx Hnd Hapart)
    as (lb & rb & Hwb & Hl & Hr).
  unfold getitem. rewrite Hwb. simpl.
  rewrite span_assemble. simpl.
  replace (pt_datetime rb - pt_datetime lb) with (wf_end self - wf_start self) by lia.
  rewrite truediv_ok by (rewrite total_seconds_zero; lia).
  simpl. eexists _, lb, rb. repeat split.
Qed.

End CatsFacts.

Module CatsClaims.
Import Cats Contract CatsFacts.

(** C1, as the claim states it, fails: on the two-sample scenario with
    duration 15 and start at minute 0, [get(0)] does not have value 150. *)
Lemma scenario_value_not_150 :
  ~ (exists self w,
        init two_samples 15 (minutes 0) None None = OK self /\
        getitem self 0 = OK w /\
        value w == 150 /\ start w = minutes 0 /\ end_ w = minutes 15).
Proof.
  intros (self & w & Hinit & Hget & Hv & _).
  vm_compute in Hinit. injection Hinit as <-.
  vm_compute in Hget. injection Hget as <-.
  vm_compute in Hv. discriminate Hv.
Qed.

(** C1, amended: on the two-sample scenario (100 at minute 0, 200 at
    minute 30), duration 15 and start at minute 0, [get(0)] is the window
    from minute 0 to minute 15 with value 125, the time-weighted average
    of the line from 100 (at minute 0) to 150 (at minute 15); 150 is its
    [end_value], not its value. *)
Theorem scenario_value_125 :
  exists self w,
    init two_samples 15 (minutes 0) None None = OK self /\
    len self = OK 1 /\
    getitem self 0 = OK w /\
    value w == 125 /\ start w = minutes 0 /\ end_ w = minutes 15 /\
    start_value w == 100 /\ end_value w == 150.
Proof.
  eexists. eexists.
  split; [vm_compute; reflexivity |].
  split; [vm_compute; reflexivity |].
  split; [vm_compute; reflexivity |].
  repeat split; vm_compute; reflexivity.
Qed.

(** C2: for a forecast constructed with reference start [s], duration [d]
    and step [step] (the gap between the first two samples), and for every
    [0 <= i < len]: the window that [get(i)] returns starts at [s + i*step]
    and ends exactly [d] minutes later; and [get(i)] does return a window
    when the samples are strictly increasing in time and [d] is not zero. *)
Theorem window_alignment data d s mwm ec self n i :
  init data d s mwm ec = OK self ->
  len self = OK n ->
  0 <= i < n ->
  exists d0 d1 rest,
    data = d0 :: d1 :: rest /\
    (forall w, getitem self i = OK w ->
               start w = s + i * (pt_datetime d1 - pt_datetime d0) /\
               end_ w - start w = minutes d) /\
    (strictly_increasing data = true -> d <> 0 ->
     exists w, getitem self i = OK w).
Proof.
  intros Hinit Hlen Hi.
  destruct (init_facts _ _ _ _ _ _ Hinit)
    as (Hdur & _ & _ & Hs & He & Hnd & (d0 & d1 & rest & Hdata & Hstep) & (pre & post & Hmid)).
  exists d0, d1, rest. split; [assumption |]. split.
  - intros w Hget.
    destruct (getitem_fields _ _ _ Hget) as (Hws & Hwe). split.
    + rewrite Hws, Hs, Hstep. reflexivity.
    + rewrite Hws, Hwe, He. lia.
  - intros Hinc Hd.
    destruct (getitem_ok self n i Hlen Hi Hnd) as (w & lb & rb & Hget & _ & _).
    + rewrite He, Hs. unfold minutes. lia.
    + rewrite Hmid in Hinc. exact (increasing_middle _ _ _ Hinc).
    + exists w. assumption.
Qed.

Lemma window_alignment_witness :
  exists w,
    getitem {| wf_duration := 15; wf_max_window_minutes := None;
               wf_end_constraint := None; wf_data_stepsize := minutes 30;
               wf_start := 0; wf_end := minutes 15;
               wf_data := two_samples; wf_ndata := 1 |} 0 = OK w /\
    start w = 0 + 0 * (minutes 30 - minutes 0) /\
    end_ w - start w = minutes 15.
Proof.
  destruct (window_alignment two_samples 15 0 None None
              {| wf_duration := 15; wf_max_window_minutes := None;
                 wf_end_constraint := None; wf_data_stepsize := minutes 30;
                 wf_start := 0; wf_end := minutes 15;
                 wf_data := two_samples; wf_ndata := 1 |} 1 0)
    as (d0 & d1 & rest & Hdata & Hfields & Hexists).
  - vm_compute; reflexivity.
  - vm_compute; reflexivity.
  - lia.
  - destruct Hexists as (w & Hw); [reflexivity | lia |].
    exists w. split; [exact Hw |].
    injection Hdata as <- <- _.
    exact (Hfields w Hw).
Defined.

(** The two conditions are needed: a duration of zero, or two samples at
    the same instant, make [get(0)] divide by zero. *)
Example zero_duration_divides_by_zero :
  exists self,
    init two_samples 0 (minutes 0) None None = OK self /\
    len self = OK 1 /\
    getitem self 0 = Raise ZeroDivisionError.
Proof.
  eexists. repeat split; vm_compute; reflexivity.
Qed.

Example repeated_instant_divides_by_zero :
  exists self,
    init (map cats_sample [(100, 0); (200, 30); (300, 30); (400, 60)]) 30 (minutes 0)
         None None
    = OK self /\
    len self = OK 3 /\
    getitem self 1 = Raise ZeroDivisionError.
Proof.
  eexists. repeat split; vm_compute; reflexivity.
Qed.

(** C3: for a forecast constructed from strictly increasing samples with
    duration [d] (not zero), the point list assembled for every offset
    [0 <= i < len] starts at the window start, ends [d] minutes later, so
    the elapsed time between its first and last point is [d*60] seconds,
    which is not zero, and the value of the window is the trapezoidal sum
    divided by exactly [d*60]. *)
Theorem window_span data d s mwm ec self n i :
  init data d s mwm ec = OK self ->
  len self = OK n ->
  0 <= i < n ->
  strictly_increasing data = true ->
  d <> 0 ->
  exists pts first last elapsed w,
    window_data self i = OK pts /\
    Py.index pts 0 = OK first /\
    Py.index pts (-1) = OK last /\
    pt_datetime first = s + i * wf_data_stepsize self /\
    pt_datetime last = s + i * wf_data_stepsize self + minutes d /\
    span pts = OK elapsed /\
    total_seconds elapsed == inject_Z d * 60 /\
    ~ total_seconds elapsed == 0 /\
    getitem self i = OK w /\
    value w == Py.sum (trapezoids pts) / (inject_Z d * 60).
Proof.
  intros Hinit Hlen Hi Hinc Hd.
  destruct (init_facts _ _ _ _ _ _ Hinit)
    as (Hdur & _ & _ & Hs & He & Hnd & _ & (pre & post & Hmid)).
  assert (Hapart : forall (k : nat) a b,
             nth_error (wf_data self) k = Some a ->
             nth_error (wf_data self) (S k) = Some b ->
             pt_datetime a < pt_datetime b).
  { rewrite Hmid in Hinc. exact (increasing_middle _ _ _ Hinc). }
  assert (Hne : wf_end self <> wf_start self)
    by (rewrite He, Hs; unfold minutes; lia).
  destruct (getitem_ok self n i Hlen Hi Hnd Hne Hapart)
    as (w & lb & rb & Hget & Hwb & Hval).
  destruct (window_bounds_ok self n i Hlen Hi Hnd Hapart)
    as (lb' & rb' & Hwb' & Hl & Hr).
  rewrite Hwb in Hwb'. injection Hwb' as <- <-.
  assert (Helapsed : pt_datetime rb - pt_datetime lb = minutes d)
    by (rewrite Hl, Hr, He; lia).
  exists (assemble self i lb rb), lb, rb, (minutes d), w.
  split; [unfold window_data; rewrite Hwb; reflexivity |].
  split; [apply index_first |].
  split.
  { unfold assemble.
    change ([lb] ++ ?l ++ [rb]) with ((lb :: l) ++ [rb]). apply index_last. }
  split; [rewrite Hl, Hs; reflexivity |].
  split; [rewrite Hr, He; lia |].
  split; [rewrite span_assemble, Helapsed; reflexivity |].
  split; [apply total_seconds_minutes |].
  split; [rewrite total_seconds_zero; unfold minutes; lia |].
  split; [assumption |].
  rewrite Hval.
  replace (wf_end self - wf_start self) with (minutes d) by (rewrite He, Hs; lia).
  rewrite total_seconds_minutes. reflexivity.
Qed.

Lemma window_span_witness :
  exists pts first last elapsed w,
    window_data {| wf_duration := 15; wf_max_window_minutes := None;
                   wf_end_constraint := None; wf_data_stepsize := minutes 30;
                   wf_start := 0; wf_end := minutes 15;
                   wf_data := two_samples; wf_ndata := 1 |} 0 = OK pts /\
    Py.index pts 0 = OK first /\
    Py.index pts (-1) = OK last /\
    pt_datetime first = 0 + 0 * minutes 30 /\
    pt_datetime last = 0 + 0 * minutes 30 + minutes 15 /\
    span pts = OK elapsed /\
    total_seconds elapsed == inject_Z 15 * 60 /\
    ~ total_seconds elapsed == 0 /\
    getitem {| wf_duration := 15; wf_max_window_minutes := None;
               wf_end_constraint := None; wf_data_stepsize := minutes 30;
               wf_start := 0; wf_end := minutes 15;
               wf_data := two_samples; wf_ndata := 1 |} 0 = OK w /\
    value w == Py.sum (trapezoids pts) / (inject_Z 15 * 60).
Proof.
  apply (window_span two_samples 15 0 None None _ 1 0).
  - vm_compute; reflexivity.
  - vm_compute; reflexivity.
  - lia.
  - reflexivity.
  - lia.
Defined.

(** With a lookahead cap or a deadline, constructing from fewer than two
    samples raises the "Insufficient forecast data" error. *)
Lemma init_insufficient_constrained data d s mwm ec :
  Py.len data < 2 ->
  is_some mwm || is_some ec = true ->
  init data d s mwm ec
  = Raise (ValueError "Insufficient forecast data for the specified time window constraints.").
Proof.
  intros Hlen Hc. unfold init. rewrite Hc.
  unfold filter_data_by_constraints.
  match goal with
  | |- context [take_until ?t data] =>
      destruct (take_until_prefix t data) as (post & Hpost);
      assert (Hshort : Py.len (take_until t data) < 2)
  end.
  { rewrite Hpost in Hlen at 1. rewrite len_app in Hlen.
    pose proof (len_nonneg post). lia. }
  apply Z.ltb_lt in Hshort. rewrite Hshort. reflexivity.
Qed.

(** C6, the code at the failing input: with neither a lookahead cap nor a
    deadline, constructing from exactly one sample does not raise the
    "Insufficient forecast data" error: it raises the [IndexError] of the
    unchecked access [filtered_data[1]]. *)
Theorem init_one_sample_unconstrained p d s :
  init [p] d s None None = Raise (IndexError "list index out of range").
Proof. reflexivity. Qed.

(** C7, the code at the failing input: on the three-sample forecast with
    duration 30 and start at minute 0 there are two windows, and [get(-1)]
    raises nothing: it returns a window that starts 30 minutes before the
    reference start. *)
Theorem getitem_negative_index :
  exists self w,
    init three_samples 30 (minutes 0) None None = OK self /\
    len self = OK 2 /\
    getitem self (-1) = OK w /\
    value w == 50 /\ start w = minutes (-30) /\ end_ w = minutes 0.
Proof.
  eexists. eexists.
  split; [vm_compute; reflexivity |].
  split; [vm_compute; reflexivity |].
  split; [vm_compute; reflexivity |].
  repeat split; vm_compute; reflexivity.
Qed.

End CatsClaims.

(** ** The footprint estimate ([src/cats/carbonFootprint.py]) *)

Module FootprintClaims.
Import Footprint FootprintSpec.
Local Open Scope Q_scope.

Lemma fold_left_Qplus (l : list Q) (a : Q) :
  fold_left Qplus l a == a + fold_right Qplus 0 l.
Proof.
  revert a. induction l as [| x l IH]; intros a; simpl.
  - ring.
  - rewrite IH. ring.
Qed.

Lemma sum_total_power (jobinfo : list (Z * Q)) :
  Py.sum (map (fun np : Z * Q => let (nunits, power) := np in inject_Z nunits * power)
              jobinfo)
  == total_power jobinfo.
Proof.
  unfold Py.sum. rewrite fold_left_Qplus.
  induction jobinfo as [| (u, w) rest IH]; simpl.
  - ring.
  - rewrite Qplus_0_l in IH. rewrite IH. ring.
Qed.

Lemma energy_spec PUE jobinfo runtime :
  energy PUE jobinfo runtime == energy_kwh PUE jobinfo (total_seconds runtime).
Proof.
  unfold energy, energy_kwh. rewrite sum_total_power. field.
Qed.

(** The two sample numbers are what they are said to be: [1.001] is
    [0x1.004189374bc6a] (in hexadecimal, times [2^0]), and the number
    after 100 is the successor of 100 and a valid binary64 number. *)
Example sample_numbers :
  Footprint64.pue_1_001 = SpecFloat.S754_finite false 0x1004189374bc6a (-52) /\
  Footprint64.next_after_100
  = SpecFloat.SFsucc Footprint64.prec Footprint64.emax (Footprint64.of_int 100) /\
  SpecFloat.valid_binary Footprint64.prec Footprint64.emax Footprint64.next_after_100
  = true.
Proof. vm_compute. repeat split. Qed.

(** C9, as the claim states it, fails on the program's numbers: for a PUE
    of 1.001, one unit of 700 W and a runtime of one hour the energy is
    positive, and with a current intensity of 100 and a best intensity of
    100.00000000000001, which is greater, both masses round to the same
    number, 70.07: the savings are 0 and not negative. *)
Lemma savings_zero_for_greater_best_intensity :
  let est := Footprint64.get_footprint_reduction_estimate
               Footprint64.pue_1_001 Footprint64.one_unit_700 (hours 1%Z)
               Footprint64.next_after_100 (Footprint64.of_int 100) in
  Footprint64.ltb (Footprint64.of_int 0)
    (Footprint64.energy Footprint64.pue_1_001 Footprint64.one_unit_700 (hours 1%Z))
  = true /\
  Footprint64.ltb (Footprint64.of_int 100) Footprint64.next_after_100 = true /\
  Footprint64.now est = Footprint64.best est /\
  Footprint64.ltb (Footprint64.savings est) (Footprint64.of_int 0) = false /\
  Footprint64.eqb (Footprint64.savings est) (Footprint64.of_int 0) = true.
Proof. vm_compute. repeat split. Qed.

(** C9, amended: the estimate is [(now, best, savings)] with
    [now = energy * average_now_ci], [best = energy * average_best_ci] and
    [savings = now - best], where [energy] is
    [PUE * (runtime seconds / 3600) * sum(units * watts) / 1000]; nothing
    clamps [savings]: it is negative whenever the best mass exceeds the
    current mass, and never positive when the energy is positive and the
    best intensity exceeds the current one. *)
Theorem footprint_reduction_estimate PUE jobinfo runtime average_best_ci average_now_ci :
  let est := get_footprint_reduction_estimate PUE jobinfo runtime
               average_best_ci average_now_ci in
  let e := energy_kwh PUE jobinfo (total_seconds runtime) in
  energy PUE jobinfo runtime == e /\
  now est == e * average_now_ci /\
  best est == e * average_best_ci /\
  savings est == now est - best est /\
  (now est < best est -> savings est < 0) /\
  (0 < energy PUE jobinfo runtime -> average_now_ci < average_best_ci ->
   ~ 0 < savings est).
Proof.
  intros est e. subst est. unfold get_footprint_reduction_estimate; simpl.
  pose proof (energy_spec PUE jobinfo runtime) as He. fold e in He.
  split; [exact He |].
  split; [rewrite He; reflexivity |].
  split; [rewrite He; reflexivity |].
  split; [reflexivity |].
  split.
  - intros Hlt. lra.
  - intros Hpos Hlt Hsav.
    set (en := energy PUE jobinfo runtime) in *. nra.
Qed.

Lemma footprint_reduction_estimate_witness :
  let est := get_footprint_reduction_estimate 1 [(1%Z, 1000)] (hours 1%Z) 200 100 in
  let e := energy_kwh 1 [(1%Z, 1000)] (total_seconds (hours 1%Z)) in
  now est == e * 100 /\
  best est == e * 200 /\
  savings est == now est - best est /\
  savings est < 0.
Proof.
  intros est e.
  destruct (footprint_reduction_estimate 1 [(1%Z, 1000)] (hours 1%Z) 200 100)
    as (_ & Hn & Hb & Hs & Hneg & _).
  split; [exact Hn |].
  split; [exact Hb |].
  split; [exact Hs |].
  apply Hneg. reflexivity.
Defined.

End FootprintClaims.

(** ** The simplified forecast ([src/core/forecast.py]) *)

Module CoreFacts.
Import Core.

Lemma len_at_least_1 (self : WindowedForecast) (n : Z) :
  len self = OK n -> 1 <= n.
Proof.
  unfold len. intros H. inv_bind H. injection H as <-. lia.
Qed.

(** A constructed forecast has a step that is not zero, so [len] returns. *)
Lemma init_len_total data d s mwm self :
  init data d s mwm = OK self -> exists n, len self = OK n.
Proof.
  unfold init. intros H.
  inv_bind H. rename x into step.
  inv_bind H. rename x into q, E0 into Hq.
  injection H as <-. unfold len; simpl.
  apply truediv_inv in Hq. destruct Hq as (Hstep & _).
  destruct (negb (or_default mwm 2820 =? 0)).
  - rewrite (truediv_ok _ _ Hstep). simpl. eexists; reflexivity.
  - simpl. eexists; reflexivity.
Qed.

Lemma inject_Z_len_nonzero {A : Type} (a : A) (l : list A) :
  ~ inject_Z (Py.len (a :: l)) == 0.
Proof.
  unfold Py.len, Qeq; simpl. lia.
Qed.

(** The second half of [__getitem__] on a window that is not empty. *)
Lemma mean_of_nonempty (a : CarbonIntensityPoint) (l : list CarbonIntensityPoint) :
  exists last,
    Py.truediv (Py.sum (map pt_value (a :: l))) (inject_Z (Py.len (a :: l)))
    = OK (Py.sum (map pt_value (a :: l)) / inject_Z (Py.len (a :: l)))%Q /\
    Py.index (a :: l) 0 = OK a /\
    Py.index (a :: l) (-1) = OK last.
Proof.
  destruct (exists_last (l := a :: l)) as (front & last & Hlast); [discriminate |].
  exists last. split; [apply truediv_ok, inject_Z_len_nonzero |].
  split; [apply index_first |].
  rewrite Hlast. apply index_last.
Qed.

(** [__getitem__] returns a window for every index below [len]. *)
Lemma getitem_total (self : WindowedForecast) (n i : Z) :
  len self = OK n -> i < n -> exists w, getitem self i = OK w.
Proof.
  intros Hlen Hi. unfold getitem. rewrite Hlen. simpl.
  rewrite geb_false by lia.
  match goal with
  | |- context [in_window self ?a ?b] => destruct (in_window self a b) as [| x xs]
  end.
  - destruct (Py.slice (wf_data self) i (i + wf_ndata self)) as [| y ys].
    + eexists; reflexivity.
    + destruct (mean_of_nonempty y ys) as (last & Hdiv & Hfirst & Hlast).
      cbn iota. rewrite Hdiv. cbn [bind]. rewrite Hfirst. cbn [bind]. rewrite Hlast. cbn [bind].
      eexists; reflexivity.
  - destruct (mean_of_nonempty x xs) as (last & Hdiv & Hfirst & Hlast).
    cbn iota. rewrite Hdiv. cbn [bind]. rewrite Hfirst. cbn [bind]. rewrite Hlast. cbn [bind].
    eexists; reflexivity.
Qed.

(** When samples fall inside the window, the value is their plain mean. *)
Lemma getitem_mean (self : WindowedForecast) (n i : Z) :
  len self = OK n -> i < n ->
  let window_start := wf_start self + i * wf_data_stepsize self in
  let window_end := window_start + minutes (wf_duration self) in
  let inside := in_window self window_start window_end in
  inside <> [] ->
  exists w,
    getitem self i = OK w /\
    value w = (Py.sum (map pt_value inside) / inject_Z (Py.len inside))%Q /\
    start w = window_start /\ end_ w = window_end.
Proof.
  intros Hlen Hi ws we inside Hne. unfold getitem. rewrite Hlen. simpl.
  rewrite geb_false by lia.
  fold ws. fold we. fold inside.
  destruct inside as [| x xs]; [congruence |].
  destruct (mean_of_nonempty x xs) as (last & Hdiv & Hfirst & Hlast).
  cbn iota. rewrite Hdiv. cbn [bind]. rewrite Hfirst. cbn [bind]. rewrite Hlast. cbn [bind].
  eexists. repeat split.
Qed.

Lemma iter_total (self : WindowedForecast) (n : Z) :
  len self = OK n ->
  exists ws, iter self = OK ws /\ Forall2 (fun i w => getitem self i = OK w) (Py.range n) ws.
Proof.
  intros Hlen. unfold iter. rewrite Hlen. simpl.
  destruct (mapM_total (getitem self) (Py.range n)) as (ws & Hws).
  - intros i Hin. apply in_range in Hin. apply (getitem_total self n); [assumption | lia].
  - exists ws. split; [assumption | apply mapM_ok; assumption].
Qed.

(** [get_best_start_time] returns the start and the value of [min(windowed)]. *)
Lemma get_best_start_time_min forecast current_time d h t v :
  get_best_start_time forecast current_time d h = OK (t, v) ->
  exists self best,
    init forecast d current_time (Some (h * 60)) = OK self /\
    min_window self = OK best /\
    t = start best /\ v = value best.
Proof.
  unfold get_best_start_time. intros H.
  destruct (d <? 1); [discriminate |].
  destruct (d >? h * 60); [discriminate |].
  inv_bind H. rename x into self. inv_bind H. rename x into best.
  injection H as <- <-. exists self, best. repeat split; assumption.
Qed.

Lemma Forall2_in_r {A B : Type} (R : A -> B -> Prop) (l : list A) (l' : list B) (b : B) :
  Forall2 R l l' -> In b l' -> exists a, In a l /\ R a b.
Proof.
  induction 1 as [| x y l l' Hxy _ IH]; intros Hin; [destruct Hin |].
  destruct Hin as [<- | Hin].
  - exists x. split; [left; reflexivity | assumption].
  - destruct (IH Hin) as (a & Ha & HR). exists a. split; [right |]; assumption.
Qed.

Lemma Forall2_in_l {A B : Type} (R : A -> B -> Prop) (l : list A) (l' : list B) (a : A) :
  Forall2 R l l' -> In a l -> exists b, In b l' /\ R a b.
Proof.
  induction 1 as [| x y l l' Hxy _ IH]; intros Hin; [destruct Hin |].
  destruct Hin as [<- | Hin].
  - exists y. split; [left; reflexivity | assumption].
  - destruct (IH Hin) as (b & Hb & HR). exists b. split; [right |]; assumption.
Qed.

End CoreFacts.

Module CoreClaims.
Import Contract CoreFacts.

(** C4: [min] over the iterated windows returns a window of some offset
    in [0, len) whose value is the least over all offsets [0 .. len-1];
    and any window of the same value starts no earlier than it does. *)
Theorem best_window_minimal (self : Core.WindowedForecast) (n : Z) :
  Core.len self = OK n ->
  exists best,
    Core.min_window self = OK best /\
    (exists i, 0 <= i < n /\ Core.getitem self i = OK best) /\
    (forall j w, 0 <= j < n -> Core.getitem self j = OK w ->
                 (Core.value best <= Core.value w)%Q /\
                 (Core.value w == Core.value best -> Core.start best <= Core.start w)).
Proof.
  intros Hlen.
  destruct (iter_total self n Hlen) as (ws & Hiter & Hall).
  assert (Hne : ws <> []).
  { pose proof (len_at_least_1 _ _ Hlen) as Hn.
    assert (Hin : In 0 (Py.range n)) by (apply in_range; lia).
    destruct (Forall2_in_l _ _ _ _ Hall Hin) as (w0 & Hw0 & _).
    intros ->. destruct Hw0. }
  destruct (py_min_total Core.astuple ws Hne) as (best & Hmin).
  destruct (py_min_least Core.astuple ws best Hmin) as (Hin & Hleast).
  exists best. split.
  { unfold Core.min_window. rewrite Hiter. exact Hmin. }
  split.
  - destruct (Forall2_in_r _ _ _ _ Hall Hin) as (i & Hi & Hget).
    exists i. split; [apply in_range; assumption | assumption].
  - intros j w Hj Hget.
    assert (Hjin : In j (Py.range n)) by (apply in_range; assumption).
    destruct (Forall2_in_l _ _ _ _ Hall Hjin) as (w' & Hw' & Hget').
    rewrite Hget in Hget'. injection Hget' as <-.
    exact (tuple_not_lt (Core.astuple best) (Core.astuple w) (Hleast w Hw')).
Qed.

Lemma best_window_minimal_witness :
  exists best,
    Core.min_window five_samples = OK best /\
    (exists i, 0 <= i < 4 /\ Core.getitem five_samples i = OK best) /\
    (forall j w, 0 <= j < 4 -> Core.getitem five_samples j = OK w ->
                 (Core.value best <= Core.value w)%Q /\
                 (Core.value w == Core.value best -> Core.start best <= Core.start w)).
Proof.
  apply (best_window_minimal five_samples 4).
  vm_compute; reflexivity.
Defined.

(** C5: the simplified forecast returns the plain mean of the samples
    whose timestamps lie inside the window, with nothing interpolated at
    the two ends; so the two implementations differ: on the samples 100
    at minute 0 and 200 at minute 30, duration 15 and start at minute 0,
    offset 0 has value 125 in the interpolating forecast and 100 in the
    simplified one. *)
Theorem implementations_differ :
  (forall (self : Core.WindowedForecast) (n i : Z),
      Core.len self = OK n -> i < n ->
      let window_start := Core.wf_start self + i * Core.wf_data_stepsize self in
      let window_end := window_start + minutes (Core.wf_duration self) in
      let inside := Core.in_window self window_start window_end in
      inside <> [] ->
      exists w,
        Core.getitem self i = OK w /\
        Core.value w = (Py.sum (map Core.pt_value inside) / inject_Z (Py.len inside))%Q) /\
  (exists samples d s i self_cats self_core w_cats w_core,
      Cats.init (map cats_sample samples) d s None None = OK self_cats /\
      Core.init (map core_sample samples) d s None = OK self_core /\
      Cats.getitem self_cats i = OK w_cats /\
      Core.getitem self_core i = OK w_core /\
      Cats.value w_cats == 125 /\
      Core.value w_core == 100 /\
      ~ Cats.value w_cats == Core.value w_core).
Proof.
  split.
  - intros self n i Hlen Hi ws we inside Hne.
    destruct (getitem_mean self n i Hlen Hi Hne) as (w & Hget & Hval & _).
    exists w. split; assumption.
  - exists [(100, 0); (200, 30)], 15, 0, 0.
    eexists. eexists. eexists. eexists.
    split; [vm_compute; reflexivity |].
    split; [vm_compute; reflexivity |].
    split; [vm_compute; reflexivity |].
    split; [vm_compute; reflexivity |].
    split; [vm_compute; reflexivity |].
    split; [vm_compute; reflexivity |].
    vm_compute. discriminate.
Qed.

Lemma implementations_differ_witness :
  exists w,
    Core.getitem five_samples 1 = OK w /\
    Core.value w
    = (Py.sum (map Core.pt_value (map core_sample [(200, 30); (50, 60)]%Z))
       / inject_Z 2)%Q.
Proof.
  destruct implementations_differ as (Hmean & _).
  apply (Hmean five_samples 4 1).
  - vm_compute; reflexivity.
  - lia.
  - vm_compute; discriminate.
Defined.

(** C10: [len] of a constructed simplified forecast is at least 1, also
    when the forecast is shorter than the window; and for an index below
    [len], when no sample lies inside the window and the positional slice
    [data[index : index + ndata]] is empty too, [__getitem__] returns the
    window with value 0, start value 0 and end value 0 and raises nothing
    (so it does on the forecast of no samples, at offset 0). *)
Theorem len_clamped_and_empty_window :
  (forall data d s mwm self,
      Core.init data d s mwm = OK self ->
      exists n, Core.len self = OK n /\ 1 <= n) /\
  (forall (self : Core.WindowedForecast) (n i : Z),
      Core.len self = OK n -> i < n ->
      let window_start := Core.wf_start self + i * Core.wf_data_stepsize self in
      let window_end := window_start + minutes (Core.wf_duration self) in
      Core.in_window self window_start window_end = [] ->
      Py.slice (Core.wf_data self) i (i + Core.wf_ndata self) = [] ->
      Core.getitem self i
      = OK {| Core.value := 0; Core.start := window_start; Core.end_ := window_end;
              Core.start_value := 0; Core.end_value := 0 |}) /\
  (Core.init [] 60 0 None = OK no_samples /\
   Core.len no_samples = OK 1 /\
   Core.getitem no_samples 0
   = OK {| Core.value := 0; Core.start := 0; Core.end_ := minutes 60;
           Core.start_value := 0; Core.end_value := 0 |}).
Proof.
  split; [| split].
  - intros data d s mwm self Hinit.
    destruct (init_len_total _ _ _ _ _ Hinit) as (n & Hn).
    exists n. split; [assumption | apply (len_at_least_1 self); assumption].
  - intros self n i Hlen Hi ws we Hin Hslice.
    unfold Core.getitem. rewrite Hlen. cbn [bind].
    rewrite geb_false by lia.
    fold ws. fold we. rewrite Hin. cbn iota. rewrite Hslice. reflexivity.
  - repeat split; vm_compute; reflexivity.
Qed.

Lemma len_clamped_and_empty_window_witness :
  (exists n, Core.len no_samples = OK n /\ 1 <= n) /\
  Core.getitem no_samples 0
  = OK {| Core.value := 0;
          Core.start := Core.wf_start no_samples + 0 * Core.wf_data_stepsize no_samples;
          Core.end_ := Core.wf_start no_samples + 0 * Core.wf_data_stepsize no_samples
                       + minutes (Core.wf_duration no_samples);
          Core.start_value := 0; Core.end_value := 0 |}.
Proof.
  destruct len_clamped_and_empty_window as (Hlen & Hzero & _).
  split.
  - apply (Hlen [] 60 0 None). vm_compute; reflexivity.
  - apply (Hzero no_samples 1 0).
    + vm_compute; reflexivity.
    + lia.
    + reflexivity.
    + reflexivity.
Defined.

End CoreClaims.

(** ** The job store and the scheduler
       ([src/core/job_queue.py], [src/core/carbon_scheduler.py]) *)

Module SchedulerFacts.
Import JobQueue Scheduler Contract.

(** [update_first] changes what the store holds under [id], and under no
    other identifier. *)
Lemma get_job_update_first (jobs : list GPUJob) (id id' : string)
      (f : GPUJob -> GPUJob) :
  (forall j, job_id (f j) = job_id j) ->
  get_job (fst (update_first jobs id f)) id'
  = if String.eqb id' id then option_map f (get_job jobs id) else get_job jobs id'.
Proof.
  intros Hf. unfold get_job.
  induction jobs as [| j rest IH]; simpl.
  - destruct (String.eqb id' id); reflexivity.
  - destruct (String.eqb (job_id j) id) eqn:Hj; simpl.
    + rewrite Hf. apply String.eqb_eq in Hj.
      destruct (String.eqb id' id) eqn:Hid.
      * apply String.eqb_eq in Hid. subst id'. rewrite Hj, String.eqb_refl. reflexivity.
      * rewrite Hj, String.eqb_sym, Hid. reflexivity.
    + destruct (update_first rest id f) as (rest', found). simpl in *.
      destruct (String.eqb (job_id j) id') eqn:Hj'.
      * destruct (String.eqb id' id) eqn:Hid; [| reflexivity].
        apply String.eqb_eq in Hj', Hid. subst. rewrite String.eqb_refl in Hj. discriminate.
      * exact IH.
Qed.

Lemma get_job_unique (jobs : list GPUJob) (j : GPUJob) :
  NoDup (ids jobs) -> In j jobs -> get_job jobs (job_id j) = Some j.
Proof.
  unfold get_job, ids.
  induction jobs as [| x rest IH]; intros Hnd Hin; [destruct Hin |].
  simpl in Hnd. inversion Hnd as [| ? ? Hnotin Hnd']; subst.
  simpl. destruct Hin as [-> | Hin].
  - rewrite String.eqb_refl. reflexivity.
  - destruct (String.eqb (job_id x) (job_id j)) eqn:E.
    + apply String.eqb_eq in E. exfalso. apply Hnotin. rewrite E.
      apply in_map; assumption.
    + apply IH; assumption.
Qed.

Lemma insert_by_priority_perm (j : GPUJob) (l : list GPUJob) :
  Permutation (insert_by_priority j l) (j :: l).
Proof.
  induction l as [| k rest IH]; simpl.
  - apply Permutation_refl.
  - destruct (priority k <=? priority j).
    + apply Permutation_refl.
    + apply perm_trans with (k :: j :: rest).
      * apply perm_skip; assumption.
      * apply perm_swap.
Qed.

Lemma sorted_by_priority_perm (l : list GPUJob) :
  Permutation (sorted_by_priority l) l.
Proof.
  induction l as [| j rest IH]; simpl.
  - apply Permutation_refl.
  - apply perm_trans with (j :: sorted_by_priority rest).
    + apply insert_by_priority_perm.
    + apply perm_skip; assumption.
Qed.

Lemma ids_filter_nodup (p : GPUJob -> bool) (l : list GPUJob) :
  NoDup (ids l) -> NoDup (ids (filter p l)).
Proof.
  unfold ids. induction l as [| x rest IH]; simpl; intros Hnd; [constructor |].
  inversion Hnd as [| ? ? Hnotin Hnd']; subst.
  destruct (p x); simpl.
  - constructor; [| apply IH; assumption].
    intros Hin. apply Hnotin. apply in_map_iff in Hin.
    destruct Hin as (y & Hy & Hin). apply filter_In in Hin.
    apply in_map_iff. exists y. tauto.
  - apply IH; assumption.
Qed.

(** The queue holds every pending job of the store, each once. *)
Lemma prioritized_queue_complete (jobs : list GPUJob) (j : GPUJob) :
  NoDup (ids jobs) -> In j jobs -> status j = status_value PENDING ->
  NoDup (ids (get_prioritized_queue jobs)) /\ In j (get_prioritized_queue jobs).
Proof.
  intros Hnd Hin Hst. unfold get_prioritized_queue. split.
  - apply Permutation_NoDup with (ids (get_jobs_by_status jobs (status_value PENDING))).
    + unfold ids. apply Permutation_map, Permutation_sym, sorted_by_priority_perm.
    + apply ids_filter_nodup; assumption.
  - apply Permutation_in with (get_jobs_by_status jobs (status_value PENDING)).
    + apply Permutation_sym, sorted_by_priority_perm.
    + apply filter_In. split; [assumption |]. rewrite Hst. apply String.eqb_refl.
Qed.

Section Loop.
Variable clock : nat -> datetime.
Variable mock_forecast : nat -> list Core.CarbonIntensityPoint.
Variable carbon_intensity : Q.

Local Notation "'step'" := (schedule_one clock mock_forecast carbon_intensity).
Local Notation "'decided'" := (Contract.decided clock mock_forecast carbon_intensity).

Lemma step_other (st : state) (job : GPUJob) (id : string) :
  id <> job_id job ->
  get_job (jobs (step st job)) id = get_job (jobs st) id.
Proof.
  intros Hne. apply String.eqb_neq in Hne.
  unfold schedule_one, update_job_status, update_job.
  destruct (Qlt_bool carbon_intensity _).
  - simpl. rewrite !get_job_update_first, Hne by (intros; try destruct (String.eqb _ _); reflexivity).
    reflexivity.
  - destruct (best_start clock mock_forecast (tick st) (duration_minutes job))
      as [(t, c) | e]; simpl;
      rewrite !get_job_update_first, Hne by (intros; try destruct (String.eqb _ _); reflexivity);
      reflexivity.
Qed.

Lemma step_own (st : state) (job : GPUJob) :
  get_job (jobs st) (job_id job) = Some job ->
  exists j', get_job (jobs (step st job)) (job_id job) = Some j' /\
             decided job j' (tick st).
Proof.
  intros Hget.
  unfold schedule_one, update_job_status, update_job, Contract.decided, best_start.
  destruct (Qlt_bool carbon_intensity (inject_Z (carbon_intensity_threshold job))) eqn:Hlt.
  - apply Qlt_bool_iff in Hlt. simpl.
    rewrite !get_job_update_first, String.eqb_refl, Hget
      by (intros; try destruct (String.eqb _ _); reflexivity).
    simpl. eexists. split; [reflexivity |]. simpl.
    split; [reflexivity |]. split; [intros _; split; reflexivity | contradiction].
  - apply Qlt_bool_false in Hlt.
    destruct (Core.get_best_start_time (mock_forecast (tick st)) (clock (tick st))
                (duration_minutes job) 24) as [(t, c) | e]; simpl;
      rewrite !get_job_update_first, String.eqb_refl, Hget
        by (intros; try destruct (String.eqb _ _); reflexivity);
      simpl; (eexists; split; [reflexivity |]); simpl;
      (split; [reflexivity |]);
      (split; [intros Hc; apply Qlt_not_le in Hc; contradiction
              | intros _; split; reflexivity]).
Qed.

Lemma loop_other (queue : list GPUJob) (st : state) (id : string) :
  ~ In id (ids queue) ->
  get_job (jobs (fold_left step queue st)) id = get_job (jobs st) id.
Proof.
  revert st. induction queue as [| job rest IH]; intros st Hnotin; simpl.
  - reflexivity.
  - rewrite IH.
    + apply step_other. intros ->. apply Hnotin. left; reflexivity.
    + intros Hin. apply Hnotin. right; assumption.
Qed.

(** The loop decides every job of the queue, and what it decided for a
    job stays in the store to the end of the loop. *)
Lemma loop_decides (queue : list GPUJob) (st : state) (j : GPUJob) :
  NoDup (ids queue) -> In j queue ->
  get_job (jobs st) (job_id j) = Some j ->
  exists j' k, get_job (jobs (fold_left step queue st)) (job_id j) = Some j' /\
               decided j j' k.
Proof.
  revert st. induction queue as [| job rest IH]; intros st Hnd Hin Hget;
    [destruct Hin |].
  simpl in Hnd. inversion Hnd as [| ? ? Hnotin Hnd']; subst.
  simpl. destruct Hin as [-> | Hin].
  - destruct (step_own st j Hget) as (j' & Hj' & Hdec).
    exists j', (tick st). split; [| assumption].
    rewrite loop_other; assumption.
  - apply IH; try assumption.
    rewrite step_other; [assumption |].
    intros Heq. apply Hnotin. rewrite <- Heq. apply in_map; assumption.
Qed.


End Loop.

End SchedulerFacts.

Module SchedulerClaims.
Import JobQueue Scheduler Contract SchedulerFacts SchedulerTurn.

Lemma unique_ids_nodup (jobs : list GPUJob) :
  unique_ids jobs = true -> NoDup (ids jobs).
Proof.
  induction jobs as [| j rest IH]; simpl; intros H; [constructor |].
  apply andb_true_iff in H. destruct H as (Hj & Hrest).
  constructor; [| apply IH; assumption].
  intros Hin. apply negb_true_iff in Hj.
  assert (Hex : existsb (String.eqb (job_id j)) (ids rest) = true).
  { apply existsb_exists. exists (job_id j). split; [assumption | apply String.eqb_refl]. }
  congruence.
Qed.





(** The run of the witness: "b" (priority 5) is processed first and
    deferred to minute 60, the start of the best window; "a" is scheduled
    at the second clock reading. *)
Example two_jobs_run :
  let st := schedule_pending_jobs minute_clock constant_forecast 300
              {| jobs := two_jobs; scheduled_jobs := []; deferred_jobs := []; tick := 0 |} in
  map (fun j => (job_id j, status j, scheduled_for j)) (jobs st)
  = [("a"%string, "scheduled"%string, Some (minutes 1));
     ("b"%string, "deferred"%string, Some (minutes 60))] /\
  scheduled_jobs st = ["a"%string] /\
  deferred_jobs st = ["b"%string].
Proof. vm_compute. repeat split. Qed.

(** A job of duration 0 makes the search raise ("Duration must be at least
    1 minute"); the job is deferred to six hours after the next reading. *)
Example fallback_run :
  let job := {| job_id := "z"; duration_minutes := 0; power_draw_watts := 300;
                priority := 1; status := "pending"; carbon_intensity_threshold := 100;
                scheduled_for := None; completed_at := None |} in
  let st := schedule_pending_jobs minute_clock constant_forecast 300
              {| jobs := [job]; scheduled_jobs := []; deferred_jobs := []; tick := 0 |} in
  map (fun j => (job_id j, status j, scheduled_for j)) (jobs st)
  = [("z"%string, "deferred"%string, Some (minutes 1 + hours 6))].
Proof. vm_compute. reflexivity. Qed.

(** Unique identifiers are needed: of two pending jobs that share an
    identifier, both are processed, but both updates reach the first one and
    the second stays "pending". *)
Example shared_identifier_run :
  let job := {| job_id := "a"; duration_minutes := 30; power_draw_watts := 300;
                priority := 1; status := "pending"; carbon_intensity_threshold := 400;
                scheduled_for := None; completed_at := None |} in
  let st := schedule_pending_jobs minute_clock constant_forecast 300
              {| jobs := [job; job]; scheduled_jobs := []; deferred_jobs := []; tick := 0 |} in
  map (fun j => (job_id j, status j, scheduled_for j)) (jobs st)
  = [("a"%string, "scheduled"%string, Some (minutes 1));
     ("a"%string, "pending"%string, None)].
Proof. vm_compute. reflexivity. Qed.

End SchedulerClaims.

(** ** More on the interpolating forecast ([src/cats/forecast.py]) *)

Module CatsMore.
Import Cats Contract CatsContract CatsFacts.

Lemma total_seconds_pos (td : timedelta) : 0 < td -> (0 < total_seconds td)%Q.
Proof.
  intros H. unfold total_seconds, Qlt, Qdiv, Qmult, Qinv, inject_Z. simpl. lia.
Qed.

Lemma total_seconds_le (a b : timedelta) :
  a <= b -> (total_seconds a <= total_seconds b)%Q.
Proof.
  intros H. unfold total_seconds, Qle, Qdiv, Qmult, Qinv, inject_Z. simpl. lia.
Qed.

Lemma total_seconds_0 : total_seconds 0 == 0.
Proof. reflexivity. Qed.

(** The value [interp] computes. *)
Lemma interp_value (p1 p2 p : CarbonIntensityPointEstimate) (when : datetime) :
  interp p1 p2 when = OK p ->
  pt_datetime p = when /\
  ~ total_seconds (pt_datetime p2 - pt_datetime p1) == 0 /\
  pt_value p
  = (pt_value p1
     + (pt_value p2 - pt_value p1) / total_seconds (pt_datetime p2 - pt_datetime p1)%Z
       * total_seconds (when - pt_datetime p1)%Z)%Q.
Proof.
  unfold interp. intros H. inv_bind H. apply truediv_inv in E.
  destruct E as (Hne & ->). injection H as <-. simpl. repeat split. assumption.
Qed.

(** X1: [interp] raises exactly when the two samples share their instant,
    where it divides by zero; otherwise it returns a point dated at the
    instant asked for, whatever that instant is, and at the instant of the
    first sample it returns the value of the first sample. *)
Theorem interp_outcome (p1 p2 : CarbonIntensityPointEstimate) :
  (pt_datetime p1 = pt_datetime p2 ->
   forall when, interp p1 p2 when = Raise ZeroDivisionError) /\
  (pt_datetime p1 <> pt_datetime p2 ->
   (forall when, exists p, interp p1 p2 when = OK p /\ pt_datetime p = when) /\
   (exists a, interp p1 p2 (pt_datetime p1) = OK a /\ pt_value a == pt_value p1)).
Proof.
  split.
  - intros Heq when. unfold interp, Py.truediv.
    replace (pt_datetime p2 - pt_datetime p1) with 0 by lia.
    reflexivity.
  - intros Hne. split.
    + intros when. apply interp_ok. assumption.
    + destruct (interp_ok p1 p2 (pt_datetime p1) Hne) as (a & Ha & _).
      exists a. split; [assumption |].
      apply interp_value in Ha. destruct Ha as (_ & _ & ->).
      rewrite Z.sub_diag, total_seconds_0. ring.
Qed.

Lemma interp_outcome_witness :
  (exists p,
      interp (cats_sample (100, 0)) (cats_sample (200, 30)) (minutes 45) = OK p /\
      pt_datetime p = minutes 45) /\
  (exists a,
      interp (cats_sample (100, 0)) (cats_sample (200, 30)) (minutes 0) = OK a /\
      pt_value a == 100).
Proof.
  destruct (interp_outcome (cats_sample (100, 0)) (cats_sample (200, 30)))
    as (_ & Hdiffer).
  destruct Hdiffer as (Hany & Hfirst); [vm_compute; discriminate |].
  split; [apply Hany | exact Hfirst].
Defined.

Lemma range_seq (n : Z) : Py.range n = map Z.of_nat (seq 0 (Z.to_nat n)).
Proof. reflexivity. Qed.

(** The scan stops at the first offset that reaches the deadline: every
    offset up to its result starts before the deadline. *)
Lemma deadline_scan_before start step ec (m : Z) (a k : nat) :
  forall i,
    In i (map Z.of_nat (seq a k)) ->
    i <= deadline_scan start step ec m (map Z.of_nat (seq a k)) ->
    start + i * step < ec.
Proof.
  revert a. induction k as [| k IH]; intros a i Hin Hle; [destruct Hin |].
  simpl in Hin, Hle.
  destruct (start + Z.of_nat a * step >=? ec) eqn:Htest.
  - exfalso. destruct Hin as [<- | Hin]; [lia |].
    apply in_map_iff in Hin. destruct Hin as (j & <- & Hj). apply in_seq in Hj. lia.
  - destruct Hin as [<- | Hin].
    + rewrite Z.geb_leb in Htest. apply Z.leb_gt in Htest. lia.
    + apply (IH (S a)); assumption.
Qed.

(** X2: with a deadline, no window that [len] counts starts at or after
    the deadline. *)
Theorem windows_start_before_deadline (self : WindowedForecast) (n ec : Z) :
  len self = OK n ->
  wf_end_constraint self = Some ec ->
  forall i, 0 <= i < n -> wf_start self + i * wf_data_stepsize self < ec.
Proof.
  unfold len. intros H Hec i Hi.
  destruct (Py.len (wf_data self) - wf_ndata self <=? 0) eqn:Hbase.
  - injection H as <-. lia.
  - apply Z.leb_gt in Hbase.
    inv_bind H. rename x into m, E into Hm.
    injection H as <-. rewrite Hec in Hi.
    assert (Hm' : m <= Py.len (wf_data self) - wf_ndata self - 1).
    { destruct (wf_max_window_minutes self).
      - inv_bind Hm. injection Hm as <-. lia.
      - injection Hm as <-. lia. }
    rewrite range_seq in Hi.
    match type of Hi with
    | context [deadline_scan ?s ?st ?e ?mm (map Z.of_nat (seq 0 ?k))] =>
        pose proof (deadline_scan_le s st e mm (map Z.of_nat (seq 0 k))) as Hscan;
        apply (deadline_scan_before s st e mm 0 k)
    end.
    + assert (Hall : forall j,
                 In j (map Z.of_nat
                         (seq 0 (Z.to_nat (Z.min (Py.len (wf_data self) - wf_ndata self)
                                                 (m + 1))))) ->
                 j <= m + 1).
      { intros j Hj. rewrite <- range_seq in Hj. apply in_range in Hj. lia. }
      specialize (Hscan Hall).
      rewrite <- range_seq. apply in_range. lia.
    + lia.
Qed.

Lemma windows_start_before_deadline_witness :
  wf_start with_deadline + 1 * wf_data_stepsize with_deadline < minutes 45.
Proof.
  apply (windows_start_before_deadline with_deadline 2 (minutes 45)).
  - vm_compute; reflexivity.
  - reflexivity.
  - lia.
Defined.

Lemma int_le (q : Q) : (0 <= q)%Q -> (inject_Z (Py.int q) <= q)%Q.
Proof.
  destruct q as (num, den). unfold Py.int, Qle, inject_Z. simpl. intros H.
  rewrite Z.mul_1_r in H.
  rewrite Z.quot_div_nonneg by lia.
  rewrite Z.mul_1_r.
  pose proof (Z.mul_div_le num (Zpos den)). lia.
Qed.

(** X3: with a lookahead cap of [m >= 0] minutes and a positive step, no
    window that [len] counts starts more than [m] minutes after the
    reference start. *)
Theorem windows_start_within_lookahead (self : WindowedForecast) (n m : Z) :
  len self = OK n ->
  wf_max_window_minutes self = Some m ->
  0 <= m ->
  0 < wf_data_stepsize self ->
  forall i, 0 <= i < n -> i * wf_data_stepsize self <= minutes m.
Proof.
  unfold len. intros H Hm Hm0 Hstep i Hi.
  destruct (Py.len (wf_data self) - wf_ndata self <=? 0) eqn:Hbase.
  - injection H as <-. lia.
  - rewrite Hm in H. inv_bind H. rename x into mvi, E into Hmvi.
    inv_bind Hmvi. rename x into q, E into Hq. injection Hmvi as <-.
    injection H as <-.
    apply truediv_inv in Hq. destruct Hq as (Hnz & ->).
    set (c := (total_seconds (wf_data_stepsize self) / 60)%Q) in *.
    assert (Hc : (0 < c)%Q).
    { unfold c. apply Qlt_shift_div_l; [reflexivity |].
      rewrite Qmult_0_l. apply total_seconds_pos. assumption. }
    assert (Hq0 : (0 <= inject_Z m / c)%Q).
    { apply Qle_shift_div_l; [assumption |]. rewrite Qmult_0_l.
      change 0%Q with (inject_Z 0). rewrite <- Zle_Qle. assumption. }
    pose proof (int_le _ Hq0) as Hint.
    assert (Hi' : i <= Py.int (inject_Z m / c)).
    { destruct (wf_end_constraint self) as [ec |].
      - match type of Hi with
        | context [deadline_scan ?s ?st ?e ?mm ?os] =>
            pose proof (deadline_scan_le s st e mm os) as Hscan;
            assert (Hall : forall j, In j os -> j <= mm + 1)
              by (intros j Hj; apply in_range in Hj; lia)
        end.
        specialize (Hscan Hall). lia.
      - lia. }
    assert (HiQ : (inject_Z i <= inject_Z m / c)%Q).
    { apply Qle_trans with (inject_Z (Py.int (inject_Z m / c))); [| assumption].
      rewrite <- Zle_Qle. assumption. }
    assert (Hmul : (inject_Z i * c <= inject_Z m)%Q).
    { apply Qle_trans with (inject_Z m / c * c)%Q.
      - apply Qmult_le_compat_r; [assumption | lra].
      - assert (E : (inject_Z m / c * c == inject_Z m)%Q) by (field; lra).
        rewrite E. apply Qle_refl. }
    unfold c, total_seconds, minutes in *.
    unfold Qle, Qdiv, Qmult, Qinv, inject_Z in Hmul. simpl in Hmul. lia.
Qed.

Lemma windows_start_within_lookahead_witness :
  2 * wf_data_stepsize with_lookahead <= minutes 60.
Proof.
  apply (windows_start_within_lookahead with_lookahead 3 60).
  - vm_compute; reflexivity.
  - reflexivity.
  - lia.
  - reflexivity.
  - lia.
Defined.

Lemma increasing_tail_later (a : CarbonIntensityPointEstimate)
      (l : list CarbonIntensityPointEstimate) :
  strictly_increasing (a :: l) = true ->
  strictly_increasing l = true /\
  forall d, In d l -> pt_datetime a < pt_datetime d.
Proof.
  revert a. induction l as [| b l IH]; intros a H.
  - split; [reflexivity | intros d []].
  - simpl in H. apply andb_true_iff in H. destruct H as (Hab & Hrest).
    apply Z.ltb_lt in Hab. split; [assumption |].
    destruct (IH b Hrest) as (_ & Hlater).
    intros d [<- | Hd]; [assumption |]. specialize (Hlater d Hd). lia.
Qed.

Lemma take_until_up_to (t : datetime) (data : list CarbonIntensityPointEstimate) :
  strictly_increasing data = true -> take_until t data = up_to t data.
Proof.
  unfold up_to. induction data as [| d ds IH]; intros Hinc; [reflexivity |].
  destruct (increasing_tail_later d ds Hinc) as (Hds & Hlater).
  simpl. destruct (pt_datetime d <=? t) eqn:Hd.
  - rewrite IH by assumption. reflexivity.
  - apply Z.leb_gt in Hd. symmetry.
    assert (Hnone : forall x, In x ds -> (pt_datetime x <=? t) = false).
    { intros x Hx. apply Z.leb_gt. specialize (Hlater x Hx). lia. }
    clear - Hnone. induction ds as [| x xs IHx]; [reflexivity |].
    simpl. rewrite (Hnone x (or_introl eq_refl)). apply IHx.
    intros y Hy. apply Hnone. right; assumption.
Qed.

(** X4: on samples in strictly increasing time order, the truncation by a
    lookahead cap and a deadline keeps exactly the samples dated up to
    [min(start + cap, deadline) + duration], and it raises the
    "Insufficient forecast data" error exactly when fewer than two of them
    are. *)
Theorem truncation_keeps_samples_up_to data start duration cap ec :
  strictly_increasing data = true ->
  let search_window_end :=
    match ec with
    | Some deadline => Z.min (start + minutes cap) deadline
    | None => start + minutes cap
    end in
  let kept := up_to (search_window_end + minutes duration) data in
  (Py.len kept < 2 ->
   filter_data_by_constraints data start duration cap ec
   = Raise (ValueError "Insufficient forecast data for the specified time window constraints.")) /\
  (2 <= Py.len kept ->
   filter_data_by_constraints data start duration cap ec = OK kept).
Proof.
  intros Hinc. cbv zeta. unfold filter_data_by_constraints. cbv zeta.
  rewrite (take_until_up_to _ _ Hinc).
  destruct ec as [deadline |]; cbv iota beta; split; intros H;
    first [ apply Z.ltb_lt in H | apply Z.ltb_ge in H ]; rewrite H; reflexivity.
Qed.

Lemma truncation_keeps_samples_up_to_witness :
  filter_data_by_constraints
    (map cats_sample [(100, 0); (100, 30); (300, 60); (300, 90); (300, 120)])
    0 30 60 (Some (minutes 45))
  = OK (up_to (Z.min (0 + minutes 60) (minutes 45) + minutes 30)
              (map cats_sample [(100, 0); (100, 30); (300, 60); (300, 90); (300, 120)])).
Proof.
  destruct (truncation_keeps_samples_up_to
              (map cats_sample [(100, 0); (100, 30); (300, 60); (300, 90); (300, 120)])
              0 30 60 (Some (minutes 45))) as (_ & Hkept).
  - reflexivity.
  - apply Hkept. vm_compute. discriminate.
Defined.

Lemma filtered_head data start duration cap ec filtered d0 rest :
  filter_data_by_constraints data start duration cap ec = OK filtered ->
  data = d0 :: rest ->
  exists f1 frest, filtered = d0 :: f1 :: frest.
Proof.
  unfold filter_data_by_constraints. intros H ->.
  match type of H with
  | (if Py.len ?l <? 2 then _ else _) = _ =>
      destruct (Py.len l <? 2) eqn:Hlen; [discriminate |];
      injection H as <-; apply Z.ltb_ge in Hlen
  end.
  simpl in *. destruct (pt_datetime d0 <=? _).
  - match goal with
    | |- exists f1 frest, d0 :: ?l = _ => destruct l as [| f1 frest]
    end.
    + unfold Py.len in Hlen. simpl in Hlen. lia.
    + exists f1, frest. reflexivity.
  - unfold Py.len in Hlen. simpl in Hlen. lia.
Qed.

Lemma slice_from_last {A : Type} (l : list A) (z : A) :
  Py.slice_from (l ++ [z]) (-1) = [z].
Proof.
  unfold Py.slice_from, Py.clamp.
  replace (-1 <? 0) with true by reflexivity.
  rewrite len_app. change (Py.len [z]) with 1.
  pose proof (len_nonneg l) as Hl.
  replace (Z.to_nat (Z.min (Z.max 0 (-1 + (Py.len l + 1))) (Py.len l + 1)))
    with (length l) by (unfold Py.len in *; lia).
  rewrite skipn_app, Nat.sub_diag, skipn_all. reflexivity.
Qed.

(** X5: a reference start before the first sample leaves no window: the
    working sequence is cut down to the last sample alone, so a forecast
    that is constructed at all has length 0 and every offset is out of
    range. *)
Theorem start_before_first_sample data d s mwm ec self d0 rest :
  init data d s mwm ec = OK self ->
  data = d0 :: rest ->
  s < pt_datetime d0 ->
  (exists last, wf_data self = [last]) /\
  len self = OK 0 /\
  forall i, 0 <= i -> getitem self i = Raise (IndexError "Window index out of range").
Proof.
  unfold init. intros H Hdata Hs.
  inv_bind H. rename x into filtered, E into Hfilt.
  assert (Hhead : exists f1 frest, filtered = d0 :: f1 :: frest).
  { destruct (is_some mwm || is_some ec).
    - apply (filtered_head _ _ _ _ _ _ _ _ Hfilt Hdata).
    - injection Hfilt as <-. subst data.
      destruct rest as [| f1 frest].
      + inv_bind H. discriminate E.
      + exists f1, frest. reflexivity. }
  destruct Hhead as (f1 & frest & ->).
  inv_bind H. inv_bind H. inv_bind H. rename x1 into nd, E1 into Hnd.
  unfold bisect_right in Hnd. simpl bisect_right_from in Hnd.
  replace (pt_datetime d0 >? s) with true in Hnd
    by (symmetry; rewrite Z.gtb_ltb; apply Z.ltb_lt; assumption).
  change (0 - 1) with (-1) in Hnd.
  destruct (exists_last (l := d0 :: f1 :: frest)) as (front & last & Hlast);
    [discriminate |].
  assert (Hwork : Py.slice_from (d0 :: f1 :: frest) (bisect_right (d0 :: f1 :: frest) s)
                  = [last]).
  { unfold bisect_right. simpl bisect_right_from.
    replace (pt_datetime d0 >? s) with true
      by (symmetry; rewrite Z.gtb_ltb; apply Z.ltb_lt; assumption).
    change (0 - 1) with (-1). rewrite Hlast. apply slice_from_last. }
  rewrite Hlast, slice_from_last in Hnd.
  assert (Hnd1 : nd = 1).
  { unfold bisect_left in Hnd. simpl in Hnd.
    destruct (pt_datetime last + _ >=? _); [injection Hnd as <-; reflexivity | discriminate]. }
  injection H as <-. subst nd.
  assert (Hlen : len {| wf_duration := d; wf_max_window_minutes := mwm;
                        wf_end_constraint := ec;
                        wf_data_stepsize := pt_datetime x - pt_datetime x0;
                        wf_start := s; wf_end := s + minutes d;
                        wf_data := Py.slice_from (d0 :: f1 :: frest)
                                     (bisect_right (d0 :: f1 :: frest) s);
                        wf_ndata := 1 |} = OK 0).
  { unfold len. simpl wf_data. simpl wf_ndata. rewrite Hwork. reflexivity. }
  split; [exists last; simpl; exact Hwork |].
  split; [exact Hlen |].
  intros i Hi. apply (getitem_upper _ 0); [exact Hlen | lia].
Qed.

Lemma start_before_first_sample_witness :
  exists self,
    init three_samples 30 (minutes (-10)) None None = OK self /\
    len self = OK 0 /\
    getitem self 0 = Raise (IndexError "Window index out of range").
Proof.
  eexists. split; [vm_compute; reflexivity |].
  destruct (start_before_first_sample three_samples 30 (minutes (-10)) None None _
              (cats_sample (100, 0)) (map cats_sample [(100, 30); (300, 60)])
              eq_refl eq_refl) as (_ & Hlen & Hget).
  - reflexivity.
  - split; [exact Hlen | apply Hget; lia].
Defined.

Lemma index_in {A : Type} (l : list A) (i : Z) (a : A) :
  Py.index l i = OK a -> In a l.
Proof.
  unfold Py.index. destruct (_ || _); [discriminate |].
  destruct (nth_error l _) eqn:Hn; [| discriminate].
  intros H. injection H as <-. apply nth_error_In in Hn. assumption.
Qed.

Lemma slice_in {A : Type} (l : list A) (a b : Z) (x : A) :
  In x (Py.slice l a b) -> In x l.
Proof.
  unfold Py.slice. intros H.
  set (lo := Py.clamp l a) in *. set (hi := Py.clamp l b) in *.
  rewrite <- (firstn_skipn lo l). apply in_or_app. right.
  rewrite <- (firstn_skipn (hi - lo) (skipn lo l)). apply in_or_app. left. assumption.
Qed.

(** What [__getitem__] returns, in terms of its two boundary points. *)
Lemma getitem_inv (self : WindowedForecast) (index : Z) w :
  getitem self index = OK w ->
  exists lbound rbound,
    window_bounds self index = OK (lbound, rbound) /\
    start_value w = pt_value lbound /\
    end_value w = pt_value rbound /\
    ~ total_seconds (pt_datetime rbound - pt_datetime lbound) == 0 /\
    value w = (Py.sum (trapezoids (assemble self index lbound rbound))
               / total_seconds (pt_datetime rbound - pt_datetime lbound)%Z)%Q.
Proof.
  unfold getitem. intros H. inv_bind H. destruct x as (lb, rb).
  rewrite span_assemble in H. cbn [bind] in H.
  inv_bind H. apply truediv_inv in E0. destruct E0 as (Hnz & ->).
  injection H as <-. exists lb, rb. repeat split; assumption.
Qed.

Lemma trapezoids_cons (a b : CarbonIntensityPointEstimate)
      (l : list CarbonIntensityPointEstimate) :
  trapezoids (a :: b :: l)
  = (0.5 * (pt_value a + pt_value b)
     * total_seconds (pt_datetime b - pt_datetime a)%Z)%Q
      :: trapezoids (b :: l).
Proof.
  unfold trapezoids, Py.zip, Py.all_but_last, Py.slice_from, Py.clamp.
  replace (1 <? 0) with false by reflexivity.
  assert (H2 : Z.to_nat (Z.min (Z.max 0 1) (Py.len (a :: b :: l))) = 1%nat)
    by (unfold Py.len; simpl length; lia).
  assert (H1 : Z.to_nat (Z.min (Z.max 0 1) (Py.len (b :: l))) = 1%nat)
    by (unfold Py.len; simpl length; lia).
  rewrite H2, H1. simpl length. simpl skipn.
  replace (S (S (length l)) - 1)%nat with (S (length l)) by lia.
  replace (S (length l) - 1)%nat with (length l) by lia.
  reflexivity.
Qed.

Lemma sum_cons (x : Q) (l : list Q) : Py.sum (x :: l) == x + Py.sum l.
Proof.
  unfold Py.sum. simpl. rewrite !FootprintClaims.fold_left_Qplus. ring.
Qed.

Lemma total_seconds_add (a b : timedelta) :
  total_seconds (a + b) == total_seconds a + total_seconds b.
Proof.
  unfold total_seconds. rewrite inject_Z_plus. field.
Qed.

Lemma last_cons_default {A : Type} (l : list A) (b d : A) :
  last (b :: l) d = last l b.
Proof.
  revert b d. induction l as [| x l IH]; intros b d; [reflexivity |].
  change (last (b :: x :: l) d) with (last (x :: l) d).
  rewrite (IH x d), (IH x b). reflexivity.
Qed.

(** The trapezoidal sum over points that all have the value [v] is [v]
    times the time from the first to the last. *)
Lemma sum_trapezoids_flat (v : Q) (rest : list CarbonIntensityPointEstimate) :
  forall first,
    (forall p, In p (first :: rest) -> pt_value p == v) ->
    Py.sum (trapezoids (first :: rest))
    == v * total_seconds (pt_datetime (last rest first) - pt_datetime first).
Proof.
  induction rest as [| b l IH]; intros first Hflat.
  - simpl. rewrite Z.sub_diag. unfold trapezoids, Py.sum. simpl.
    rewrite total_seconds_0. ring.
  - rewrite trapezoids_cons, sum_cons.
    rewrite IH by (intros p Hp; apply Hflat; right; assumption).
    rewrite (Hflat first (or_introl eq_refl)).
    rewrite (Hflat b (or_intror (or_introl eq_refl))).
    rewrite (last_cons_default l b first).
    replace (pt_datetime (last l b) - pt_datetime first)
      with ((pt_datetime b - pt_datetime first)
            + (pt_datetime (last l b) - pt_datetime b)) by lia.
    rewrite total_seconds_add. field.
Qed.

Lemma interp_flat (v : Q) (p1 p2 p : CarbonIntensityPointEstimate) (when : datetime) :
  pt_value p1 == v -> pt_value p2 == v ->
  interp p1 p2 when = OK p -> pt_value p == v.
Proof.
  intros H1 H2 Hp. apply interp_value in Hp. destruct Hp as (_ & Hnz & ->).
  rewrite H1, H2. field. assumption.
Qed.

Lemma window_bounds_flat (v : Q) (self : WindowedForecast) (index : Z) lbound rbound :
  (forall p, In p (wf_data self) -> pt_value p == v) ->
  window_bounds self index = OK (lbound, rbound) ->
  pt_value lbound == v /\ pt_value rbound == v.
Proof.
  intros Hflat H. unfold window_bounds in H.
  inv_bind H. destruct (index >=? x); [discriminate |].
  inv_bind H. inv_bind H. inv_bind H. inv_bind H. injection H as <- <-.
  split.
  - apply (interp_flat v x0 x1 _ _ (Hflat _ (index_in _ _ _ E0))
             (Hflat _ (index_in _ _ _ E1)) E2).
  - destruct (index + wf_ndata self =? Py.len (wf_data self)).
    + apply Hflat. eapply index_in; eassumption.
    + inv_bind E3. inv_bind E3.
      apply (interp_flat v x4 x5 _ _ (Hflat _ (index_in _ _ _ E4))
               (Hflat _ (index_in _ _ _ E5)) E3).
Qed.

(** X6: on a forecast whose samples all have the value [v], every window
    [__getitem__] returns has start value [v] and end value [v]: every
    interpolation has slope zero.  Under the input contract it returns
    such a window for every offset counted by [len]. *)
Theorem flat_forecast_flat_boundaries data d s mwm ec self v :
  init data d s mwm ec = OK self ->
  flat v data = true ->
  (forall i w, getitem self i = OK w ->
               start_value w == v /\ end_value w == v) /\
  (forall n i, len self = OK n -> 0 <= i < n ->
               strictly_increasing data = true -> d <> 0 ->
               exists w, getitem self i = OK w /\
                         start_value w == v /\ end_value w == v).
Proof.
  intros Hinit Hflat.
  destruct (init_facts _ _ _ _ _ _ Hinit)
    as (_ & _ & _ & Hs & He & Hnd & _ & (pre & post & Hmid)).
  assert (Hall : forall p, In p (wf_data self) -> pt_value p == v).
  { intros p Hp. unfold flat in Hflat. rewrite forallb_forall in Hflat.
    apply Qeq_bool_iff. apply Hflat. rewrite Hmid.
    apply in_or_app. right. apply in_or_app. left. assumption. }
  assert (Hany : forall i w, getitem self i = OK w ->
                             start_value w == v /\ end_value w == v).
  { intros i w Hget.
    destruct (getitem_inv _ _ _ Hget) as (lb & rb & Hwb & Hsv & Hev & _).
    destruct (window_bounds_flat v _ _ _ _ Hall Hwb) as (Hlb & Hrb).
    rewrite Hsv, Hev. split; assumption. }
  split; [exact Hany |].
  intros n i Hlen Hi Hinc Hd.
  destruct (getitem_ok self n i Hlen Hi Hnd) as (w & lb & rb & Hget & _ & _).
  - rewrite He, Hs. unfold minutes. lia.
  - rewrite Hmid in Hinc. exact (increasing_middle _ _ _ Hinc).
  - exists w. split; [assumption |]. apply (Hany i w Hget).
Qed.

Lemma flat_forecast_flat_boundaries_witness :
  exists w,
    getitem {| wf_duration := 45; wf_max_window_minutes := None;
               wf_end_constraint := None; wf_data_stepsize := minutes 30;
               wf_start := minutes 10; wf_end := minutes 55;
               wf_data := map cats_sample [(70, 0); (70, 30); (70, 60); (70, 90)];
               wf_ndata := 2 |} 1 = OK w /\
    start_value w == 70 /\ end_value w == 70.
Proof.
  destruct (flat_forecast_flat_boundaries
              (map cats_sample [(70, 0); (70, 30); (70, 60); (70, 90)])
              45 (minutes 10) None None
              {| wf_duration := 45; wf_max_window_minutes := None;
                 wf_end_constraint := None; wf_data_stepsize := minutes 30;
                 wf_start := minutes 10; wf_end := minutes 55;
                 wf_data := map cats_sample [(70, 0); (70, 30); (70, 60); (70, 90)];
                 wf_ndata := 2 |} 70) as (_ & Hexists).
  - vm_compute; reflexivity.
  - reflexivity.
  - apply (Hexists 2 1).
    + vm_compute; reflexivity.
    + lia.
    + reflexivity.
    + lia.
Defined.

End CatsMore.

(** ** More on the simplified forecast ([src/core/forecast.py]) *)

Module CoreMore.
Import Core CoreMock CoreFacts.

Lemma stepsize_of (data : list CarbonIntensityPoint) :
  exists step,
    (if Py.len data >=? 2
     then d1 <- Py.index data 1 ;; d0 <- Py.index data 0 ;;
          OK (pt_datetime d1 - pt_datetime d0)
     else OK (minutes 30)) = OK step /\
    (step = 0 <-> degenerate data = true) /\
    (forall d0 d1 rest, data = d0 :: d1 :: rest -> step = pt_datetime d1 - pt_datetime d0) /\
    (Py.len data < 2 -> step = minutes 30).
Proof.
  destruct data as [| d0 [| d1 rest]].
  - exists (minutes 30). split; [reflexivity |].
    split; [split; intros H; vm_compute in H; discriminate H |].
    split; [intros ? ? ? H; discriminate H | reflexivity].
  - exists (minutes 30). split; [reflexivity |].
    split; [split; intros H; vm_compute in H; discriminate H |].
    split; [intros ? ? ? H; discriminate H | reflexivity].
  - exists (pt_datetime d1 - pt_datetime d0).
    replace (Py.len (d0 :: d1 :: rest) >=? 2) with true
      by (symmetry; apply geb_true; unfold Py.len; simpl length; lia).
    rewrite index_second, index_first. cbn [bind].
    split; [reflexivity |]. split; [| split].
    + simpl. split; intros H; [apply Z.eqb_eq; lia | apply Z.eqb_eq in H; lia].
    + intros ? ? ? H. injection H as <- <- _. reflexivity.
    + unfold Py.len. simpl length. lia.
Qed.

Lemma step_minutes_zero (step : timedelta) :
  (total_seconds step / 60 == 0)%Q <-> step = 0.
Proof.
  unfold total_seconds, Qeq, Qdiv, Qmult, Qinv, inject_Z. simpl. lia.
Qed.

Lemma init_cases data d s mwm :
  (degenerate data = true -> init data d s mwm = Raise ZeroDivisionError) /\
  (degenerate data = false ->
   exists self,
     init data d s mwm = OK self /\
     wf_start self = s /\ wf_duration self = d /\
     wf_data_stepsize self <> 0 /\
     1 <= wf_ndata self /\
     (Py.len data < 2 -> wf_data_stepsize self = minutes 30) /\
     (forall d0 d1 rest, data = d0 :: d1 :: rest ->
                         wf_data_stepsize self = pt_datetime d1 - pt_datetime d0) /\
     (forall p, In p (wf_data self) -> In p data) /\
     (data <> [] -> wf_data self <> [])).
Proof.
  destruct (stepsize_of data) as (step & Hstep & Hzero & Hpair & Hshort).
  unfold init. rewrite Hstep. cbn [bind]. split.
  - intros Hdeg. apply Hzero in Hdeg. subst step. reflexivity.
  - intros Hdeg.
    assert (Hnz : step <> 0) by (intros E; apply Hzero in E; congruence).
    rewrite truediv_ok by (rewrite step_minutes_zero; assumption).
    cbn [bind]. eexists. split; [reflexivity |]. simpl.
    repeat split; try assumption; try lia.
    + intros p Hp.
      destruct (filter _ data) as [| x xs] eqn:Hf; [assumption |].
      rewrite <- Hf in Hp. apply filter_In in Hp. tauto.
    + intros Hne. destruct (filter _ data) as [| x xs]; [assumption | discriminate].
Qed.

(** X7: constructing the simplified forecast fails in one case only: when
    the first two samples share their timestamp, the step is zero and the
    window size divides by zero.  Otherwise it succeeds, also on fewer than
    two samples, where the step is taken to be 30 minutes. *)
Theorem init_outcome data d s mwm :
  (degenerate data = true -> init data d s mwm = Raise ZeroDivisionError) /\
  (degenerate data = false ->
   exists self,
     init data d s mwm = OK self /\
     wf_start self = s /\ wf_duration self = d /\
     wf_data_stepsize self <> 0 /\
     1 <= wf_ndata self /\
     (Py.len data < 2 -> wf_data_stepsize self = minutes 30) /\
     (forall d0 d1 rest, data = d0 :: d1 :: rest ->
                         wf_data_stepsize self = pt_datetime d1 - pt_datetime d0) /\
     (forall p, In p (wf_data self) -> In p data) /\
     (data <> [] -> wf_data self <> [])).
Proof. exact (init_cases data d s mwm). Qed.

Lemma init_outcome_witness :
  init (map Contract.core_sample [(100, 0); (200, 0)]) 30 0 None
  = Raise ZeroDivisionError.
Proof.
  destruct (init_outcome (map Contract.core_sample [(100, 0); (200, 0)]) 30 0 None)
    as (Hraise & _).
  apply Hraise. reflexivity.
Defined.

Lemma slice_nonempty {A : Type} (l : list A) (i k : Z) :
  0 <= i < Py.len l -> 1 <= k -> Py.slice l i (i + k) <> [].
Proof.
  intros Hi Hk. unfold Py.slice, Py.clamp.
  replace (i <? 0) with false by (symmetry; apply Z.ltb_ge; lia).
  replace (i + k <? 0) with false by (symmetry; apply Z.ltb_ge; lia).
  replace (Z.to_nat (Z.min (Z.max 0 i) (Py.len l))) with (Z.to_nat i) by lia.
  destruct (skipn (Z.to_nat i) l) as [| x xs] eqn:Hskip.
  - exfalso.
    assert (Hlen : length (skipn (Z.to_nat i) l) = 0%nat) by (rewrite Hskip; reflexivity).
    rewrite length_skipn in Hlen. unfold Py.len in Hi. lia.
  - assert (Hpos : exists m, (Z.to_nat (Z.min (Z.max 0 (i + k)) (Py.len l)) - Z.to_nat i
                              = S m)%nat).
    { exists (Z.to_nat (Z.min (Z.max 0 (i + k)) (Py.len l)) - Z.to_nat i - 1)%nat. lia. }
    destruct Hpos as (m & ->). simpl. discriminate.
Qed.

Lemma mean_within (lo hi : Q) (vs : list Q) :
  vs <> [] ->
  (forall v, In v vs -> (lo <= v <= hi)%Q) ->
  (lo <= Py.sum vs / inject_Z (Py.len vs) <= hi)%Q.
Proof.
  intros Hne Hall.
  assert (Hsum : (lo * inject_Z (Py.len vs) <= Py.sum vs <= hi * inject_Z (Py.len vs))%Q).
  { clear Hne. induction vs as [| v vs IH].
    - unfold Py.len, Py.sum. simpl length. simpl fold_left.
      change (inject_Z (Z.of_nat 0)) with 0%Q.
      rewrite !Qmult_0_r. split; apply Qle_refl.
    - rewrite CatsMore.sum_cons.
      replace (Py.len (v :: vs)) with (1 + Py.len vs)
        by (unfold Py.len; simpl length; lia).
      rewrite inject_Z_plus.
      destruct (Hall v (or_introl eq_refl)) as (Hv1 & Hv2).
      destruct IH as (IH1 & IH2); [intros; apply Hall; right; assumption |].
      change (inject_Z 1) with 1%Q.
      rewrite !Qmult_plus_distr_r, !Qmult_1_r. split; lra. }
  assert (Hn : (0 < inject_Z (Py.len vs))%Q).
  { destruct vs as [| v vs]; [congruence |].
    unfold Py.len, Qlt; simpl. lia. }
  destruct Hsum as (H1 & H2). split.
  - apply Qle_shift_div_l; assumption.
  - apply Qle_shift_div_r; assumption.
Qed.

Lemma window_within data d s mwm self lo hi n i :
  init data d s mwm = OK self ->
  data <> [] ->
  within lo hi data = true ->
  len self = OK n ->
  0 <= i < n ->
  exists w,
    getitem self i = OK w /\
    (lo <= value w <= hi)%Q /\
    (lo <= start_value w <= hi)%Q /\
    (lo <= end_value w <= hi)%Q.
Proof.
  intros Hinit Hne Hwithin Hlen Hi.
  destruct (init_cases data d s mwm) as (Hfail & Hok).
  destruct (degenerate data) eqn:Hdeg;
    [rewrite (Hfail eq_refl) in Hinit; discriminate |].
  destruct (Hok eq_refl) as (self' & Hinit' & _ & _ & _ & Hnd & _ & _ & Hsub & Hne').
  rewrite Hinit in Hinit'. injection Hinit' as <-.
  specialize (Hne' Hne).
  assert (Hall : forall p, In p (wf_data self) -> (lo <= pt_value p <= hi)%Q).
  { intros p Hp. apply Hsub in Hp. unfold within in Hwithin.
    rewrite forallb_forall in Hwithin. specialize (Hwithin p Hp).
    apply andb_true_iff in Hwithin. destruct Hwithin as (H1 & H2).
    apply Qle_bool_iff in H1, H2. split; assumption. }
  assert (Hidx : 0 <= i < Py.len (wf_data self)).
  { unfold len in Hlen. inv_bind Hlen. injection Hlen as <-.
    assert (Hx : x <= Py.len (wf_data self) - wf_ndata self + 1).
    { destruct (negb (wf_max_window_minutes self =? 0)).
      - inv_bind E. injection E as <-. lia.
      - injection E as <-. lia. }
    assert (0 < Py.len (wf_data self)).
    { destruct (wf_data self); [congruence | unfold Py.len; simpl length; lia]. }
    lia. }
  unfold getitem. rewrite Hlen. cbn [bind]. rewrite geb_false by lia.
  set (ws := wf_start self + i * wf_data_stepsize self).
  set (we := ws + minutes (wf_duration self)).
  set (chosen := match in_window self ws we with
                 | [] => Py.slice (wf_data self) i (i + wf_ndata self)
                 | _ => in_window self ws we
                 end).
  assert (Hsubset : forall p, In p chosen -> In p (wf_data self)).
  { intros p Hp. unfold chosen in Hp.
    destruct (in_window self ws we) as [| y ys] eqn:Hin.
    - eapply CatsMore.slice_in. eassumption.
    - rewrite <- Hin in Hp. unfold in_window in Hp. apply filter_In in Hp. tauto. }
  assert (Hchosen : chosen <> []).
  { unfold chosen. destruct (in_window self ws we) as [| y ys]; [| discriminate].
    apply slice_nonempty; assumption. }
  destruct chosen as [| x xs] eqn:Hc; [congruence |].
  destruct (mean_of_nonempty x xs) as (last & Hdiv & Hfirst & Hlast).
  cbn iota. rewrite Hdiv. cbn [bind]. rewrite Hfirst. cbn [bind]. rewrite Hlast.
  cbn [bind]. eexists. split; [reflexivity |]. simpl value. simpl start_value.
  simpl end_value. split; [| split].
  - replace (Py.len (x :: xs)) with (Py.len (map pt_value (x :: xs)))
      by (unfold Py.len; rewrite length_map; reflexivity).
    apply mean_within; [discriminate |].
    intros v Hv. apply in_map_iff in Hv. destruct Hv as (p & <- & Hp).
    apply Hall, Hsubset. assumption.
  - apply Hall, Hsubset. left; reflexivity.
  - apply Hall, Hsubset. eapply CatsMore.index_in. eassumption.
Qed.

Lemma sum_nonneg (vs : list Q) :
  (forall v, In v vs -> (0 <= v)%Q) -> (0 <= Py.sum vs)%Q.
Proof.
  intros Hall. induction vs as [| v vs IH].
  - unfold Py.sum. simpl. apply Qle_refl.
  - rewrite CatsMore.sum_cons.
    pose proof (Hall v (or_introl eq_refl)) as Hv.
    assert (Hrest : (0 <= Py.sum vs)%Q) by (apply IH; intros; apply Hall; right; assumption).
    lra.
Qed.

Lemma window_run data d s mwm self n i :
  init data d s mwm = OK self ->
  data <> [] ->
  len self = OK n ->
  0 <= i < n ->
  exists w first rest final,
    getitem self i = OK w /\
    (forall p, In p (first :: rest) -> In p data) /\
    Py.index (first :: rest) (-1) = OK final /\
    value w = (Py.sum (map pt_value (first :: rest))
               / inject_Z (Py.len (first :: rest)))%Q /\
    start_value w = pt_value first /\
    end_value w = pt_value final.
Proof.
  intros Hinit Hne Hlen Hi.
  destruct (init_cases data d s mwm) as (Hfail & Hok).
  destruct (degenerate data) eqn:Hdeg;
    [rewrite (Hfail eq_refl) in Hinit; discriminate |].
  destruct (Hok eq_refl) as (self' & Hinit' & _ & _ & _ & Hnd & _ & _ & Hsub & Hne').
  rewrite Hinit in Hinit'. injection Hinit' as <-.
  specialize (Hne' Hne).
  assert (Hidx : 0 <= i < Py.len (wf_data self)).
  { unfold len in Hlen. inv_bind Hlen. injection Hlen as <-.
    assert (Hx : x <= Py.len (wf_data self) - wf_ndata self + 1).
    { destruct (negb (wf_max_window_minutes self =? 0)).
      - inv_bind E. injection E as <-. lia.
      - injection E as <-. lia. }
    assert (0 < Py.len (wf_data self)).
    { destruct (wf_data self); [congruence | unfold Py.len; simpl length; lia]. }
    lia. }
  unfold getitem. rewrite Hlen. cbn [bind]. rewrite geb_false by lia.
  set (ws := wf_start self + i * wf_data_stepsize self).
  set (we := ws + minutes (wf_duration self)).
  set (chosen := match in_window self ws we with
                 | [] => Py.slice (wf_data self) i (i + wf_ndata self)
                 | _ => in_window self ws we
                 end).
  assert (Hsubset : forall p, In p chosen -> In p (wf_data self)).
  { intros p Hp. unfold chosen in Hp.
    destruct (in_window self ws we) as [| y ys] eqn:Hin.
    - eapply CatsMore.slice_in. eassumption.
    - rewrite <- Hin in Hp. unfold in_window in Hp. apply filter_In in Hp. tauto. }
  assert (Hchosen : chosen <> []).
  { unfold chosen. destruct (in_window self ws we) as [| y ys]; [| discriminate].
    apply slice_nonempty; assumption. }
  destruct chosen as [| x xs] eqn:Hc; [congruence |].
  destruct (mean_of_nonempty x xs) as (final & Hdiv & Hfirst & Hlast).
  cbn iota. rewrite Hdiv. cbn [bind]. rewrite Hfirst. cbn [bind]. rewrite Hlast.
  cbn [bind]. eexists. exists x, xs, final. split; [reflexivity |].
  split; [intros p Hp; apply Hsub, Hsubset; assumption |].
  split; [assumption |]. repeat split.
Qed.

(** X8: on a constructed forecast with at least one sample, every window
    at an offset [0 <= i < len] is built from a run of samples of the
    forecast that is not empty, so the zero window cannot occur there: its
    value is the mean of the run, its start value and end value are the
    values of the first and the last sample of the run.  So the start and
    end values lie within any bounds of the samples, and the value is not
    negative when no sample is. *)
Theorem window_is_mean_of_samples data d s mwm self n i :
  init data d s mwm = OK self ->
  data <> [] ->
  len self = OK n ->
  0 <= i < n ->
  exists w first rest final,
    getitem self i = OK w /\
    (forall p, In p (first :: rest) -> In p data) /\
    Py.index (first :: rest) (-1) = OK final /\
    value w = (Py.sum (map pt_value (first :: rest))
               / inject_Z (Py.len (first :: rest)))%Q /\
    start_value w = pt_value first /\
    end_value w = pt_value final /\
    (forall lo hi, within lo hi data = true ->
                   (lo <= start_value w <= hi)%Q /\ (lo <= end_value w <= hi)%Q) /\
    ((forall p, In p data -> (0 <= pt_value p)%Q) -> (0 <= value w)%Q).
Proof.
  intros Hinit Hne Hlen Hi.
  destruct (window_run data d s mwm self n i Hinit Hne Hlen Hi)
    as (w & first & rest & final & Hget & Hsub & Hfinal & Hval & Hsv & Hev).
  exists w, first, rest, final.
  split; [assumption |]. split; [assumption |]. split; [assumption |].
  split; [assumption |]. split; [assumption |]. split; [assumption |].
  assert (Hin_final : In final (first :: rest))
    by (apply (CatsMore.index_in _ _ _ Hfinal)).
  split.
  - intros lo hi Hwithin. unfold within in Hwithin. rewrite forallb_forall in Hwithin.
    assert (Hb : forall p, In p (first :: rest) -> (lo <= pt_value p <= hi)%Q).
    { intros p Hp. specialize (Hwithin p (Hsub p Hp)).
      apply andb_true_iff in Hwithin. destruct Hwithin as (H1 & H2).
      apply Qle_bool_iff in H1, H2. split; assumption. }
    rewrite Hsv, Hev. split; apply Hb; [left; reflexivity | assumption].
  - intros Hpos. rewrite Hval.
    assert (Hsum : (0 <= Py.sum (map pt_value (first :: rest)))%Q).
    { apply sum_nonneg. intros v Hv. apply in_map_iff in Hv.
      destruct Hv as (p & <- & Hp). apply Hpos, Hsub, Hp. }
    assert (Hn : (0 < inject_Z (Py.len (first :: rest)))%Q)
      by (unfold Py.len, Qlt; simpl; lia).
    apply Qle_shift_div_l; [assumption |]. lra.
Qed.

Lemma window_is_mean_of_samples_witness :
  exists w first rest final,
    getitem three_core 1 = OK w /\
    (forall p, In p (first :: rest) -> In p three_core_samples) /\
    Py.index (first :: rest) (-1) = OK final /\
    value w = (Py.sum (map pt_value (first :: rest))
               / inject_Z (Py.len (first :: rest)))%Q /\
    start_value w = pt_value first /\
    end_value w = pt_value final.
Proof.
  destruct (window_is_mean_of_samples three_core_samples 30 0 None three_core 2 1)
    as (w & first & rest & final & Hget & Hsub & Hfinal & Hval & Hsv & Hev & _).
  - vm_compute; reflexivity.
  - discriminate.
  - vm_compute; reflexivity.
  - lia.
  - exists w, first, rest, final. repeat (split; [assumption |]). assumption.
Defined.

Lemma getitem_start (self : WindowedForecast) (i : Z) w :
  getitem self i = OK w ->
  start w = wf_start self + i * wf_data_stepsize self /\
  end_ w = start w + minutes (wf_duration self).
Proof.
  unfold getitem. intros H. inv_bind H.
  destruct (i >=? x); [discriminate |].
  match type of H with
  | context [match ?c with [] => Py.slice _ _ _ | _ => _ end] =>
      destruct c as [| y ys]
  end.
  - destruct (Py.slice (wf_data self) i (i + wf_ndata self)) as [| y ys].
    + injection H as <-. simpl. split; reflexivity.
    + inv_bind H. inv_bind H. inv_bind H. injection H as <-. simpl. split; reflexivity.
  - inv_bind H. inv_bind H. inv_bind H. injection H as <-. simpl. split; reflexivity.
Qed.

(** [min(windowed)] on a forecast whose [len] returns: it returns the
    window of some offset, with the least value of all. *)
Lemma min_window_least (self : WindowedForecast) (n : Z) :
  len self = OK n ->
  exists i best,
    0 <= i < n /\
    getitem self i = OK best /\
    min_window self = OK best /\
    forall j w, 0 <= j < n -> getitem self j = OK w -> (value best <= value w)%Q.
Proof.
  intros Hlen.
  destruct (iter_total self n Hlen) as (ws & Hiter & Hall).
  assert (Hne : ws <> []).
  { pose proof (len_at_least_1 _ _ Hlen) as Hn.
    assert (Hin : In 0 (Py.range n)) by (apply in_range; lia).
    destruct (Forall2_in_l _ _ _ _ Hall Hin) as (w0 & Hw0 & _).
    intros ->. destruct Hw0. }
  destruct (py_min_total astuple ws Hne) as (best & Hmin).
  destruct (py_min_least astuple ws best Hmin) as (Hin & Hleast).
  destruct (Forall2_in_r _ _ _ _ Hall Hin) as (i & Hi & Hget).
  exists i, best. split; [apply in_range; assumption |].
  split; [assumption |].
  split; [unfold min_window; rewrite Hiter; exact Hmin |].
  intros j w Hj Hgetj.
  assert (Hjin : In j (Py.range n)) by (apply in_range; assumption).
  destruct (Forall2_in_l _ _ _ _ Hall Hjin) as (w' & Hw' & Hget').
  rewrite Hgetj in Hget'. injection Hget' as <-.
  exact (proj1 (tuple_not_lt (astuple best) (astuple w) (Hleast w Hw'))).
Qed.

Lemma best_start_cases forecast current_time d h :
  (d < 1 ->
   get_best_start_time forecast current_time d h
   = Raise (ValueError "Duration must be at least 1 minute")) /\
  (1 <= d -> h * 60 < d ->
   exists msg, get_best_start_time forecast current_time d h = Raise (ValueError msg)) /\
  (1 <= d <= h * 60 -> degenerate forecast = true ->
   get_best_start_time forecast current_time d h = Raise ZeroDivisionError) /\
  (1 <= d <= h * 60 -> degenerate forecast = false ->
   exists self n i best,
     init forecast d current_time (Some (h * 60)) = OK self /\
     len self = OK n /\
     0 <= i < n /\
     getitem self i = OK best /\
     get_best_start_time forecast current_time d h
     = OK (current_time + i * wf_data_stepsize self, value best) /\
     forall j w, 0 <= j < n -> getitem self j = OK w -> (value best <= value w)%Q).
Proof.
  unfold get_best_start_time.
  destruct (init_cases forecast d current_time (Some (h * 60))) as (Hfail & Hok).
  split; [| split; [| split]].
  - intros Hd. apply Z.ltb_lt in Hd. rewrite Hd. reflexivity.
  - intros Hd1 Hd2.
    replace (d <? 1) with false by (symmetry; apply Z.ltb_ge; lia).
    replace (d >? h * 60) with true
      by (symmetry; rewrite Z.gtb_ltb; apply Z.ltb_lt; lia).
    eexists. reflexivity.
  - intros Hd Hdeg.
    replace (d <? 1) with false by (symmetry; apply Z.ltb_ge; lia).
    replace (d >? h * 60) with false
      by (symmetry; rewrite Z.gtb_ltb; apply Z.ltb_ge; lia).
    rewrite (Hfail Hdeg). reflexivity.
  - intros Hd Hdeg.
    replace (d <? 1) with false by (symmetry; apply Z.ltb_ge; lia).
    replace (d >? h * 60) with false
      by (symmetry; rewrite Z.gtb_ltb; apply Z.ltb_ge; lia).
    destruct (Hok Hdeg) as (self & Hinit & Hs & _).
    destruct (init_len_total _ _ _ _ _ Hinit) as (n & Hlen).
    destruct (min_window_least self n Hlen) as (i & best & Hi & Hget & Hmin & Hleast).
    exists self, n, i, best.
    rewrite Hinit. cbn [bind]. rewrite Hmin. cbn [bind].
    destruct (getitem_start _ _ _ Hget) as (Hstart & _).
    rewrite Hstart, Hs. repeat split; try assumption; lia.
Qed.

(** X9: what [get_best_start_time] does on every input.  A duration below
    1 minute or above the window raises [ValueError]; a forecast whose
    first two samples share a timestamp raises [ZeroDivisionError]; every
    other input returns the start and value of a window at some offset
    [0 <= i < len], so a start of the form [current_time + i*step], whose
    value is the least over all offsets. *)
Theorem get_best_start_time_outcome forecast current_time d h :
  (d < 1 ->
   get_best_start_time forecast current_time d h
   = Raise (ValueError "Duration must be at least 1 minute")) /\
  (1 <= d -> h * 60 < d ->
   exists msg, get_best_start_time forecast current_time d h = Raise (ValueError msg)) /\
  (1 <= d <= h * 60 -> degenerate forecast = true ->
   get_best_start_time forecast current_time d h = Raise ZeroDivisionError) /\
  (1 <= d <= h * 60 -> degenerate forecast = false ->
   exists self n i best,
     init forecast d current_time (Some (h * 60)) = OK self /\
     len self = OK n /\
     0 <= i < n /\
     getitem self i = OK best /\
     get_best_start_time forecast current_time d h
     = OK (current_time + i * wf_data_stepsize self, value best) /\
     forall j w, 0 <= j < n -> getitem self j = OK w -> (value best <= value w)%Q).
Proof. exact (best_start_cases forecast current_time d h). Qed.

Lemma get_best_start_time_outcome_witness :
  exists self n i best,
    init three_core_samples 30 0 (Some (24 * 60)) = OK self /\
    len self = OK n /\
    0 <= i < n /\
    getitem self i = OK best /\
    get_best_start_time three_core_samples 0 30 24
    = OK (0 + i * wf_data_stepsize self, value best) /\
    forall j w, 0 <= j < n -> getitem self j = OK w -> (value best <= value w)%Q.
Proof.
  destruct (get_best_start_time_outcome three_core_samples 0 30 24) as (_ & _ & _ & Hok).
  apply Hok; [lia | reflexivity].
Defined.

Lemma range_len (n : Z) : Py.len (Py.range n) = Z.max 0 n.
Proof.
  unfold Py.len, Py.range. rewrite length_map, length_seq. lia.
Qed.

Lemma range_index (n i : Z) : 0 <= i < n -> Py.index (Py.range n) i = OK i.
Proof.
  intros Hi.
  destruct (index_nonneg (Py.range n) i) as (a & Ha & Hn);
    [rewrite range_len; lia |].
  rewrite Ha. unfold Py.range in Hn.
  rewrite nth_error_map in Hn.
  rewrite nth_error_seq in Hn.
  replace (Z.to_nat i <? Z.to_nat n)%nat with true in Hn
    by (symmetry; apply Nat.ltb_lt; lia).
  simpl in Hn. injection Hn as <-. f_equal. lia.
Qed.

Lemma map_index {A B : Type} (f : A -> B) (l : list A) (i : Z) (a : A) :
  Py.index l i = OK a -> Py.index (map f l) i = OK (f a).
Proof.
  unfold Py.index, Py.len. rewrite length_map.
  destruct (_ || _); [discriminate |].
  rewrite nth_error_map.
  destruct (nth_error l _); [| discriminate].
  intros H. injection H as <-. reflexivity.
Qed.

Lemma start_time_floor (now : datetime) :
  start_time now <= now < start_time now + minutes 30 /\
  start_time now mod minutes 30 = 0.
Proof.
  unfold start_time, Calendar.minute, Calendar.replace_minute, minutes.
  pose proof (Z.rem_mul_r now 60000000 60 ltac:(lia) ltac:(lia)) as Hsplit.
  change (60000000 * 60) with 3600000000 in Hsplit.
  pose proof (Z.mod_pos_bound now 60000000 ltac:(lia)) as Hlow.
  pose proof (Z.mod_pos_bound (now / 60000000) 60 ltac:(lia)) as Hmin.
  pose proof (Z.mod_pos_bound now 3600000000 ltac:(lia)) as Hhour.
  assert (Hdiv : (now - now mod 3600000000) mod 1800000000 = 0).
  { rewrite Zminus_mod_idemp_l || idtac.
    pose proof (Z.div_mod now 3600000000 ltac:(lia)) as Hdm.
    replace (now - now mod 3600000000) with (now / 3600000000 * 2 * 1800000000) by lia.
    apply Z.mod_mul. lia. }
  destruct ((now / 60000000) mod 60 <? 30) eqn:Hhalf.
  - apply Z.ltb_lt in Hhalf. split; [lia |].
    change (0 * 60000000) with 0. rewrite Z.add_0_r.
    change (30 * 60000000) with 1800000000. assumption.
  - apply Z.ltb_ge in Hhalf. split; [lia |].
    change (30 * 60000000) with 1800000000.
    rewrite <- Zplus_mod_idemp_l, Hdiv. reflexivity.
Qed.

Lemma py_max_ge (a x : Q) : (a <= py_max a x)%Q /\ (x <= py_max a x)%Q.
Proof.
  unfold py_max. destruct (Qlt_bool a x) eqn:E.
  - apply Qlt_bool_iff in E. split; lra.
  - apply Qlt_bool_false in E. split; lra.
Qed.

Lemma mock_forecast_facts now noise region hours :
  let forecast := generate_mock_forecast now noise region hours in
  Py.len forecast = Z.max 0 (hours * 2) /\
  start_time now <= now < start_time now + minutes 30 /\
  (forall i, 0 <= i < hours * 2 ->
             exists p, Py.index forecast i = OK p /\
                       pt_datetime p = start_time now + minutes (30 * i) /\
                       (20 <= pt_value p)%Q) /\
  (forall p, In p forecast -> (20 <= pt_value p)%Q) /\
  degenerate forecast = false.
Proof.
  intros forecast.
  assert (Hlen : Py.len forecast = Z.max 0 (hours * 2)).
  { unfold forecast, generate_mock_forecast, Py.len. rewrite length_map.
    apply range_len. }
  assert (Hidx : forall i, 0 <= i < hours * 2 ->
                           exists p, Py.index forecast i = OK p /\
                                     pt_datetime p = start_time now + minutes (30 * i) /\
                                     (20 <= pt_value p)%Q).
  { intros i Hi. unfold forecast, generate_mock_forecast.
    eexists. split; [apply map_index, range_index; assumption |].
    unfold mock_point. destruct (pattern _) as (b, v). simpl.
    split; [reflexivity | apply py_max_ge]. }
  split; [assumption |]. split; [apply start_time_floor |].
  split; [assumption |]. split.
  - intros p Hp. unfold forecast, generate_mock_forecast in Hp.
    apply in_map_iff in Hp. destruct Hp as (i & <- & _).
    unfold mock_point. destruct (pattern _) as (b, v). simpl. apply py_max_ge.
  - destruct forecast as [| d0 [| d1 rest]] eqn:Hf; try reflexivity.
    assert (Hn : 2 <= hours * 2)
      by (unfold Py.len in Hlen; simpl length in Hlen; lia).
    destruct (Hidx 0 ltac:(lia)) as (p0 & Hp0 & Ht0 & _).
    destruct (Hidx 1 ltac:(lia)) as (p1 & Hp1 & Ht1 & _).
    rewrite index_first in Hp0. rewrite index_second in Hp1.
    injection Hp0 as <-. injection Hp1 as <-.
    simpl. apply Z.eqb_neq. rewrite Ht0, Ht1. unfold minutes. lia.
Qed.

(** X10: the mock forecast has [2 * hours] samples (none when [hours] is
    not positive); the first is dated at the half hour at or before the
    clock reading, each next one 30 minutes later; and no value is below
    20 gCO2/kWh, whatever the random draws. *)
Theorem mock_forecast_shape now noise region hours :
  let forecast := generate_mock_forecast now noise region hours in
  Py.len forecast = Z.max 0 (hours * 2) /\
  start_time now <= now < start_time now + minutes 30 /\
  (forall i, 0 <= i < hours * 2 ->
             exists p, Py.index forecast i = OK p /\
                       pt_datetime p = start_time now + minutes (30 * i) /\
                       (20 <= pt_value p)%Q) /\
  (forall p, In p forecast -> (20 <= pt_value p)%Q) /\
  degenerate forecast = false.
Proof. exact (mock_forecast_facts now noise region hours). Qed.

Lemma within_weaken (lo hi hi' : Q) (forecast : list CarbonIntensityPoint) :
  (hi <= hi')%Q -> within lo hi forecast = true -> within lo hi' forecast = true.
Proof.
  unfold within. intros Hle H. rewrite forallb_forall in *. intros p Hp.
  specialize (H p Hp). apply andb_true_iff in H. destruct H as (H1 & H2).
  apply andb_true_iff. split; [assumption |].
  apply Qle_bool_iff in H2. apply Qle_bool_iff. lra.
Qed.

Lemma within_some_bound (lo : Q) (forecast : list CarbonIntensityPoint) :
  (forall p, In p forecast -> (lo <= pt_value p)%Q) ->
  exists hi, within lo hi forecast = true.
Proof.
  induction forecast as [| p rest IH]; intros Hlo.
  - exists lo. reflexivity.
  - destruct IH as (hi & Hhi); [intros; apply Hlo; right; assumption |].
    exists (py_max hi (pt_value p)).
    destruct (py_max_ge hi (pt_value p)) as (H1 & H2).
    unfold within. simpl. apply andb_true_iff. split.
    + apply andb_true_iff. split; apply Qle_bool_iff; [apply Hlo; left; reflexivity | assumption].
    + apply (within_weaken lo hi); assumption.
Qed.

Lemma best_start_on_mock now noise region current_time d h :
  1 <= d <= h * 60 ->
  exists i v,
    get_best_start_time (generate_mock_forecast now noise region (h + 2))
                        current_time d h
    = OK (current_time + i * minutes 30, v) /\
    0 <= i /\ (20 <= v)%Q.
Proof.
  intros Hd.
  set (forecast := generate_mock_forecast now noise region (h + 2)).
  destruct (mock_forecast_facts now noise region (h + 2))
    as (Hlen & _ & Hidx & Hvalues & Hdeg).
  fold forecast in Hlen, Hidx, Hvalues, Hdeg.
  destruct (best_start_cases forecast current_time d h) as (_ & _ & _ & Hok).
  destruct (Hok Hd Hdeg) as (self & n & i & best & Hinit & Hn & Hi & Hget & Hres & _).
  destruct (init_cases forecast d current_time (Some (h * 60))) as (_ & Hinit').
  destruct (Hinit' Hdeg) as (self' & Hself' & _ & _ & _ & _ & _ & Hstep & _).
  rewrite Hinit in Hself'. injection Hself' as <-.
  assert (Hstep30 : wf_data_stepsize self = minutes 30).
  { destruct forecast as [| d0 [| d1 rest]] eqn:Hf;
      try (unfold Py.len in Hlen; simpl length in Hlen; lia).
    rewrite (Hstep d0 d1 rest eq_refl).
    destruct (Hidx 0 ltac:(lia)) as (p0 & Hp0 & Ht0 & _).
    destruct (Hidx 1 ltac:(lia)) as (p1 & Hp1 & Ht1 & _).
    rewrite index_first in Hp0. rewrite index_second in Hp1.
    injection Hp0 as <-. injection Hp1 as <-.
    rewrite Ht0, Ht1. unfold minutes. lia. }
  assert (Hne : forecast <> []).
  { intros E. rewrite E in Hlen. unfold Py.len in Hlen. simpl in Hlen. lia. }
  destruct (within_some_bound 20 forecast Hvalues) as (hi & Hhi).
  destruct (window_within forecast d current_time (Some (h * 60)) self 20 hi n i
              Hinit Hne Hhi Hn Hi) as (w & Hw & (Hv & _) & _).
  rewrite Hget in Hw. injection Hw as <-.
  exists i, (value best). rewrite Hres, Hstep30.
  repeat split; [lia | assumption].
Qed.

(** X11: on a forecast drawn by [generate_mock_forecast] for
    [max_window_hours + 2] hours, [get_best_start_time] raises nothing when
    the duration is between 1 minute and the window: it returns a start
    that is a whole number of half hours after [current_time], never
    before it, and an intensity of at least 20. *)
Theorem best_start_on_mock_forecast now noise region current_time d h :
  1 <= d <= h * 60 ->
  exists i v,
    get_best_start_time (generate_mock_forecast now noise region (h + 2))
                        current_time d h
    = OK (current_time + i * minutes 30, v) /\
    0 <= i /\ (20 <= v)%Q.
Proof. exact (best_start_on_mock now noise region current_time d h). Qed.

Lemma best_start_on_mock_forecast_witness :
  exists i v,
    get_best_start_time (generate_mock_forecast noon quiet "GB" (24 + 2))
                        (noon + 5) 60 24
    = OK (noon + 5 + i * minutes 30, v) /\
    0 <= i /\ (20 <= v)%Q.
Proof.
  apply (best_start_on_mock_forecast noon quiet "GB" (noon + 5) 60 24). lia.
Defined.

End CoreMore.

(** ** More on the scheduler ([src/core/carbon_scheduler.py]) *)

Module SchedulerMoreFacts.
Import JobQueue JobQueueMore Scheduler SchedulerMore Contract SchedulerFacts SchedulerTurn.

Lemma update_first_ids (jobs : list GPUJob) (id : string) (f : GPUJob -> GPUJob) :
  (forall j, job_id (f j) = job_id j) ->
  ids (fst (update_first jobs id f)) = ids jobs.
Proof.
  intros Hf. unfold ids. induction jobs as [| j rest IH]; [reflexivity |].
  simpl. destruct (String.eqb (job_id j) id).
  - simpl. rewrite Hf. reflexivity.
  - destruct (update_first rest id f) as (rest', found). simpl in *. rewrite IH.
    reflexivity.
Qed.

Section Loop.
Variable clock : nat -> datetime.
Variable mock_forecast : nat -> list Core.CarbonIntensityPoint.
Variable carbon_intensity : Q.

Local Notation "'step'" := (schedule_one clock mock_forecast carbon_intensity).

Lemma step_ids (st : state) (job : GPUJob) :
  ids (jobs (step st job)) = ids (jobs st).
Proof.
  unfold schedule_one, update_job_status, update_job.
  destruct (Qlt_bool carbon_intensity _).
  - simpl. rewrite !update_first_ids; [reflexivity | |];
      intros; try destruct (String.eqb _ _); reflexivity.
  - destruct (best_start clock mock_forecast (tick st) (duration_minutes job))
      as [(t, c) | e]; simpl;
      (rewrite !update_first_ids; [reflexivity | |];
       intros; try destruct (String.eqb _ _); reflexivity).
Qed.

Lemma loop_ids (queue : list GPUJob) (st : state) :
  ids (jobs (fold_left step queue st)) = ids (jobs st).
Proof.
  revert st. induction queue as [| job rest IH]; intros st; simpl;
    [reflexivity | rewrite IH; apply step_ids].
Qed.

Lemma step_counts (st : state) (job : GPUJob) :
  (length (scheduled_jobs (step st job)) + length (deferred_jobs (step st job))
   = S (length (scheduled_jobs st) + length (deferred_jobs st)))%nat.
Proof.
  unfold schedule_one.
  destruct (Qlt_bool carbon_intensity _).
  - simpl. rewrite length_app. simpl. lia.
  - destruct (best_start clock mock_forecast (tick st) (duration_minutes job))
      as [(t, c) | e]; simpl; rewrite length_app; simpl; lia.
Qed.

Lemma loop_counts (queue : list GPUJob) (st : state) :
  (length (scheduled_jobs (fold_left step queue st))
   + length (deferred_jobs (fold_left step queue st))
   = length queue + (length (scheduled_jobs st) + length (deferred_jobs st)))%nat.
Proof.
  revert st. induction queue as [| job rest IH]; intros st; simpl;
    [reflexivity | rewrite IH, step_counts; lia].
Qed.

End Loop.

Lemma queue_ids_pending (jobs : list GPUJob) (id : string) :
  In id (ids (get_prioritized_queue jobs)) ->
  exists q, In q jobs /\ job_id q = id /\ status q = status_value PENDING.
Proof.
  unfold ids. intros Hin. apply in_map_iff in Hin. destruct Hin as (q & Hid & Hq).
  unfold get_prioritized_queue in Hq.
  apply (Permutation_in _ (sorted_by_priority_perm _)) in Hq.
  unfold get_jobs_by_status in Hq. apply filter_In in Hq. destruct Hq as (Hq & Hst).
  apply String.eqb_eq in Hst. exists q. repeat split; assumption.
Qed.

Lemma get_job_in (jobs : list GPUJob) (id : string) (j : GPUJob) :
  get_job jobs id = Some j -> In j jobs /\ job_id j = id.
Proof.
  unfold get_job. intros H. apply find_some in H. destruct H as (Hin & Hid).
  apply String.eqb_eq in Hid. split; assumption.
Qed.

Lemma nodup_unique_ids (jobs : list GPUJob) :
  NoDup (ids jobs) -> unique_ids jobs = true.
Proof.
  unfold ids. induction jobs as [| j rest IH]; intros Hnd; [reflexivity |].
  inversion Hnd as [| ? ? Hnotin Hnd']; subst. simpl.
  apply andb_true_iff. split; [| apply IH; assumption].
  apply negb_true_iff. destruct (existsb _ _) eqn:E; [| reflexivity].
  apply existsb_exists in E. destruct E as (x & Hx & Heq).
  apply String.eqb_eq in Heq. subst x. contradiction.
Qed.

(** X12: in a store without duplicate identifiers, [schedule_pending_jobs]
    keeps the identifiers of the store in place, leaves no job pending,
    leaves every job that was not pending exactly as it was, and counts as
    many scheduled plus deferred jobs as there were pending ones; the
    prioritized queue is empty afterwards. *)
Theorem schedule_pending_jobs_store
        (clock : nat -> datetime)
        (mock_forecast : nat -> list Core.CarbonIntensityPoint)
        (carbon_intensity : Q) (st : state) :
  unique_ids (jobs st) = true ->
  let st' := schedule_pending_jobs clock mock_forecast carbon_intensity st in
  ids (jobs st') = ids (jobs st) /\
  (forall j, In j (jobs st') -> status j <> status_value PENDING) /\
  (forall j, In j (jobs st) -> status j <> status_value PENDING -> In j (jobs st')) /\
  Py.len (scheduled_jobs st') + Py.len (deferred_jobs st')
  = pending (get_queue_stats (jobs st)) /\
  get_prioritized_queue (jobs st') = [].
Proof.
  intros Huniq st'.
  pose proof (SchedulerClaims.unique_ids_nodup _ Huniq) as Hnd.
  assert (Hids : ids (jobs st') = ids (jobs st)).
  { unfold st', schedule_pending_jobs. rewrite loop_ids. reflexivity. }
  assert (Hkeep : forall j, In j (jobs st) -> status j <> status_value PENDING ->
                            get_job (jobs st') (job_id j) = Some j).
  { intros j Hj Hst. unfold st', schedule_pending_jobs.
    rewrite loop_other.
    - simpl. apply get_job_unique; assumption.
    - intros Hin. apply queue_ids_pending in Hin.
      destruct Hin as (q & Hq & Hid & Hpend).
      pose proof (get_job_unique _ _ Hnd Hq) as Hgq.
      pose proof (get_job_unique _ _ Hnd Hj) as Hgj.
      rewrite Hid in Hgq. rewrite Hgj in Hgq. injection Hgq as ->. contradiction. }
  assert (Hnone : forall j, In j (jobs st') -> status j <> status_value PENDING).
  { intros j' Hj'.
    assert (Hnd' : NoDup (ids (jobs st'))) by (rewrite Hids; assumption).
    pose proof (get_job_unique _ _ Hnd' Hj') as Hg'.
    assert (Hid : In (job_id j') (ids (jobs st)))
      by (rewrite <- Hids; unfold ids; apply in_map; assumption).
    unfold ids in Hid. apply in_map_iff in Hid. destruct Hid as (j & Hjid & Hj).
    destruct (String.eqb (status j) (status_value PENDING)) eqn:Hst.
    - apply String.eqb_eq in Hst.
      destruct (prioritized_queue_complete (jobs st) j Hnd Hj Hst) as (Hqnd & Hq).
      destruct (loop_decides clock mock_forecast carbon_intensity
                  (get_prioritized_queue (jobs st))
                  {| jobs := jobs st; scheduled_jobs := []; deferred_jobs := [];
                     tick := tick st |} j Hqnd Hq
                  (get_job_unique _ _ Hnd Hj)) as (j'' & k & Hg'' & Hdec).
      fold (schedule_pending_jobs clock mock_forecast carbon_intensity st) in Hg''.
      fold st' in Hg''. rewrite Hjid, Hg' in Hg''. injection Hg'' as <-.
      destruct Hdec as (_ & Hyes & Hno).
      destruct (Qlt_le_dec carbon_intensity (inject_Z (carbon_intensity_threshold j)))
        as [Hlt | Hge].
      + destruct (Hyes Hlt) as (-> & _). discriminate.
      + destruct (Hno (Qle_not_lt _ _ Hge)) as (-> & _). discriminate.
    - apply String.eqb_neq in Hst.
      pose proof (Hkeep j Hj Hst) as Hg. rewrite Hjid, Hg' in Hg.
      injection Hg as ->. assumption. }
  split; [assumption |]. split; [assumption |]. split; [| split].
  - intros j Hj Hst. apply (get_job_in _ _ _ (Hkeep j Hj Hst)).
  - pose proof (loop_counts clock mock_forecast carbon_intensity
                  (get_prioritized_queue (jobs st))
                  {| jobs := jobs st; scheduled_jobs := []; deferred_jobs := [];
                     tick := tick st |}) as Hc.
    fold (schedule_pending_jobs clock mock_forecast carbon_intensity st) in Hc.
    fold st' in Hc. cbn [scheduled_jobs deferred_jobs length] in Hc.
    unfold get_prioritized_queue in Hc.
    rewrite (Permutation_length (sorted_by_priority_perm _)) in Hc.
    unfold get_queue_stats. cbn [pending]. unfold Py.len. lia.
  - unfold get_prioritized_queue.
    assert (Hempty : get_jobs_by_status (jobs st') (status_value PENDING) = []).
    { unfold get_jobs_by_status.
      destruct (filter _ (jobs st')) as [| x xs] eqn:Hf; [reflexivity |].
      assert (Hx : In x (filter (fun j => String.eqb (status j) (status_value PENDING))
                                (jobs st'))) by (rewrite Hf; left; reflexivity).
      apply filter_In in Hx. destruct Hx as (Hx & Hst). apply String.eqb_eq in Hst.
      exfalso. exact (Hnone x Hx Hst). }
    rewrite Hempty. reflexivity.
Qed.

Lemma schedule_pending_jobs_store_witness :
  let st' := schedule_pending_jobs minute_clock constant_forecast 300
               {| jobs := done_job :: tl two_jobs; scheduled_jobs := [];
                  deferred_jobs := []; tick := 0 |} in
  ids (jobs st') = ["a"%string; "b"%string] /\
  In done_job (jobs st') /\
  Py.len (scheduled_jobs st') + Py.len (deferred_jobs st') = 1 /\
  get_prioritized_queue (jobs st') = [].
Proof.
  destruct (schedule_pending_jobs_store minute_clock constant_forecast 300
              {| jobs := done_job :: tl two_jobs; scheduled_jobs := [];
                 deferred_jobs := []; tick := 0 |} eq_refl)
    as (Hids & _ & Hkeep & Hcount & Hqueue).
  split; [exact Hids |]. split; [| split; [exact Hcount | exact Hqueue]].
  apply Hkeep; [left; reflexivity | discriminate].
Defined.



(** [get_current_vs_optimal] on a forecast that can be constructed: the
    window at offset 0 and a window of least value. *)
Lemma current_vs_optimal forecast current_time d h :
  CoreMock.degenerate forecast = false ->
  exists now_window optimal_window,
    Core.get_current_vs_optimal forecast current_time d h
    = OK (now_window, optimal_window) /\
    (Core.value optimal_window <= Core.value now_window)%Q.
Proof.
  intros Hdeg. unfold Core.get_current_vs_optimal.
  destruct (CoreMore.init_cases forecast d current_time (Some (h * 60))) as (_ & Hok).
  destruct (Hok Hdeg) as (self & Hinit & _).
  destruct (CoreFacts.init_len_total _ _ _ _ _ Hinit) as (n & Hlen).
  pose proof (CoreFacts.len_at_least_1 _ _ Hlen) as Hn.
  destruct (CoreFacts.getitem_total self n 0 Hlen ltac:(lia)) as (w0 & Hw0).
  destruct (CoreMore.min_window_least self n Hlen) as (i & best & _ & _ & Hmin & Hleast).
  rewrite Hinit. cbn [bind]. rewrite Hw0. cbn [bind]. rewrite Hmin. cbn [bind].
  exists w0, best. split; [reflexivity |].
  apply (Hleast 0 w0); [lia | assumption].
Qed.

(** X14: [schedule_single_job] on a forecast that can be constructed, for a
    job whose power and duration are not negative: it returns; the optimal
    intensity is at most the current one, so the savings and their
    percentage are never negative (and at most 100 when the optimal
    intensity is not negative); and the job stored under the identifier,
    whatever its status was, is marked "scheduled" at the optimal start. *)
Theorem schedule_single_job_savings forecast current_time later jobs job h :
  CoreMock.degenerate forecast = false ->
  0 <= power_draw_watts job ->
  0 <= duration_minutes job ->
  exists info jobs',
    schedule_single_job forecast current_time later jobs job h = OK (info, jobs') /\
    (ci_optimal info <= ci_now info)%Q /\
    (0 <= savings_g info)%Q /\
    (0 <= savings_percent info)%Q /\
    ((0 <= ci_optimal info)%Q -> (savings_percent info <= 100)%Q) /\
    (forall j0, get_job jobs (job_id job) = Some j0 ->
                exists j', get_job jobs' (job_id job) = Some j' /\
                           status j' = status_value SCHEDULED /\
                           scheduled_for j' = Some (optimal_time info)).
Proof.
  intros Hdeg Hpower Hduration.
  destruct (current_vs_optimal forecast current_time (duration_minutes job) h Hdeg)
    as (wn & wo & Hcvo & Hle).
  unfold schedule_single_job. rewrite Hcvo. cbn [bind].
  set (k := (inject_Z (power_draw_watts job) / 1000
             * (inject_Z (duration_minutes job) / 60))%Q).
  assert (Hk : (0 <= k)%Q).
  { unfold k. apply Qmult_le_0_compat; apply Qle_shift_div_l; try reflexivity;
      rewrite Qmult_0_l; change 0%Q with (inject_Z 0); rewrite <- Zle_Qle; assumption. }
  set (en := (k * (Core.value wn / 1000))%Q).
  set (eo := (k * (Core.value wo / 1000))%Q).
  assert (Hsav : (0 <= en - eo)%Q).
  { assert (E : (en - eo == k * ((Core.value wn - Core.value wo) / 1000))%Q)
      by (unfold en, eo; field).
    rewrite E. apply Qmult_le_0_compat; [assumption |].
    apply Qle_shift_div_l; [reflexivity | lra]. }
  assert (Hpct : exists pct,
             (if Qlt_bool 0 en
              then q <- Py.truediv (en - eo) en ;; OK (q * 100)%Q
              else OK 0%Q) = OK pct /\
             (0 <= pct)%Q /\ ((0 <= Core.value wo)%Q -> (pct <= 100)%Q)).
  { destruct (Qlt_bool 0 en) eqn:Hen.
    - apply Qlt_bool_iff in Hen.
      rewrite truediv_ok by lra. cbn [bind]. eexists. split; [reflexivity |]. split.
      + apply Qmult_le_0_compat; [| lra].
        apply Qle_shift_div_l; [assumption | lra].
      + intros Hwo.
        assert (Heo : (0 <= eo)%Q).
        { unfold eo. apply Qmult_le_0_compat; [assumption |].
          apply Qle_shift_div_l; [reflexivity | lra]. }
        assert (Hq : ((en - eo) / en <= 1)%Q)
          by (apply Qle_shift_div_r; [assumption | lra]).
        lra.
    - exists 0%Q. split; [reflexivity |]. split; [lra | intros; lra]. }
  destruct Hpct as (pct & Hpct & Hpct0 & Hpct100).
  rewrite Hpct. cbn [bind]. eexists. eexists. split; [reflexivity |].
  cbn [ci_optimal ci_now savings_g savings_percent optimal_time].
  split; [assumption |]. split; [lra |]. split; [assumption |].
  split; [assumption |].
  intros j0 Hj0. unfold update_job_scheduled_status.
  rewrite get_job_update_first by reflexivity.
  rewrite String.eqb_refl, Hj0. simpl. eexists. repeat split.
Qed.

Lemma schedule_single_job_savings_witness :
  exists info jobs',
    schedule_single_job CoreMock.three_core_samples 0 0 [done_job] done_job 24
    = OK (info, jobs') /\
    (ci_optimal info <= ci_now info)%Q /\
    (0 <= savings_g info)%Q /\
    (0 <= savings_percent info)%Q /\
    ((0 <= ci_optimal info)%Q -> (savings_percent info <= 100)%Q) /\
    (forall j0, get_job [done_job] (job_id done_job) = Some j0 ->
                exists j', get_job jobs' (job_id done_job) = Some j' /\
                           status j' = status_value SCHEDULED /\
                           scheduled_for j' = Some (optimal_time info)).
Proof.
  apply (schedule_single_job_savings CoreMock.three_core_samples 0 0 [done_job]
           done_job 24).
  - reflexivity.
  - vm_compute. discriminate.
  - vm_compute. discriminate.
Defined.

End SchedulerMoreFacts.

(** ** More on the job store ([src/core/job_queue.py]) *)

Module JobQueueFacts.
Import JobQueue JobQueueMore Contract SchedulerFacts.

Lemma get_job_app (jobs more : list GPUJob) (id : string) :
  get_job (jobs ++ more) id
  = match get_job jobs id with
    | Some j => Some j
    | None => get_job more id
    end.
Proof.
  unfold get_job. induction jobs as [| j rest IH]; simpl; [reflexivity |].
  destruct (String.eqb (job_id j) id); [reflexivity | exact IH].
Qed.

Lemma get_job_none (jobs : list GPUJob) (id : string) :
  get_job jobs id = None <-> ~ In id (ids jobs).
Proof.
  unfold get_job, ids. induction jobs as [| j rest IH]; simpl.
  - split; [intros _ [] | reflexivity].
  - destruct (String.eqb (job_id j) id) eqn:E.
    + apply String.eqb_eq in E. split; [discriminate | intros H; exfalso; apply H; left; assumption].
    + apply String.eqb_neq in E. rewrite IH. split.
      * intros H [Hj | Hin]; [contradiction | apply H; assumption].
      * intros H Hin. apply H. right; assumption.
Qed.

(** X15: [add_job] appends and returns the identifier of the job.  A job
    whose identifier is new to the store is then found under it; a job
    whose identifier is already taken is stored but [get_job] keeps
    returning the older job; lookups under other identifiers do not
    change. *)
Theorem add_job_lookup (jobs : list GPUJob) (job : GPUJob) :
  snd (add_job jobs job) = job_id job /\
  Py.len (fst (add_job jobs job)) = Py.len jobs + 1 /\
  (~ In (job_id job) (ids jobs) ->
   get_job (fst (add_job jobs job)) (job_id job) = Some job) /\
  (forall older, get_job jobs (job_id job) = Some older ->
                 get_job (fst (add_job jobs job)) (job_id job) = Some older) /\
  (forall id, id <> job_id job ->
              get_job (fst (add_job jobs job)) id = get_job jobs id).
Proof.
  unfold add_job. simpl. split; [reflexivity |].
  split; [rewrite len_app; reflexivity |]. split; [| split].
  - intros Hnew. apply get_job_none in Hnew. rewrite get_job_app, Hnew.
    unfold get_job. simpl. rewrite String.eqb_refl. reflexivity.
  - intros older Hold. rewrite get_job_app, Hold. reflexivity.
  - intros id Hid. rewrite get_job_app. destruct (get_job jobs id); [reflexivity |].
    unfold get_job. simpl. apply String.eqb_neq in Hid.
    rewrite String.eqb_sym, Hid. reflexivity.
Qed.

Lemma add_job_lookup_witness :
  get_job (fst (add_job two_jobs SchedulerMore.done_job)) "a" = Some (hd SchedulerMore.done_job two_jobs).
Proof.
  destruct (add_job_lookup two_jobs SchedulerMore.done_job) as (_ & _ & _ & Hold & _).
  apply Hold. reflexivity.
Defined.

(** X16: [delete_job] reports whether the identifier was in the store.  If
    it was not, the store is unchanged; if it was, exactly one job, the
    first with the identifier, is removed, and in a store without duplicate
    identifiers nothing is found under it afterwards.  Lookups under other
    identifiers do not change. *)
Theorem delete_job_lookup (jobs : list GPUJob) (id : string) :
  (snd (delete_job jobs id) = false <-> get_job jobs id = None) /\
  (snd (delete_job jobs id) = false -> fst (delete_job jobs id) = jobs) /\
  (snd (delete_job jobs id) = true ->
   Py.len (fst (delete_job jobs id)) = Py.len jobs - 1) /\
  (NoDup (ids jobs) -> get_job (fst (delete_job jobs id)) id = None) /\
  (forall id', id' <> id ->
               get_job (fst (delete_job jobs id)) id' = get_job jobs id').
Proof.
  unfold get_job, ids.
  induction jobs as [| j rest IH]; cbn [delete_job find fst snd map].
  - repeat split; try reflexivity; try discriminate.
  - destruct IH as (IH1 & IH2 & IH3 & IH4 & IH5).
    destruct (String.eqb (job_id j) id) eqn:E; cbn [fst snd].
    + split; [split; discriminate |]. split; [discriminate |].
      split; [intros _; unfold Py.len; simpl length; lia |]. split.
      * intros Hnd. inversion Hnd as [| ? ? Hnotin _]; subst.
        apply String.eqb_eq in E. subst id.
        apply (proj2 (get_job_none rest (job_id j))). assumption.
      * intros id' Hid'. apply String.eqb_eq in E. subst id.
        apply String.eqb_neq in Hid'. rewrite String.eqb_sym, Hid'. reflexivity.
    + destruct (delete_job rest id) as (rest', found). cbn [fst snd find] in *.
      split; [assumption |]. split; [intros H; rewrite (IH2 H); reflexivity |].
      split.
      * intros H. specialize (IH3 H). unfold Py.len in *. simpl length. lia.
      * split.
        -- intros Hnd. inversion Hnd; subst. rewrite E. apply IH4. assumption.
        -- intros id' Hid'. destruct (String.eqb (job_id j) id'); [reflexivity |].
           apply IH5. assumption.
Qed.

Lemma delete_job_lookup_witness :
  get_job (fst (delete_job two_jobs "a")) "a" = None /\
  Py.len (fst (delete_job two_jobs "a")) = Py.len two_jobs - 1.
Proof.
  destruct (delete_job_lookup two_jobs "a") as (_ & _ & Hlen & Hgone & _).
  split.
  - apply Hgone. apply SchedulerClaims.unique_ids_nodup. reflexivity.
  - apply Hlen. reflexivity.
Defined.

Lemma update_first_found (jobs : list GPUJob) (id : string) (f : GPUJob -> GPUJob) :
  (snd (update_first jobs id f) = false <-> get_job jobs id = None) /\
  (snd (update_first jobs id f) = false -> fst (update_first jobs id f) = jobs).
Proof.
  unfold get_job. induction jobs as [| j rest IH]; cbn [update_first find fst snd].
  - split; [split; reflexivity | reflexivity].
  - destruct (String.eqb (job_id j) id); cbn [fst snd].
    + split; [split; discriminate | discriminate].
    + destruct (update_first rest id f) as (rest', found). cbn [fst snd] in *.
      destruct IH as (IH1 & IH2). split; [assumption |].
      intros H. rewrite (IH2 H). reflexivity.
Qed.

(** X17: [update_job_status] reports whether the identifier was in the
    store and changes nothing when it was not.  When it was, the job found
    under the identifier gets the new status; its completion time is set to
    the clock reading exactly when the new status is "completed"; its other
    fields, the identifiers of the store and the jobs under other
    identifiers stay as they were. *)
Theorem update_job_status_lookup (jobs : list GPUJob) (id new_status : string)
        (now : datetime) :
  let result := update_job_status jobs id new_status now in
  (snd result = false <-> get_job jobs id = None) /\
  (snd result = false -> fst result = jobs) /\
  ids (fst result) = ids jobs /\
  (forall j0, get_job jobs id = Some j0 ->
              exists j', get_job (fst result) id = Some j' /\
                         status j' = new_status /\
                         (new_status = status_value COMPLETED ->
                          completed_at j' = Some now) /\
                         (new_status <> status_value COMPLETED ->
                          completed_at j' = completed_at j0) /\
                         scheduled_for j' = scheduled_for j0 /\
                         priority j' = priority j0 /\
                         carbon_intensity_threshold j' = carbon_intensity_threshold j0) /\
  (forall id', id' <> id -> get_job (fst result) id' = get_job jobs id').
Proof.
  intros result. unfold result, update_job_status.
  match goal with
  | |- context [update_first jobs id ?f] =>
      set (change := f);
      assert (Hid : forall j, job_id (change j) = job_id j)
        by (intros j; unfold change; destruct (String.eqb _ _); reflexivity)
  end.
  destruct (update_first_found jobs id change) as (H1 & H2).
  split; [assumption |]. split; [assumption |].
  split; [apply SchedulerMoreFacts.update_first_ids; assumption |]. split.
  - intros j0 Hj0. rewrite (get_job_update_first _ _ _ _ Hid).
    rewrite String.eqb_refl, Hj0. cbn [option_map]. eexists. split; [reflexivity |].
    unfold change. destruct (String.eqb new_status (status_value COMPLETED)) eqn:E.
    + apply String.eqb_eq in E. split; [reflexivity |].
      split; [intros _; reflexivity |]. split; [intros H; contradiction |].
      repeat split.
    + apply String.eqb_neq in E. split; [reflexivity |].
      split; [intros H; contradiction |]. split; [intros _; reflexivity |].
      repeat split.
  - intros id' Hid'. rewrite (get_job_update_first _ _ _ _ Hid).
    apply String.eqb_neq in Hid'. rewrite Hid'. reflexivity.
Qed.

Lemma update_job_status_lookup_witness :
  exists j', get_job (fst (update_job_status two_jobs "b" "completed" (minutes 5))) "b"
             = Some j' /\
             status j' = "completed"%string /\
             completed_at j' = Some (minutes 5).
Proof.
  destruct (update_job_status_lookup two_jobs "b" "completed" (minutes 5))
    as (_ & _ & _ & Hfound & _).
  destruct (Hfound (hd SchedulerMore.done_job (tl two_jobs)) eq_refl)
    as (j' & Hget & Hst & Hdone & _).
  exists j'. split; [exact Hget |]. split; [exact Hst |]. apply Hdone. reflexivity.
Defined.

Lemma insert_ordered (j : GPUJob) (l : list GPUJob) :
  priority_ordered l = true -> priority_ordered (insert_by_priority j l) = true.
Proof.
  induction l as [| k rest IH]; intros Hl; [reflexivity |].
  cbn [insert_by_priority]. destruct (priority k <=? priority j) eqn:E.
  - cbn [priority_ordered]. rewrite E. exact Hl.
  - apply Z.leb_gt in E.
    destruct rest as [| m rest'].
    + cbn [insert_by_priority priority_ordered].
      replace (priority j <=? priority k) with true by (symmetry; apply Z.leb_le; lia).
      reflexivity.
    + cbn [priority_ordered] in Hl. apply andb_true_iff in Hl. destruct Hl as (Hmk & Hrest).
      specialize (IH Hrest). cbn [insert_by_priority] in *.
      destruct (priority m <=? priority j) eqn:E2.
      * cbn [priority_ordered]. rewrite E2.
        replace (priority j <=? priority k) with true by (symmetry; apply Z.leb_le; lia).
        cbn [priority_ordered] in Hrest. simpl. exact Hrest.
      * cbn [priority_ordered]. rewrite Hmk. simpl. exact IH.
Qed.

Lemma sorted_ordered (l : list GPUJob) : priority_ordered (sorted_by_priority l) = true.
Proof.
  induction l as [| j rest IH]; [reflexivity |].
  cbn [sorted_by_priority fold_right]. apply insert_ordered. exact IH.
Qed.

Lemma insert_class (p : Z) (j : GPUJob) (l : list GPUJob) :
  filter (fun x => priority x =? p) (insert_by_priority j l)
  = filter (fun x => priority x =? p) (j :: l).
Proof.
  induction l as [| k rest IH]; [reflexivity |].
  cbn [insert_by_priority]. destruct (priority k <=? priority j) eqn:E; [reflexivity |].
  apply Z.leb_gt in E. cbn [filter] in *.
  destruct (priority k =? p) eqn:Ek; destruct (priority j =? p) eqn:Ej;
    try (apply Z.eqb_eq in Ek; apply Z.eqb_eq in Ej; lia);
    rewrite IH; reflexivity.
Qed.

(** X18: the prioritized queue holds exactly the pending jobs of the store
    (each as often as the store does), in an order where the priority never
    increases from one job to the next, and jobs of the same priority keep
    the order they have in the store. *)
Theorem prioritized_queue_order (jobs : list GPUJob) :
  Permutation (get_prioritized_queue jobs)
              (get_jobs_by_status jobs (status_value PENDING)) /\
  priority_ordered (get_prioritized_queue jobs) = true /\
  forall p, filter (fun x => priority x =? p) (get_prioritized_queue jobs)
            = filter (fun x => priority x =? p)
                     (get_jobs_by_status jobs (status_value PENDING)).
Proof.
  unfold get_prioritized_queue.
  split; [apply sorted_by_priority_perm |]. split; [apply sorted_ordered |].
  intros p. induction (get_jobs_by_status jobs (status_value PENDING)) as [| j rest IH];
    [reflexivity |].
  cbn [sorted_by_priority fold_right]. rewrite insert_class.
  cbn [filter]. fold (sorted_by_priority rest). rewrite IH. reflexivity.
Qed.

Lemma status_classes (jobs : list GPUJob) :
  (length jobs
   = length (get_jobs_by_status jobs (status_value PENDING))
     + length (get_jobs_by_status jobs (status_value SCHEDULED))
     + length (get_jobs_by_status jobs (status_value RUNNING))
     + length (get_jobs_by_status jobs (status_value COMPLETED))
     + length (get_jobs_by_status jobs (status_value DEFERRED))
     + length (filter (fun j => negb (existsb (String.eqb (status j))
                                              (map status_value
                                                   [PENDING; SCHEDULED; RUNNING;
                                                    COMPLETED; DEFERRED])))
                      jobs))%nat.
Proof.
  unfold get_jobs_by_status. induction jobs as [| j rest IH]; [reflexivity |].
  cbn [filter map existsb status_value].
  destruct (String.eqb_spec (status j) "pending") as [E1 | E1];
    destruct (String.eqb_spec (status j) "scheduled") as [E2 | E2];
    destruct (String.eqb_spec (status j) "running") as [E3 | E3];
    destruct (String.eqb_spec (status j) "completed") as [E4 | E4];
    destruct (String.eqb_spec (status j) "deferred") as [E5 | E5];
    try (rewrite E1 in *; discriminate);
    try (rewrite E2 in *; discriminate);
    try (rewrite E3 in *; discriminate);
    try (rewrite E4 in *; discriminate);
    cbn [orb negb length]; cbn [filter map existsb status_value] in IH; lia.
Qed.

(** X19: the queue statistics count every job once: the total is the sum
    of the pending, scheduled, running, completed and deferred counts plus
    the number of jobs with any other status (such as "cancelled"), which no
    count but the total includes. *)
Theorem queue_stats_partition (jobs : list GPUJob) :
  let stats := get_queue_stats jobs in
  total stats
  = pending stats + scheduled stats + running stats + completed stats + deferred stats
    + Py.len (filter (fun j => negb (existsb (String.eqb (status j))
                                             (map status_value
                                                  [PENDING; SCHEDULED; RUNNING;
                                                   COMPLETED; DEFERRED])))
                     jobs) /\
  0 <= pending stats /\ 0 <= scheduled stats /\ 0 <= running stats /\
  0 <= completed stats /\ 0 <= deferred stats.
Proof.
  intros stats. unfold stats, get_queue_stats.
  cbn [total pending scheduled running completed deferred].
  pose proof (status_classes jobs) as H. unfold Py.len.
  split; [lia |]. repeat split; lia.
Qed.

(** X20: the three estimates of emitted mass agree.  For a job and an
    intensity in gCO2/kWh, [calculate_emissions_for_job] and
    [estimate_emissions] both give watts * minutes * intensity / 60000000
    kilograms, an omitted intensity counts as 700 gCO2/kWh, and the grams
    that [schedule_single_job] reports for running now and at the optimal
    time are 1000 times the estimate at the two intensities it reports,
    with the savings their difference. *)
Theorem emission_estimates_agree (job : GPUJob) (ci : Q) :
  (calculate_emissions_for_job job (Some ci)
   == inject_Z (power_draw_watts job) * inject_Z (duration_minutes job) * ci / 60000000)%Q /\
  (Tracker.estimate_emissions (duration_minutes job) (power_draw_watts job) ci
   == calculate_emissions_for_job job (Some ci))%Q /\
  (calculate_emissions_for_job job None
   == calculate_emissions_for_job job (Some 700%Q))%Q /\
  (forall forecast current_time later jobs h info jobs',
      SchedulerMore.schedule_single_job forecast current_time later jobs job h
      = OK (info, jobs') ->
      (SchedulerMore.emissions_now_g info
       == 1000 * calculate_emissions_for_job job (Some (SchedulerMore.ci_now info)))%Q /\
      (SchedulerMore.emissions_optimal_g info
       == 1000 * calculate_emissions_for_job job
                   (Some (SchedulerMore.ci_optimal info)))%Q /\
      (SchedulerMore.savings_g info
       == SchedulerMore.emissions_now_g info
          - SchedulerMore.emissions_optimal_g info)%Q).
Proof.
  unfold calculate_emissions_for_job, Tracker.estimate_emissions.
  split; [field |]. split; [reflexivity |]. split; [field |].
  intros forecast current_time later jobs h info jobs' H.
  unfold SchedulerMore.schedule_single_job in H.
  inv_bind H. destruct x as (wn, wo). inv_bind H. injection H as <- _.
  cbn [SchedulerMore.emissions_now_g SchedulerMore.emissions_optimal_g
       SchedulerMore.savings_g SchedulerMore.ci_now SchedulerMore.ci_optimal].
  repeat split; field.
Qed.

End JobQueueFacts.

(** ** The carbon data provider ([src/core/carbon_api.py]) *)

Module CarbonApiFacts.
Import CarbonApi.

Lemma key_eqb_refl (k : cache_key) : key_eqb k k = true.
Proof.
  unfold key_eqb. rewrite String.eqb_refl, Z.eqb_refl. reflexivity.
Qed.

Lemma cache_get_set (cache : list (cache_key * Response)) (key : cache_key) (r : Response) :
  cache_get (cache_set cache key r) key = Some r.
Proof.
  induction cache as [| (k, r0) rest IH]; cbn [cache_set cache_get].
  - rewrite key_eqb_refl. reflexivity.
  - destruct (key_eqb k key) eqn:E; cbn [cache_get]; rewrite E; [reflexivity | exact IH].
Qed.

(** The bands of [_format_response]. *)
Lemma greenness_bands (now_utc : datetime) (ci : Q) (region : string) (mock : bool) :
  let r := format_response now_utc ci region mock in
  carbonIntensity r = ci /\ is_mock r = mock /\
  ((ci < 200)%Q -> greenness r = "HIGH"%string) /\
  ((200 <= ci)%Q -> (ci < 400)%Q -> greenness r = "MEDIUM"%string) /\
  ((400 <= ci)%Q -> greenness r = "LOW"%string).
Proof.
  unfold format_response.
  destruct (Qlt_bool ci 200) eqn:E1; [| destruct (Qlt_bool ci 400) eqn:E2];
    cbn [carbonIntensity is_mock greenness];
    repeat match goal with
      | H : Qlt_bool _ _ = true |- _ => apply Qlt_bool_iff in H
      | H : Qlt_bool _ _ = false |- _ => apply Qlt_bool_false in H
      end;
    repeat split; intros; try reflexivity; exfalso; lra.
Qed.

Lemma variation_range (hour : Z) : -50 <= variation hour <= 80.
Proof.
  unfold variation.
  destruct ((2 <=? hour) && (hour <? 6)); [lia |].
  destruct ((17 <=? hour) && (hour <? 22)); lia.
Qed.

Lemma base_range (region : string) :
  50 <= CoreMock.dict_get base_intensities region 500 <= 700.
Proof.
  unfold base_intensities. cbn [CoreMock.dict_get].
  repeat match goal with
    | |- context [String.eqb ?a region] => destruct (String.eqb a region)
    end; lia.
Qed.

Lemma mock_data_facts (hour rand : Z) (now_utc : datetime) (region : string) :
  -50 <= rand <= 50 ->
  let r := get_mock_data hour rand now_utc region in
  is_mock r = true /\
  (20 <= carbonIntensity r <= 830)%Q /\
  (region = "IN"%string -> (600 <= carbonIntensity r)%Q /\ greenness r = "LOW"%string) /\
  (region = "NO"%string -> (carbonIntensity r <= 180)%Q /\ greenness r = "HIGH"%string).
Proof.
  intros Hrand r. unfold r, get_mock_data.
  pose proof (variation_range hour) as Hvar.
  pose proof (base_range region) as Hbase.
  set (intensity := Z.max 20 (CoreMock.dict_get base_intensities region 500
                              + variation hour + rand)).
  destruct (greenness_bands now_utc (inject_Z intensity) region true)
    as (Hci & Hmock & Hhigh & _ & Hlow).
  rewrite Hci. split; [assumption |]. split; [| split].
  - change 20%Q with (inject_Z 20). change 830%Q with (inject_Z 830).
    rewrite <- !Zle_Qle. unfold intensity. lia.
  - intros ->. assert (H600 : 600 <= intensity).
    { unfold intensity. change (CoreMock.dict_get base_intensities "IN" 500) with 700. lia. }
    assert (HQ : (600 <= inject_Z intensity)%Q)
      by (change 600%Q with (inject_Z 600); rewrite <- Zle_Qle; assumption).
    split; [assumption |]. apply Hlow. lra.
  - intros ->. assert (H180 : intensity <= 180).
    { unfold intensity. change (CoreMock.dict_get base_intensities "NO" 500) with 50. lia. }
    assert (HQ : (inject_Z intensity <= 180)%Q)
      by (change 180%Q with (inject_Z 180); rewrite <- Zle_Qle; assumption).
    split; [assumption |]. apply Hhigh. lra.
Qed.

(** X21: the mock intensity, for a random draw in [-50, 50], lies between
    20 and 830 gCO2/kWh and is marked as mock data.  For India it is at
    least 600, so its greenness is always "LOW"; for Norway it is at most
    180, so its greenness is always "HIGH". *)
Theorem mock_data_range (hour rand : Z) (now_utc : datetime) (region : string) :
  -50 <= rand <= 50 ->
  let r := get_mock_data hour rand now_utc region in
  is_mock r = true /\
  (20 <= carbonIntensity r <= 830)%Q /\
  (region = "IN"%string -> (600 <= carbonIntensity r)%Q /\ greenness r = "LOW"%string) /\
  (region = "NO"%string -> (carbonIntensity r <= 180)%Q /\ greenness r = "HIGH"%string).
Proof. exact (mock_data_facts hour rand now_utc region). Qed.

Lemma mock_data_range_witness :
  (600 <= carbonIntensity (get_mock_data 12 (-50) 0%Z "IN"))%Q /\
  greenness (get_mock_data 12 (-50) 0%Z "IN") = "LOW"%string.
Proof.
  destruct (mock_data_range 12 (-50) 0 "IN") as (_ & _ & Hin & _).
  - lia.
  - apply Hin. reflexivity.
Defined.

Lemma grid_mock_path (token : string) (http : http_outcome)
      (minute hour rand : Z) (now_utc : datetime)
      (cache : list (cache_key * Response)) (region : string) :
  cache_get cache (region, minute) = None ->
  token = "demo"%string \/ (exists e, http = Raise e)
  \/ (exists code body, http = OK (code, body) /\ code <> 200)
  \/ (exists e, http = OK (200, Raise e)) ->
  get_grid_carbon_intensity token http minute hour rand now_utc cache region
  = (get_mock_data hour rand now_utc region, cache).
Proof.
  intros Hmiss Hcase. unfold get_grid_carbon_intensity. rewrite Hmiss.
  destruct Hcase as [-> | [(e & ->) | [(code & body & -> & Hcode) | (e & ->)]]].
  - reflexivity.
  - destruct (negb (String.eqb token "demo")); reflexivity.
  - destruct (negb (String.eqb token "demo")); [| reflexivity].
    cbn [bind]. apply Z.eqb_neq in Hcode. rewrite Hcode. reflexivity.
  - destruct (negb (String.eqb token "demo")); reflexivity.
Qed.

(** X22: [get_grid_carbon_intensity] and its cache.  An entry cached under
    the region and minute is returned as it is.  Without one, a request
    that answers 200 with a decodable body gives a response that is not
    mock data (with intensity 500, hence "LOW", when the body has no
    "carbonIntensity") and stores it, so that asking again in the same
    minute returns the same response without a request; the demo token, a
    failed request, another status code or an undecodable body give mock
    data and leave the cache as it was. *)
Theorem grid_intensity_cache (token : string) (http : http_outcome)
        (minute hour rand : Z) (now_utc : datetime)
        (cache : list (cache_key * Response)) (region : string) :
  let result := get_grid_carbon_intensity token http minute hour rand now_utc cache region in
  (forall cached, cache_get cache (region, minute) = Some cached ->
                  result = (cached, cache)) /\
  (cache_get cache (region, minute) = None ->
   token <> "demo"%string ->
   forall data, http = OK (200, OK data) ->
     is_mock (fst result) = false /\
     (data = None -> carbonIntensity (fst result) = 500%Q /\
                     greenness (fst result) = "LOW"%string) /\
     (forall c, data = Some c -> carbonIntensity (fst result) = c) /\
     (forall http' hour' rand' now',
         get_grid_carbon_intensity token http' minute hour' rand' now' (snd result) region
         = (fst result, snd result))) /\
  (cache_get cache (region, minute) = None ->
   token = "demo"%string \/ (exists e, http = Raise e)
   \/ (exists code body, http = OK (code, body) /\ code <> 200)
   \/ (exists e, http = OK (200, Raise e)) ->
   result = (get_mock_data hour rand now_utc region, cache)).
Proof.
  intros result. split; [| split].
  - intros cached Hhit. unfold result, get_grid_carbon_intensity.
    rewrite Hhit. reflexivity.
  - intros Hmiss Htoken data Hhttp. unfold result, get_grid_carbon_intensity.
    rewrite Hmiss.
    apply String.eqb_neq in Htoken. rewrite Htoken, Hhttp.
    cbn [negb bind Z.eqb Pos.eqb fst snd].
    set (ci := match data with Some c => c | None => 500%Q end).
    destruct (greenness_bands now_utc ci region false) as (Hci & Hmock & _ & _ & Hlow).
    split; [exact Hmock |]. split; [| split].
    + intros Hdata. rewrite Hci. split.
      * unfold ci. rewrite Hdata. reflexivity.
      * apply Hlow. unfold ci. rewrite Hdata. lra.
    + intros c Hdata. rewrite Hci. unfold ci. rewrite Hdata. reflexivity.
    + intros http' hour' rand' now'. unfold get_grid_carbon_intensity.
      rewrite cache_get_set. reflexivity.
  - intros Hmiss Hcase. apply grid_mock_path; assumption.
Qed.

Lemma grid_intensity_cache_witness :
  let result := get_grid_carbon_intensity "token" (OK (200, OK (Some 150%Q)))
                  0 12 0 0 [] "GB" in
  carbonIntensity (fst result) = 150%Q /\
  is_mock (fst result) = false /\
  get_grid_carbon_intensity "token" (Raise (ValueError "offline")) 0 13 7 5
                            (snd result) "GB"
  = (fst result, snd result).
Proof.
  destruct (grid_intensity_cache "token" (OK (200, OK (Some 150%Q))) 0 12 0 0 [] "GB")
    as (_ & Hreal & _).
  destruct (Hreal eq_refl ltac:(discriminate) (Some 150%Q) eq_refl)
    as (Hmock & _ & Hc & Hagain).
  split; [apply Hc; reflexivity |]. split; [exact Hmock |]. apply Hagain.
Defined.

End CarbonApiFacts.

(** ** The scheduling pass with its grid status ([src/core/carbon_scheduler.py]) *)

Module SchedulerRunFacts.
Import JobQueue JobQueueMore Scheduler Contract SchedulerFacts CarbonApi.

Section Loop.
Variable clock : nat -> datetime.
Variable mock_forecast : nat -> list Core.CarbonIntensityPoint.
Variable carbon_intensity : Q.

Local Notation "'step'" := (schedule_one clock mock_forecast carbon_intensity).

(** On a grid that is too dirty for every job of the queue, the loop
    schedules nothing and defers the queue in its order. *)
Lemma loop_dirty (queue : list GPUJob) (st : state) :
  (forall q, In q queue ->
             ~ (carbon_intensity < inject_Z (carbon_intensity_threshold q))%Q) ->
  scheduled_jobs (fold_left step queue st) = scheduled_jobs st /\
  deferred_jobs (fold_left step queue st) = deferred_jobs st ++ ids queue.
Proof.
  revert st. induction queue as [| job rest IH]; intros st Hdirty.
  - simpl. rewrite app_nil_r. split; reflexivity.
  - cbn [fold_left].
    destruct (IH (step st job)) as (Hs & Hd);
      [intros q Hq; apply Hdirty; right; assumption |].
    rewrite Hs, Hd.
    assert (Hjob : Qlt_bool carbon_intensity (inject_Z (carbon_intensity_threshold job))
                   = false).
    { destruct (Qlt_bool _ _) eqn:E; [| reflexivity].
      apply Qlt_bool_iff in E. exfalso. apply (Hdirty job); [left; reflexivity | assumption]. }
    unfold schedule_one. rewrite Hjob.
    destruct (best_start clock mock_forecast (tick st) (duration_minutes job))
      as [(t, c) | e]; cbn [scheduled_jobs deferred_jobs];
      (split; [reflexivity |]); rewrite <- app_assoc; reflexivity.
Qed.

End Loop.

Lemma queue_pending (jobs : list GPUJob) (q : GPUJob) :
  In q (get_prioritized_queue jobs) ->
  In q jobs /\ status q = status_value PENDING.
Proof.
  unfold get_prioritized_queue. intros Hq.
  apply (Permutation_in _ (sorted_by_priority_perm _)) in Hq.
  unfold get_jobs_by_status in Hq. apply filter_In in Hq. destruct Hq as (Hq & Hst).
  apply String.eqb_eq in Hst. split; assumption.
Qed.

(** X23: with the demo token and nothing cached for India, a scheduling
    pass for the region "IN" runs on mock data of at least 600 gCO2/kWh:
    the grid is reported "LOW", and when no pending job has a threshold
    above 600 (the default is 400) no job is scheduled; every pending job
    is deferred, in the order of the prioritized queue, and the cache stays
    as it was. *)
Theorem demo_pass_defers_in_india
        (token : string) (w : reading) (cache : list (cache_key * Response))
        (clock : nat -> datetime)
        (mock_forecast : nat -> list Core.CarbonIntensityPoint)
        (st : state) :
  token = "demo"%string ->
  cache_get cache ("IN"%string, r_minute w) = None ->
  -50 <= r_rand w <= 50 ->
  unique_ids (jobs st) = true ->
  (forall q, In q (jobs st) -> status q = status_value PENDING ->
             carbon_intensity_threshold q <= 600) ->
  let run := SchedulerRun.schedule_pending_jobs token w cache clock mock_forecast st "IN" in
  let summary := fst (fst run) in
  let st' := snd (fst run) in
  snd run = cache /\
  SchedulerRun.grid_greenness summary = "LOW"%string /\
  (600 <= SchedulerRun.current_carbon_intensity summary)%Q /\
  SchedulerRun.scheduled_count summary = 0 /\
  deferred_jobs st' = ids (get_prioritized_queue (jobs st)) /\
  SchedulerRun.deferred_count summary = pending (get_queue_stats (jobs st)) /\
  (forall j, In j (jobs st) -> status j = status_value PENDING ->
             exists j', get_job (jobs st') (job_id j) = Some j' /\
                        status j' = status_value DEFERRED).
Proof.
  intros Htoken Hmiss Hrand Huniq Hthr run summary st'.
  unfold summary, st', run, SchedulerRun.schedule_pending_jobs.
  rewrite (CarbonApiFacts.grid_mock_path token (r_http w) (r_minute w) (r_hour w)
             (r_rand w) (r_now_utc w) cache "IN" Hmiss (or_introl Htoken)).
  destruct (CarbonApiFacts.mock_data_facts (r_hour w) (r_rand w) (r_now_utc w) "IN" Hrand)
    as (_ & _ & Hin & _).
  destruct (Hin eq_refl) as (Hci & Hlow). clear Hin.
  set (grid := get_mock_data (r_hour w) (r_rand w) (r_now_utc w) "IN") in *.
  cbn [fst snd SchedulerRun.grid_greenness SchedulerRun.current_carbon_intensity
       SchedulerRun.scheduled_count SchedulerRun.deferred_count].
  assert (Hdirty : forall q, In q (jobs st) -> status q = status_value PENDING ->
                     ~ (carbonIntensity grid < inject_Z (carbon_intensity_threshold q))%Q).
  { intros q Hq Hst Hlt. specialize (Hthr q Hq Hst).
    assert (HQ : (inject_Z (carbon_intensity_threshold q) <= 600)%Q)
      by (change 600%Q with (inject_Z 600); rewrite <- Zle_Qle; assumption).
    lra. }
  destruct (loop_dirty clock mock_forecast (carbonIntensity grid)
              (get_prioritized_queue (jobs st))
              {| jobs := jobs st; scheduled_jobs := []; deferred_jobs := [];
                 tick := tick st |}) as (Hs & Hd).
  { intros q Hq. apply queue_pending in Hq. destruct Hq as (Hq & Hst).
    apply Hdirty; assumption. }
  fold (schedule_pending_jobs clock mock_forecast (carbonIntensity grid) st) in Hs, Hd.
  cbn [scheduled_jobs deferred_jobs app] in Hs, Hd.
  split; [reflexivity |]. split; [assumption |]. split; [assumption |].
  split; [rewrite Hs; reflexivity |]. split; [assumption |]. split.
  - rewrite Hd. unfold get_queue_stats. cbn [pending]. unfold Py.len, ids.
    rewrite length_map. unfold get_prioritized_queue.
    rewrite (Permutation_length (sorted_by_priority_perm _)). reflexivity.
  - intros j Hj Hst.
    pose proof (SchedulerClaims.unique_ids_nodup _ Huniq) as Hnd.
    destruct (prioritized_queue_complete (jobs st) j Hnd Hj Hst) as (Hqnd & Hq).
    destruct (loop_decides clock mock_forecast (carbonIntensity grid)
                (get_prioritized_queue (jobs st))
                {| jobs := jobs st; scheduled_jobs := []; deferred_jobs := [];
                   tick := tick st |} j Hqnd Hq
                (get_job_unique _ _ Hnd Hj)) as (j' & k & Hget & Hdec).
    exists j'. split; [exact Hget |].
    destruct Hdec as (_ & _ & Hno). apply Hno. apply Hdirty; assumption.
Qed.

Lemma demo_pass_defers_in_india_witness :
  let run := SchedulerRun.schedule_pending_jobs "demo" (offline 0) [] minute_clock
               constant_forecast
               {| jobs := two_jobs; scheduled_jobs := []; deferred_jobs := [];
                  tick := 0 |} "IN" in
  SchedulerRun.grid_greenness (fst (fst run)) = "LOW"%string /\
  SchedulerRun.scheduled_count (fst (fst run)) = 0 /\
  deferred_jobs (snd (fst run)) = ["b"%string; "a"%string].
Proof.
  destruct (demo_pass_defers_in_india "demo" (offline 0) [] minute_clock
              constant_forecast
              {| jobs := two_jobs; scheduled_jobs := []; deferred_jobs := [];
                 tick := 0 |})
    as (_ & Hlow & _ & Hnone & Hdeferred & _).
  - reflexivity.
  - reflexivity.
  - simpl. lia.
  - reflexivity.
  - intros q [<- | [<- | []]] _; simpl; lia.
  - split; [exact Hlow |]. split; [exact Hnone | exact Hdeferred].
Defined.

End SchedulerRunFacts.

(** ** The comparison of regions and the 24-hour forecast ([src/core/carbon_api.py]) *)

Module ComparisonFacts.
Import CarbonApi.

Section MinBy.
Context {A : Type}.
Variable key : A -> Q.

Local Notation "'lt'" := (fun a b : A => Qlt_bool (key a) (key b)).

(** The loop invariant of [min(..., key=...)]: the current best is strictly
    below everything before it and not above anything after it. *)
Lemma pick_first_least (xs : list A) (x : A) (before after : list A) :
  (forall y, In y before -> (key x < key y)%Q) ->
  (forall y, In y after -> (key x <= key y)%Q) ->
  exists pre post,
    before ++ x :: after ++ xs = pre ++ fold_left (pick lt) xs x :: post /\
    (forall y, In y pre -> (key (fold_left (pick lt) xs x) < key y)%Q) /\
    (forall y, In y post -> (key (fold_left (pick lt) xs x) <= key y)%Q).
Proof.
  revert x before after. induction xs as [| item xs IH]; intros x before after Hb Ha.
  - exists before, after. rewrite app_nil_r. simpl. repeat split; assumption.
  - cbn [fold_left].
    assert (Hp : pick lt x item = if Qlt_bool (key item) (key x) then item else x)
      by reflexivity.
    rewrite Hp. destruct (Qlt_bool (key item) (key x)) eqn:E.
    + apply Qlt_bool_iff in E.
      destruct (IH item (before ++ x :: after) []) as (pre & post & Heq & Hpre & Hpost).
      * intros y Hy. apply in_app_or in Hy. destruct Hy as [Hy | [<- | Hy]].
        -- specialize (Hb y Hy). lra.
        -- assumption.
        -- specialize (Ha y Hy). lra.
      * intros y [].
      * exists pre, post. split; [| split; assumption].
        rewrite <- Heq. rewrite <- app_assoc. reflexivity.
    + apply Qlt_bool_false in E.
      destruct (IH x before (after ++ [item])) as (pre & post & Heq & Hpre & Hpost).
      * assumption.
      * intros y Hy. apply in_app_or in Hy. destruct Hy as [Hy | [<- | []]];
          [apply Ha; assumption | assumption].
      * exists pre, post. split; [| split; assumption].
        rewrite <- Heq. rewrite <- app_assoc. reflexivity.
Qed.

Lemma py_min_by_first_least (l : list A) :
  (l = [] -> exists msg, py_min_by key l = Raise (ValueError msg)) /\
  (l <> [] ->
   exists m pre post,
     py_min_by key l = OK m /\ l = pre ++ m :: post /\
     (forall y, In y pre -> (key m < key y)%Q) /\
     (forall y, In y post -> (key m <= key y)%Q)).
Proof.
  split.
  - intros ->. eexists. reflexivity.
  - intros Hne. destruct l as [| x xs]; [congruence |].
    destruct (pick_first_least xs x [] []) as (pre & post & Heq & Hpre & Hpost);
      [intros y [] | intros y [] |].
    exists (fold_left (pick lt) xs x), pre, post.
    split; [reflexivity |]. split; [exact Heq |]. split; assumption.
Qed.

End MinBy.

Lemma dict_set_keys {V : Type} (d : list (string * V)) (key : string) (v : V) (k : string) :
  In k (map fst (dict_set d key v)) <-> In k (map fst d) \/ k = key.
Proof.
  induction d as [| (k0, v0) rest IH]; cbn [dict_set map fst In].
  - split; [intros [<- | []]; right; reflexivity | intros [[] | ->]; left; reflexivity].
  - destruct (String.eqb k0 key) eqn:E; cbn [map fst In].
    + apply String.eqb_eq in E. subst k0. split; [intros H; left; exact H |].
      intros [H | ->]; [exact H | left; reflexivity].
    + rewrite IH. tauto.
Qed.

Lemma compare_loop_keys (token : string) (world : nat -> reading)
      (regions : list string) :
  forall (k : nat) (cache : list (cache_key * Response))
         (comparison : list (string * Response)) (region : string),
    In region (map fst (fst (compare_loop token world k cache regions comparison)))
    <-> In region (map fst comparison) \/ In region regions.
Proof.
  induction regions as [| r rest IH]; intros k cache comparison region;
    cbn [compare_loop].
  - simpl. tauto.
  - destruct (get_grid_carbon_intensity token _ _ _ _ _ cache r) as (resp, cache').
    rewrite IH, dict_set_keys. simpl. intuition congruence.
Qed.

Lemma comparison_facts (token : string) (world : nat -> reading) (now_utc : datetime)
      (cache : list (cache_key * Response)) (regions_arg : option (list string)) :
  let regions := match regions_arg with None => default_regions | Some l => l end in
  let outcome := fst (get_multi_region_comparison token world now_utc cache regions_arg) in
  (regions = [] -> exists msg, outcome = Raise (ValueError msg)) /\
  (regions <> [] ->
   exists c, outcome = OK c /\
     In (greenest_region c) regions /\
     (forall region, In region (map fst (CarbonApi.regions c)) <-> In region regions) /\
     exists pre r post,
       CarbonApi.regions c = pre ++ (greenest_region c, r) :: post /\
       greenest_intensity c = carbonIntensity r /\
       (forall e, In e pre -> (greenest_intensity c < carbonIntensity (snd e))%Q) /\
       (forall e, In e post -> (greenest_intensity c <= carbonIntensity (snd e))%Q)).
Proof.
  intros regions outcome. unfold outcome, get_multi_region_comparison.
  fold regions.
  pose proof (compare_loop_keys token world regions 0%nat cache []) as Hkeys.
  destruct (compare_loop token world 0 cache regions []) as (comparison, cache') eqn:Hloop.
  cbn [fst] in *. unfold greenest.
  destruct (py_min_by_first_least
              (fun item : string * Response => carbonIntensity (snd item)) comparison)
    as (Hempty & Hfull).
  split.
  - intros Hnil. destruct Hempty as (msg & Hmsg).
    + destruct comparison as [| (k0, v0) rest]; [reflexivity |].
      exfalso. assert (Hin : In k0 regions).
      { destruct (proj1 (Hkeys k0)) as [[] | H]; [left; reflexivity | exact H]. }
      rewrite Hnil in Hin. destruct Hin.
    + exists msg. rewrite Hmsg. reflexivity.
  - intros Hne. destruct Hfull as (m & pre & post & Hmin & Hsplit & Hpre & Hpost).
    + intros ->. destruct regions as [| r rest]; [congruence |].
      destruct (proj2 (Hkeys r)) as []. right; left; reflexivity.
    + rewrite Hmin. cbn [bind fst snd]. eexists. split; [reflexivity |].
      cbn [greenest_region greenest_intensity CarbonApi.regions].
      assert (Hall : forall region, In region (map fst comparison) <-> In region regions).
      { intros region. rewrite Hkeys. simpl. tauto. }
      split; [| split; [exact Hall |]].
      * apply Hall. rewrite Hsplit, map_app. apply in_or_app. right; left; reflexivity.
      * exists pre, (snd m), post. rewrite <- surjective_pairing.
        split; [exact Hsplit |]. split; [reflexivity |]. split; assumption.
Qed.

(** X24: [get_multi_region_comparison] raises ValueError for an empty list
    of regions.  Otherwise it returns a comparison that has an entry for
    exactly the regions asked for (the six default ones when none are
    given), and the greenest region is one of them: its entry has the
    reported intensity, every entry before it has a strictly higher
    intensity and no entry after it a lower one. *)
Theorem multi_region_comparison_greenest
        (token : string) (world : nat -> reading) (now_utc : datetime)
        (cache : list (cache_key * Response)) (regions_arg : option (list string)) :
  let regions := match regions_arg with None => default_regions | Some l => l end in
  let outcome := fst (get_multi_region_comparison token world now_utc cache regions_arg) in
  (regions = [] -> exists msg, outcome = Raise (ValueError msg)) /\
  (regions <> [] ->
   exists c, outcome = OK c /\
     In (greenest_region c) regions /\
     (forall region, In region (map fst (CarbonApi.regions c)) <-> In region regions) /\
     exists pre r post,
       CarbonApi.regions c = pre ++ (greenest_region c, r) :: post /\
       greenest_intensity c = carbonIntensity r /\
       (forall e, In e pre -> (greenest_intensity c < carbonIntensity (snd e))%Q) /\
       (forall e, In e post -> (greenest_intensity c <= carbonIntensity (snd e))%Q)).
Proof. exact (comparison_facts token world now_utc cache regions_arg). Qed.

Lemma multi_region_comparison_greenest_witness :
  exists c,
    fst (get_multi_region_comparison "demo" offline 0 []
           (Some ["GB"%string; "NO"%string])) = OK c /\
    In (greenest_region c) ["GB"%string; "NO"%string].
Proof.
  destruct (multi_region_comparison_greenest "demo" offline 0 []
              (Some ["GB"%string; "NO"%string])) as (_ & Hsome).
  destruct (Hsome ltac:(discriminate)) as (c & Hc & Hin & _).
  exists c. split; assumption.
Defined.

Lemma mock_intensity (hour rand : Z) (now_utc : datetime) (region : string) :
  carbonIntensity (get_mock_data hour rand now_utc region)
  = inject_Z (Z.max 20 (CoreMock.dict_get base_intensities region 500
                        + variation hour + rand)).
Proof.
  unfold get_mock_data.
  apply (CarbonApiFacts.greenness_bands now_utc _ region true).
Qed.

Lemma demo_grid (http : http_outcome) (minute hour rand : Z) (now_utc : datetime)
      (region : string) :
  get_grid_carbon_intensity "demo" http minute hour rand now_utc [] region
  = (get_mock_data hour rand now_utc region, []).
Proof. reflexivity. Qed.

(** X25: with the demo token and an empty cache, the comparison of the six
    default regions always names Norway the greenest, at 180 gCO2/kWh or
    less, when the six readings fall in the same hour of the day and the
    random draws are in [-50, 50]; nothing is cached. *)
Theorem demo_comparison_picks_norway (world : nat -> reading) (now_utc : datetime)
        (h : Z) :
  (forall k, r_hour (world k) = h) ->
  (forall k, -50 <= r_rand (world k) <= 50) ->
  exists c,
    get_multi_region_comparison "demo" world now_utc [] None = (OK c, []) /\
    greenest_region c = "NO"%string /\
    (greenest_intensity c <= 180)%Q /\
    map fst (CarbonApi.regions c) = default_regions.
Proof.
  intros Hhour Hrand.
  unfold get_multi_region_comparison, default_regions.
  cbn [compare_loop]. rewrite !demo_grid. cbn iota beta. rewrite !Hhour.
  remember (get_mock_data h (r_rand (world 0%nat)) (r_now_utc (world 0%nat)) "IN") as mIN eqn:EIN.
  remember (get_mock_data h (r_rand (world 1%nat)) (r_now_utc (world 1%nat)) "US") as mUS eqn:EUS.
  remember (get_mock_data h (r_rand (world 2%nat)) (r_now_utc (world 2%nat)) "DE") as mDE eqn:EDE.
  remember (get_mock_data h (r_rand (world 3%nat)) (r_now_utc (world 3%nat)) "NO") as mNO eqn:ENO.
  remember (get_mock_data h (r_rand (world 4%nat)) (r_now_utc (world 4%nat)) "AU") as mAU eqn:EAU.
  remember (get_mock_data h (r_rand (world 5%nat)) (r_now_utc (world 5%nat)) "GB") as mGB eqn:EGB.
  assert (Hdict : dict_set (dict_set (dict_set (dict_set (dict_set (dict_set []
                    "IN" mIN) "US" mUS) "DE" mDE) "NO" mNO) "AU" mAU) "GB" mGB
                  = [("IN"%string, mIN); ("US"%string, mUS); ("DE"%string, mDE);
                     ("NO"%string, mNO); ("AU"%string, mAU); ("GB"%string, mGB)])
    by reflexivity.
  rewrite Hdict. clear Hdict.
  set (comparison := [("IN"%string, mIN); ("US"%string, mUS); ("DE"%string, mDE);
                      ("NO"%string, mNO); ("AU"%string, mAU); ("GB"%string, mGB)]).
  pose proof (CarbonApiFacts.variation_range h) as Hv.
  assert (HNO : (carbonIntensity mNO <= 180)%Q /\
                forall m, In m [mIN; mUS; mDE; mAU; mGB] ->
                          (carbonIntensity mNO < carbonIntensity m)%Q).
  { pose proof (Hrand 0%nat) as H0. pose proof (Hrand 1%nat) as H1.
    pose proof (Hrand 2%nat) as H2. pose proof (Hrand 3%nat) as H3.
    pose proof (Hrand 4%nat) as H4. pose proof (Hrand 5%nat) as H5.
    subst mIN mUS mDE mNO mAU mGB. rewrite !mock_intensity.
    change 180%Q with (inject_Z 180). rewrite <- Zle_Qle.
    change (CoreMock.dict_get base_intensities "NO" 500) with 50.
    split; [lia |].
    intros m [<- | [<- | [<- | [<- | [<- | []]]]]]; rewrite mock_intensity, <- Zlt_Qlt;
      [change (CoreMock.dict_get base_intensities "IN" 500) with 700
      |change (CoreMock.dict_get base_intensities "US" 500) with 400
      |change (CoreMock.dict_get base_intensities "DE" 500) with 350
      |change (CoreMock.dict_get base_intensities "AU" 500) with 600
      |change (CoreMock.dict_get base_intensities "GB" 500) with 200]; lia. }
  destruct HNO as (H180 & Hless).
  destruct (py_min_by_first_least
              (fun item : string * Response => carbonIntensity (snd item)) comparison)
    as (_ & Hfull).
  destruct Hfull as (m & pre & post & Hmin & Hsplit & Hpre & Hpost); [discriminate |].
  assert (Hleast : forall y, In y comparison ->
                             (carbonIntensity (snd m) <= carbonIntensity (snd y))%Q).
  { intros y Hy. rewrite Hsplit in Hy. apply in_app_or in Hy.
    destruct Hy as [Hy | [<- | Hy]];
      [apply Qlt_le_weak, Hpre; assumption | apply Qle_refl | apply Hpost; assumption]. }
  assert (Hm : In m comparison)
    by (rewrite Hsplit; apply in_or_app; right; left; reflexivity).
  assert (HmNO : m = ("NO"%string, mNO)).
  { pose proof (Hleast ("NO"%string, mNO)) as Hle. cbn [snd] in Hle.
    assert (Hle' : (carbonIntensity (snd m) <= carbonIntensity mNO)%Q)
      by (apply Hle; unfold comparison; simpl; tauto).
    unfold comparison in Hm.
    destruct Hm as [<- | [<- | [<- | [<- | [<- | [<- | []]]]]]]; try reflexivity;
      cbn [snd] in Hle'; exfalso;
      match goal with
      | H : (carbonIntensity ?x <= carbonIntensity mNO)%Q |- _ =>
          assert (Hlt : (carbonIntensity mNO < carbonIntensity x)%Q)
            by (apply Hless; simpl; tauto)
      end; lra. }
  unfold greenest. rewrite Hmin, HmNO. cbn [bind fst snd].
  eexists. split; [reflexivity |].
  cbn [greenest_region greenest_intensity CarbonApi.regions].
  split; [reflexivity |]. split; [assumption | reflexivity].
Qed.

Lemma demo_comparison_picks_norway_witness :
  exists c,
    get_multi_region_comparison "demo" offline 0 [] None = (OK c, []) /\
    greenest_region c = "NO"%string.
Proof.
  destruct (demo_comparison_picks_norway offline 0 12) as (c & Hc & Hno & _).
  - intros k. reflexivity.
  - intros k. simpl. lia.
  - exists c. split; [exact Hc | exact Hno].
Defined.

End ComparisonFacts.

Module ForecastFacts.
Import CarbonApi CoreMock.

Lemma forecast_entry_range (base : Z) (start_time : datetime) (randint : Z -> Z -> Z)
      (region : string) (i : Z) :
  (forall lo hi, lo <= hi -> lo <= randint lo hi <= hi) ->
  50 <= base ->
  let e := forecast_entry base start_time randint region i in
  fe_datetime e = start_time + minutes (30 * i) /\
  fe_region e = region /\
  (20 <= fe_value e)%Q /\
  (inject_Z base * 0.4 - 20 <= fe_value e <= inject_Z base * 1.1 + 30)%Q.
Proof.
  intros Hrand Hbase e. unfold e, forecast_entry.
  cbn [fe_datetime fe_region fe_value].
  split; [reflexivity |]. split; [reflexivity |].
  assert (Hb : (50 <= inject_Z base)%Q)
    by (change 50%Q with (inject_Z 50); rewrite <- Zle_Qle; assumption).
  assert (Hr : forall lo hi, lo <= hi ->
                 (inject_Z lo <= inject_Z (randint lo hi) <= inject_Z hi)%Q).
  { intros lo hi Hle. rewrite <- !Zle_Qle. apply Hrand. assumption. }
  pose proof (Hr (-20) 20 ltac:(lia)) as H20.
  pose proof (Hr (-30) 30 ltac:(lia)) as H30.
  pose proof (Hr (-40) 40 ltac:(lia)) as H40.
  pose proof (Hr (-25) 25 ltac:(lia)) as H25.
  change (inject_Z (-20)) with (-20)%Q in H20. change (inject_Z 20) with 20%Q in H20.
  change (inject_Z (-30)) with (-30)%Q in H30. change (inject_Z 30) with 30%Q in H30.
  change (inject_Z (-40)) with (-40)%Q in H40. change (inject_Z 40) with 40%Q in H40.
  change (inject_Z (-25)) with (-25)%Q in H25. change (inject_Z 25) with 25%Q in H25.
  set (hour := Calendar.hour (start_time + minutes (30 * i))).
  match goal with
  | |- context [py_max 20 ?x] =>
      set (intensity := x);
      assert (Hint : (inject_Z base * 0.4 - 20 <= intensity <= inject_Z base * 1.1 + 30)%Q)
  end.
  { unfold intensity.
    destruct ((2 <=? hour) && (hour <? 6)); [lra |].
    destruct ((6 <=? hour) && (hour <? 9)); [lra |].
    destruct ((9 <=? hour) && (hour <? 17)); [lra |].
    destruct ((17 <=? hour) && (hour <? 22)); lra. }
  destruct (CoreMore.py_max_ge 20 intensity) as (Hge & Hge').
  split; [assumption |]. split; [lra |].
  unfold py_max. destruct (Qlt_bool 20 intensity); lra.
Qed.

Lemma forecast_24h_facts (now_utc : datetime) (randint : Z -> Z -> Z -> Z)
      (region : string) :
  randint_contract randint ->
  let forecast := get_24h_forecast now_utc randint region in
  let base := inject_Z (dict_get base_intensities region 500) in
  Py.len forecast = 48 /\
  start_time now_utc <= now_utc < start_time now_utc + minutes 30 /\
  (forall i, 0 <= i < 48 ->
             exists e, Py.index forecast i = OK e /\
                       fe_datetime e = start_time now_utc + minutes (30 * i) /\
                       fe_region e = region) /\
  (forall e, In e forecast ->
             (20 <= fe_value e)%Q /\
             (base * 0.4 - 20 <= fe_value e <= base * 1.1 + 30)%Q).
Proof.
  intros Hrand forecast base. unfold forecast, base, get_24h_forecast.
  pose proof (CarbonApiFacts.base_range region) as Hbase.
  split; [| split; [| split]].
  - unfold Py.len. rewrite length_map. apply (CoreMore.range_len 48).
  - apply CoreMore.start_time_floor.
  - intros i Hi.
    eexists. split.
    + apply (CoreMore.map_index _ (Py.range 48) i i). apply CoreMore.range_index. exact Hi.
    + cbv beta.
      destruct (forecast_entry_range (dict_get base_intensities region 500)
                  (start_time now_utc) (randint i) region i
                  (fun lo hi => Hrand i lo hi) ltac:(lia)) as (Hd & Hr & _).
      split; assumption.
  - intros e He. apply in_map_iff in He. destruct He as (i & <- & _).
    destruct (forecast_entry_range (dict_get base_intensities region 500)
                (start_time now_utc) (randint i) region i
                (fun lo hi => Hrand i lo hi) ltac:(lia)) as (_ & _ & Hv).
    exact Hv.
Qed.

(** X26: [get_24h_forecast] returns 48 entries for the region asked for,
    the first dated at the half hour at or before the clock reading and
    each next one 30 minutes later.  When [randint] keeps to its bounds,
    every value is at least 20 and lies between 0.4 * base - 21 and
    1.1 * base + 31, where base is the region's base intensity (500 for an
    unknown region); the products by 0.4 to 1.1 are floating-point numbers,
    and the bounds leave a margin of 1 for their rounding. *)
Theorem forecast_24h_shape (now_utc : datetime) (randint : Z -> Z -> Z -> Z)
        (region : string) :
  randint_contract randint ->
  let forecast := get_24h_forecast now_utc randint region in
  let base := inject_Z (dict_get base_intensities region 500) in
  Py.len forecast = 48 /\
  start_time now_utc <= now_utc < start_time now_utc + minutes 30 /\
  (forall i, 0 <= i < 48 ->
             exists e, Py.index forecast i = OK e /\
                       fe_datetime e = start_time now_utc + minutes (30 * i) /\
                       fe_region e = region) /\
  (forall e, In e forecast ->
             (20 <= fe_value e)%Q /\
             (base * 0.4 - 21 <= fe_value e <= base * 1.1 + 31)%Q).
Proof.
  intros Hrand forecast base.
  destruct (forecast_24h_facts now_utc randint region Hrand)
    as (Hlen & Hstart & Hidx & Hval).
  split; [exact Hlen |]. split; [exact Hstart |]. split; [exact Hidx |].
  intros e He. destruct (Hval e He) as (H20 & Hlo & Hhi).
  fold base in Hlo, Hhi. split; [assumption |]. split; lra.
Qed.

Lemma forecast_24h_shape_witness :
  Py.len (get_24h_forecast noon lowest "GB") = 48 /\
  exists e, Py.index (get_24h_forecast noon lowest "GB") 47 = OK e /\
            fe_datetime e = start_time noon + minutes (30 * 47) /\
            (20 <= fe_value e)%Q.
Proof.
  destruct (forecast_24h_shape noon lowest "GB") as (Hlen & _ & Hidx & Hval).
  - intros i lo hi Hle. unfold lowest. lia.
  - split; [exact Hlen |].
    destruct (Hidx 47 ltac:(lia)) as (e & He & Hdate & _).
    exists e. split; [exact He |]. split; [exact Hdate |].
    apply Hval. apply (CatsMore.index_in _ _ _ He).
Defined.

End ForecastFacts.

(** ** The emissions log ([src/core/emissions_tracker.py]) *)

Module TrackerLogFacts.
Import TrackerLog.

Lemma sum_snoc (xs : list Q) (x : Q) : Py.sum (xs ++ [x]) = (Py.sum xs + x)%Q.
Proof. unfold Py.sum. rewrite fold_left_app. reflexivity. Qed.

Lemma total_snoc (self self' : GPUEmissionsTracker) (record : EmissionsRecord) (e : Q) :
  emissions_log self' = emissions_log self ++ [record] ->
  emissions_kg_co2 record = Some e ->
  get_total_emissions self' = (get_total_emissions self + e)%Q.
Proof.
  intros Hlog He. unfold get_total_emissions.
  rewrite Hlog, map_app. cbn [map]. rewrite sum_snoc, He. reflexivity.
Qed.

(** X27: a tracking session.  [start_tracking] followed by [stop_tracking]
    returns a record for the job, with the seconds between the two clock
    readings as duration, appends exactly this record to the log and clears
    the session, so that the total emissions grow by the emissions of the
    record and another [stop_tracking] returns the empty dictionary and
    changes nothing.  The emissions are 0 when CodeCarbon is unavailable,
    cannot be started, or raises or returns nothing on [stop]. *)
Theorem tracking_session (available : bool) (cc : codecarbon) (now : datetime)
        (stop : option (option Q)) (end_time now' : datetime)
        (stop2 : option (option Q)) (end_time2 now2 : datetime)
        (self : GPUEmissionsTracker) (job : string) :
  let started := start_tracking available cc now self job in
  let stopped := snd (stop_tracking stop end_time now' started) in
  exists record e,
    fst (stop_tracking stop end_time now' started) = Some record /\
    job_name record = Some job /\
    emissions_kg_co2 record = Some e /\
    duration_seconds record = total_seconds (end_time - now) /\
    country record = country_code self /\
    (available = false \/ (online_ok cc || offline_ok cc) && start_ok cc = false
     \/ stop = None \/ stop = Some None -> e = 0%Q) /\
    (forall v, available = true -> (online_ok cc || offline_ok cc) && start_ok cc = true ->
               stop = Some (Some v) -> e = v) /\
    emissions_log stopped = emissions_log self ++ [record] /\
    tracker stopped = None /\ current_job stopped = None /\ start_time stopped = None /\
    get_total_emissions stopped = (get_total_emissions self + e)%Q /\
    stop_tracking stop2 end_time2 now2 stopped = (None, stopped).
Proof.
  intros started stopped. unfold stopped, started, start_tracking, stop_tracking.
  cbn [tracker start_time current_job country_code emissions_log fst snd].
  eexists. eexists.
  split; [reflexivity |].
  cbn [job_name emissions_kg_co2 duration_seconds country tracker current_job
       start_time emissions_log fst snd].
  split; [reflexivity |]. split; [reflexivity |]. split; [reflexivity |].
  split; [reflexivity |]. split; [| split].
  - intros [-> | [Hcc | [-> | ->]]].
    + reflexivity.
    + destruct available; [| reflexivity].
      destruct (online_ok cc), (offline_ok cc), (start_ok cc);
        try discriminate Hcc; reflexivity.
    + destruct available; [| reflexivity].
      destruct (online_ok cc), (offline_ok cc), (start_ok cc); reflexivity.
    + destruct available; [| reflexivity].
      destruct (online_ok cc), (offline_ok cc), (start_ok cc); reflexivity.
  - intros v -> Hcc ->.
    destruct (online_ok cc), (offline_ok cc), (start_ok cc);
      try discriminate Hcc; reflexivity.
  - split; [reflexivity |]. split; [reflexivity |]. split; [reflexivity |].
    split; [reflexivity |]. split; [| reflexivity].
    eapply total_snoc; reflexivity.
Qed.

(** X28: [add_manual_record] appends one record, marked as estimated, and
    leaves a running session alone: the total emissions grow by exactly the
    emissions given, and a later [stop_tracking] returns the record it
    would have returned without it, logged after the manual one. *)
Theorem manual_record_total (now : datetime) (self : GPUEmissionsTracker)
        (job : string) (emissions_kg duration avoided_kg : Q)
        (stop : option (option Q)) (end_time now' : datetime) :
  let record := fst (add_manual_record now self job emissions_kg duration avoided_kg) in
  let self' := snd (add_manual_record now self job emissions_kg duration avoided_kg) in
  emissions_log self' = emissions_log self ++ [record] /\
  emissions_kg_co2 record = Some emissions_kg /\
  is_estimated record = Some true /\
  get_total_emissions self' = (get_total_emissions self + emissions_kg)%Q /\
  fst (stop_tracking stop end_time now' self') = fst (stop_tracking stop end_time now' self) /\
  forall tracked,
    fst (stop_tracking stop end_time now' self) = Some tracked ->
    emissions_log (snd (stop_tracking stop end_time now' self'))
    = emissions_log self ++ [record; tracked].
Proof.
  intros record self'. unfold record, self', add_manual_record.
  cbn [fst snd emissions_log emissions_kg_co2 is_estimated].
  split; [reflexivity |]. split; [reflexivity |]. split; [reflexivity |].
  split; [eapply total_snoc; reflexivity |].
  unfold stop_tracking.
  cbn [tracker start_time current_job country_code emissions_log].
  destruct (tracker self) as [kind |], (start_time self) as [started |];
    cbn [fst snd emissions_log]; (split; [reflexivity |]);
    intros tracked Htracked; try discriminate Htracked.
  injection Htracked as <-. rewrite <- app_assoc. reflexivity.
Qed.

End TrackerLogFacts.

(** ** The request URL ([src/cats/CI_api_interface.py]) *)

Module CatsApiFacts.
Import CatsApi.

Lemma request_time_facts (timestamp : datetime) :
  let dt := request_time timestamp in
  (Calendar.minute dt = 1 \/ Calendar.minute dt = 31) /\
  dt mod minutes 1 = 0 /\
  timestamp - minutes 30 < dt <= timestamp + minutes 1 /\
  (1 <= Calendar.minute timestamp -> dt <= timestamp) /\
  (Calendar.minute timestamp = 0 -> timestamp < dt).
Proof.
  unfold request_time, Calendar.minute, Calendar.replace_minute, minutes.
  pose proof (Z.rem_mul_r timestamp 60000000 60 ltac:(lia) ltac:(lia)) as Hsplit.
  change (60000000 * 60) with 3600000000 in Hsplit.
  pose proof (Z.mod_pos_bound timestamp 60000000 ltac:(lia)) as Hlow.
  pose proof (Z.mod_pos_bound (timestamp / 60000000) 60 ltac:(lia)) as Hmin.
  pose proof (Z.div_mod timestamp 3600000000 ltac:(lia)) as Hdm.
  set (h := timestamp / 3600000000) in *.
  set (m := (timestamp / 60000000) mod 60) in *.
  assert (Hbase : timestamp - timestamp mod 3600000000 = h * 60 * 60000000) by lia.
  assert (Hminute : forall k, 0 <= k < 60 ->
                      ((h * 60 * 60000000 + k * 60000000) / 60000000) mod 60 = k).
  { intros k Hk.
    replace (h * 60 * 60000000 + k * 60000000) with ((h * 60 + k) * 60000000) by lia.
    rewrite Z.div_mul by lia.
    rewrite Z.add_comm, Z.mod_add by lia. apply Z.mod_small. assumption. }
  assert (Hwhole : forall k, (h * 60 * 60000000 + k * 60000000) mod (1 * 60000000) = 0).
  { intros k.
    replace (h * 60 * 60000000 + k * 60000000) with ((h * 60 + k) * (1 * 60000000)) by lia.
    apply Z.mod_mul. lia. }
  destruct (m >? 30) eqn:Hhalf; rewrite Hbase.
  - apply Z.gtb_lt in Hhalf.
    split; [right; apply Hminute; lia |]. split; [apply Hwhole |].
    split; [lia |]. split; [lia |]. intros H0. lia.
  - assert (Hle : m <= 30) by (destruct (Z.gtb_spec m 30); [discriminate | lia]).
    split; [left; apply Hminute; lia |]. split; [apply Hwhole |].
    split; [lia |]. split; [lia |]. intros H0. lia.
Qed.

Lemma last_rev {A : Type} (l : list A) (d : A) : last (rev l) d = hd d l.
Proof.
  destruct l as [| x xs]; [reflexivity |]. simpl. apply last_last.
Qed.

Lemma hd_rev {A : Type} (l : list A) (d : A) : hd d (rev l) = last l d.
Proof.
  rewrite <- (rev_involutive l) at 2. rewrite last_rev. reflexivity.
Qed.

Lemma lstrip_hd (s : list Ascii.ascii) (d : Ascii.ascii) :
  lstrip s <> [] -> isspace (hd d (lstrip s)) = false.
Proof.
  induction s as [| x xs IH]; simpl; [congruence |].
  destruct (isspace x) eqn:E; [exact IH | intros _; exact E].
Qed.

Lemma lstrip_split (s : list Ascii.ascii) :
  exists pre, s = pre ++ lstrip s /\ Forall (fun c => isspace c = true) pre.
Proof.
  induction s as [| x xs (pre & IH & Hpre)]; simpl; [exists []; split; [reflexivity | constructor] |].
  destruct (isspace x) eqn:E.
  - exists (x :: pre). split; [simpl; rewrite <- IH; reflexivity |].
    constructor; assumption.
  - exists []. split; [reflexivity | constructor].
Qed.

Lemma lstrip_last (s : list Ascii.ascii) (d : Ascii.ascii) :
  lstrip s <> [] -> last (lstrip s) d = last s d.
Proof.
  induction s as [| x xs IH]; simpl; [congruence |].
  destruct (isspace x) eqn:E; [| reflexivity].
  intros H. rewrite (IH H).
  destruct xs as [| y ys]; [simpl in H; congruence | reflexivity].
Qed.

(** What [strip] removes is whitespace at both ends, and what it leaves
    neither starts nor ends with whitespace. *)
Lemma strip_facts (s : list Ascii.ascii) :
  (exists pre post,
      s = pre ++ strip s ++ post /\
      Forall (fun c => isspace c = true) pre /\
      Forall (fun c => isspace c = true) post) /\
  (forall d, strip s <> [] ->
             isspace (hd d (strip s)) = false /\ isspace (last (strip s) d) = false).
Proof.
  unfold strip. split.
  - destruct (lstrip_split s) as (pre & Hpre & Hspace).
    destruct (lstrip_split (rev (lstrip s))) as (post & Hpost & Hspace').
    exists pre, (rev post). split; [| split; [assumption |]].
    + rewrite Hpre at 1. f_equal.
      rewrite <- rev_app_distr, <- Hpost, rev_involutive. reflexivity.
    + apply Forall_rev. assumption.
  - intros d Hne.
    set (inner := lstrip s) in *.
    assert (Hout : lstrip (rev inner) <> []).
    { intros Hnil. apply Hne. rewrite Hnil. reflexivity. }
    assert (Hinner : inner <> []).
    { intros Hnil. apply Hout. rewrite Hnil. reflexivity. }
    split.
    + rewrite hd_rev, (lstrip_last _ d Hout), last_rev.
      apply lstrip_hd. assumption.
    + rewrite last_rev. apply lstrip_hd. assumption.
Qed.

Lemma slice_all_but_3 {A : Type} (l : list A) :
  Py.slice l 0 (-3) = firstn (length l - 3) l.
Proof.
  unfold Py.slice, Py.clamp, Py.len. cbn [Z.ltb Z.compare].
  change (0 <? 0) with false. cbv iota.
  replace (Z.to_nat (Z.min (Z.max 0 0) (Z.of_nat (length l)))) with 0%nat by lia.
  replace (Z.to_nat (Z.min (Z.max 0 (-3 + Z.of_nat (length l))) (Z.of_nat (length l))))
    with (length l - 3)%nat by lia.
  rewrite Nat.sub_0_r. reflexivity.
Qed.

Lemma length_chars (s : string) :
  length (list_ascii_of_string s) = String.length s.
Proof.
  induction s as [| c s IH]; simpl; [reflexivity | rewrite IH; reflexivity].
Qed.

Lemma request_postcode_facts (postcode : string) :
  let chars := list_ascii_of_string postcode in
  let kept := list_ascii_of_string (request_postcode postcode) in
  ((String.length postcode <= 4)%nat -> request_postcode postcode = postcode) /\
  ((4 < String.length postcode)%nat ->
   (exists pre post,
       firstn (String.length postcode - 3) chars = pre ++ kept ++ post /\
       Forall (fun c => isspace c = true) pre /\
       Forall (fun c => isspace c = true) post) /\
   (forall d, kept <> [] ->
              isspace (hd d kept) = false /\ isspace (last kept d) = false)).
Proof.
  intros chars kept.
  assert (Hlen : Py.len chars = Z.of_nat (String.length postcode))
    by (unfold Py.len, chars; rewrite length_chars; reflexivity).
  unfold kept, request_postcode. fold chars. rewrite Hlen.
  split.
  - intros Hshort.
    destruct (Z.of_nat (String.length postcode) >? 4) eqn:E; [| reflexivity].
    apply Z.gtb_lt in E. lia.
  - intros Hlong.
    destruct (Z.of_nat (String.length postcode) >? 4) eqn:E.
    + cbv iota. rewrite list_ascii_of_string_of_list_ascii, slice_all_but_3.
      unfold chars. rewrite length_chars.
      apply strip_facts.
    + destruct (Z.gtb_spec (Z.of_nat (String.length postcode)) 4); [discriminate | lia].
Qed.

(** X29: [ciuk_request_url] asks for a time and a postcode.  The time has
    its seconds cleared and its minute set to 1 or 31: it is less than 30
    minutes before the timestamp and, in the first minute of an hour only,
    after it, by at most a minute.  A postcode of at most 4 characters is
    used as it is; of a longer one, the last 3 characters are dropped and
    the whitespace around the rest is removed, and nothing else. *)
Theorem request_url_shape (strftime : datetime -> string)
        (timestamp : datetime) (postcode : string) :
  let dt := request_time timestamp in
  let chars := list_ascii_of_string postcode in
  let kept := list_ascii_of_string (request_postcode postcode) in
  ciuk_request_url strftime timestamp postcode
  = ("https://api.carbonintensity.org.uk/regional/intensity/"
     ++ strftime dt ++ "/fw48h/postcode/" ++ request_postcode postcode)%string /\
  (Calendar.minute dt = 1 \/ Calendar.minute dt = 31) /\
  dt mod minutes 1 = 0 /\
  timestamp - minutes 30 < dt <= timestamp + minutes 1 /\
  (1 <= Calendar.minute timestamp -> dt <= timestamp) /\
  (Calendar.minute timestamp = 0 -> timestamp < dt) /\
  ((String.length postcode <= 4)%nat -> request_postcode postcode = postcode) /\
  ((4 < String.length postcode)%nat ->
   (exists pre post,
       firstn (String.length postcode - 3) chars = pre ++ kept ++ post /\
       Forall (fun c => isspace c = true) pre /\
       Forall (fun c => isspace c = true) post) /\
   (forall d, kept <> [] ->
              isspace (hd d kept) = false /\ isspace (last kept d) = false)).
Proof.
  intros dt chars kept.
  destruct (request_time_facts timestamp) as (Hminute & Hwhole & Hnear & Hback & Hahead).
  destruct (request_postcode_facts postcode) as (Hshort & Hlong).
  split; [reflexivity |].
  repeat (split; [assumption |]). assumption.
Qed.

Lemma request_url_shape_witness :
  hours 10 + 30000000 < request_time (hours 10 + 30000000) /\
  exists pre post,
    firstn 4 (list_ascii_of_string "M15 6BH")
    = pre ++ list_ascii_of_string (request_postcode "M15 6BH") ++ post.
Proof.
  destruct (request_url_shape (fun _ => EmptyString) (hours 10 + 30000000) "M15 6BH")
    as (_ & _ & _ & _ & _ & Hahead & _ & Hlong).
  split; [apply Hahead; reflexivity |].
  destruct (Hlong ltac:(simpl; lia)) as ((pre & post & Hsplit & _) & _).
  exists pre, post. exact Hsplit.
Defined.

(** A request at 10:00:30 for the postcode "M15 6BH": the time asked for is
    10:01, half a minute ahead, and the postcode is "M15". *)
Example request_url_example :
  request_time (hours 10 + 30000000) = hours 10 + minutes 1 /\
  request_postcode "M15 6BH" = "M15"%string.
Proof. split; reflexivity. Qed.

End CatsApiFacts.

(** ** Iterating the interpolating forecast ([src/cats/forecast.py]) *)

Module CatsIter.
Import Cats Contract CatsContract CatsFacts.

(** With samples in strictly increasing time order the step is positive,
    and [__len__] divides by it without raising. *)
Lemma len_total data d s mwm ec self :
  init data d s mwm ec = OK self ->
  strictly_increasing data = true ->
  exists n, len self = OK n.
Proof.
  intros Hinit Hinc.
  destruct (init_facts _ _ _ _ _ _ Hinit)
    as (_ & _ & _ & _ & _ & _ & (d0 & d1 & rest & Hdata & Hstep) & _).
  assert (Hpos : 0 < wf_data_stepsize self).
  { rewrite Hstep. rewrite Hdata in Hinc. simpl in Hinc.
    apply andb_true_iff in Hinc. destruct Hinc as (Hlt & _).
    apply Z.ltb_lt in Hlt. lia. }
  unfold len.
  destruct (Py.len (wf_data self) - wf_ndata self <=? 0); [eexists; reflexivity |].
  destruct (wf_max_window_minutes self) as [m |].
  - rewrite truediv_ok.
    + cbn [bind]. eexists; reflexivity.
    + pose proof (CatsMore.total_seconds_pos _ Hpos) as Hts.
      intros Hz. assert (Hq : (total_seconds (wf_data_stepsize self) == 0)%Q).
      { rewrite <- (Qmult_div_r (total_seconds (wf_data_stepsize self)) 60) by discriminate.
        fold (total_seconds (wf_data_stepsize self) / 60)%Q. rewrite Hz. ring. }
      lra.
  - cbn [bind]. eexists; reflexivity.
Qed.

Lemma Forall2_index {A B : Type} (R : A -> B -> Prop) (l : list A) (l' : list B) :
  Forall2 R l l' ->
  Py.len l' = Py.len l /\
  forall i a, Py.index l i = OK a -> exists b, Py.index l' i = OK b /\ R a b.
Proof.
  intros HF. pose proof (Forall2_length HF) as Hlen.
  split; [unfold Py.len; lia |].
  intros i a. unfold Py.index, Py.len. rewrite <- Hlen.
  destruct (_ || _); [discriminate |].
  set (j := Z.to_nat (if i <? 0 then i + Z.of_nat (length l) else i)).
  clearbody j. clear Hlen. revert j.
  induction HF as [| x y l l' Hxy _ IH]; intros j.
  - destruct j; discriminate.
  - destruct j as [| j]; simpl.
    + intros H. injection H as <-. exists y. split; [reflexivity | assumption].
    + apply IH.
Qed.

Lemma iter_facts data d s mwm ec self :
  init data d s mwm ec = OK self ->
  strictly_increasing data = true ->
  d <> 0 ->
  exists n ws,
    len self = OK n /\ iter self = OK ws /\ Py.len ws = n /\
    forall i, 0 <= i < n ->
      exists w, Py.index ws i = OK w /\ getitem self i = OK w /\
                start w = s + i * wf_data_stepsize self /\
                end_ w = start w + minutes d.
Proof.
  intros Hinit Hinc Hd.
  destruct (len_total _ _ _ _ _ _ Hinit Hinc) as (n & Hlen).
  destruct (init_facts _ _ _ _ _ _ Hinit)
    as (_ & _ & _ & Hs & He & Hnd & _ & (pre & post & Hmid)).
  assert (Hn : 0 <= n) by (apply (len_bound self n Hlen)).
  assert (Hget : forall i, 0 <= i < n -> exists w, getitem self i = OK w).
  { intros i Hi.
    destruct (getitem_ok self n i Hlen Hi Hnd) as (w & lb & rb & Hw & _ & _).
    - rewrite He, Hs. unfold minutes. lia.
    - rewrite Hmid in Hinc. exact (increasing_middle _ _ _ Hinc).
    - exists w. assumption. }
  assert (Hrange : forall i, In i (Py.range n) -> 0 <= i < n).
  { intros i Hi. unfold Py.range in Hi. apply in_map_iff in Hi.
    destruct Hi as (k & <- & Hk). apply in_seq in Hk. lia. }
  destruct (mapM_total (getitem self) (Py.range n)) as (ws & Hws).
  { intros i Hi. apply Hget, Hrange, Hi. }
  exists n, ws. split; [assumption |].
  split; [unfold iter; rewrite Hlen; exact Hws |].
  destruct (Forall2_index _ _ _ (mapM_ok _ _ _ Hws)) as (Hlen' & Hidx).
  split; [rewrite Hlen', CoreMore.range_len; lia |].
  intros i Hi.
  destruct (Hidx i i (CoreMore.range_index n i Hi)) as (w & Hw & Hgw).
  exists w. split; [assumption |]. split; [assumption |].
  destruct (getitem_fields _ _ _ Hgw) as (Hstart & Hend).
  rewrite Hstart, Hend, He, Hs. split; lia.
Qed.

(** X30: on samples in strictly increasing time order and for a duration
    that is not zero, iterating a constructed forecast raises nothing and
    yields exactly the windows that [len] counts, in order: the [i]-th is
    the window of offset [i], which starts [i] steps after the reference
    start and lasts the duration. *)
Theorem iter_windows data d s mwm ec self :
  init data d s mwm ec = OK self ->
  strictly_increasing data = true ->
  d <> 0 ->
  exists n ws,
    len self = OK n /\ iter self = OK ws /\ Py.len ws = n /\
    forall i, 0 <= i < n ->
      exists w, Py.index ws i = OK w /\ getitem self i = OK w /\
                start w = s + i * wf_data_stepsize self /\
                end_ w = start w + minutes d.
Proof. exact (iter_facts data d s mwm ec self). Qed.

Lemma iter_windows_witness :
  exists n ws,
    len {| wf_duration := 45; wf_max_window_minutes := None;
           wf_end_constraint := None; wf_data_stepsize := minutes 30;
           wf_start := minutes 10; wf_end := minutes 55;
           wf_data := map cats_sample [(70, 0); (70, 30); (70, 60); (70, 90)];
           wf_ndata := 2 |} = OK n /\
    iter {| wf_duration := 45; wf_max_window_minutes := None;
            wf_end_constraint := None; wf_data_stepsize := minutes 30;
            wf_start := minutes 10; wf_end := minutes 55;
            wf_data := map cats_sample [(70, 0); (70, 30); (70, 60); (70, 90)];
            wf_ndata := 2 |} = OK ws /\
    Py.len ws = n.
Proof.
  destruct (iter_windows
              (map cats_sample [(70, 0); (70, 30); (70, 60); (70, 90)])
              45 (minutes 10) None None
              {| wf_duration := 45; wf_max_window_minutes := None;
                 wf_end_constraint := None; wf_data_stepsize := minutes 30;
                 wf_start := minutes 10; wf_end := minutes 55;
                 wf_data := map cats_sample [(70, 0); (70, 30); (70, 60); (70, 90)];
                 wf_ndata := 2 |})
    as (n & ws & Hlen & Hiter & Hcount & _).
  - vm_compute; reflexivity.
  - reflexivity.
  - lia.
  - exists n, ws. split; [exact Hlen |]. split; [exact Hiter | exact Hcount].
Defined.

End CatsIter.
